(** * AURELIUS task scheduler: a shallow embedding of
      [src/aurelius/modules/scheduler.py] and the properties of its
      schedule evaluator, job runner, history log, health check, status
      query, manual trigger and shutdown. *)

From Stdlib Require Import ZArith Lia Bool List.
From stdpp Require Import base option list strings gmap.
From Stdlib Require Import QArith.

Close Scope Q_scope.
Local Open Scope Z_scope.

(** ** Naive datetimes

    [datetime.now()] yields a naive local datetime.  Arithmetic on naive
    datetimes is plain proleptic-Gregorian arithmetic, so a datetime is
    modelled by the number of microseconds elapsed since
    0001-01-01T00:00:00.  The ISO text kept in [config["last_run"]] is
    [isoformat()] of such a value and is read back with [fromisoformat];
    the model keeps the datetime the text denotes. *)

Definition datetime := Z.

Definition US_PER_SECOND : Z := 1000000.
Definition US_PER_MINUTE : Z := 60 * US_PER_SECOND.
Definition US_PER_HOUR : Z := 60 * US_PER_MINUTE.
Definition US_PER_DAY : Z := 24 * US_PER_HOUR.

(** [d.toordinal() - 1]: whole days since 0001-01-01. *)
Definition dt_date (t : datetime) : Z := t / US_PER_DAY.

(** [d.hour]. *)
Definition dt_hour (t : datetime) : Z := (t / US_PER_HOUR) mod 24.

(** [d.weekday()]: Monday is 0; 0001-01-01 is a Monday. *)
Definition dt_weekday (t : datetime) : Z := dt_date t mod 7.

Definition is_leap (year : Z) : bool :=
  (year mod 4 =? 0) && (negb (year mod 100 =? 0) || (year mod 400 =? 0)).

(** CPython's [_DAYS_BEFORE_MONTH] and [_DAYS_IN_MONTH] tables. *)
Definition days_before_month_tbl (month : Z) : Z :=
  match month with
  | 1 => 0 | 2 => 31 | 3 => 59 | 4 => 90 | 5 => 120 | 6 => 151
  | 7 => 181 | 8 => 212 | 9 => 243 | 10 => 273 | 11 => 304 | 12 => 334
  | _ => 0
  end.

Definition days_in_month_tbl (month : Z) : Z :=
  match month with
  | 1 => 31 | 2 => 28 | 3 => 31 | 4 => 30 | 5 => 31 | 6 => 30
  | 7 => 31 | 8 => 31 | 9 => 30 | 10 => 31 | 11 => 30 | 12 => 31
  | _ => 0
  end.

Definition b2z (b : bool) : Z := if b then 1 else 0.

(** CPython's [_ord2ymd], on the zero-based day count [n]. *)
Definition ord2ymd (n : Z) : Z * Z * Z :=
  let n400 := n / 146097 in
  let n := n mod 146097 in
  let n100 := n / 36524 in
  let n := n mod 36524 in
  let n4 := n / 1461 in
  let n := n mod 1461 in
  let n1 := n / 365 in
  let n := n mod 365 in
  let year := n400 * 400 + 1 + n100 * 100 + n4 * 4 + n1 in
  if (n1 =? 4) || (n100 =? 4) then (year - 1, 12, 31)
  else
    let leapyear := (n1 =? 3) && (negb (n4 =? 24) || (n100 =? 3)) in
    let month := Z.shiftr (n + 50) 5 in
    let preceding :=
      days_before_month_tbl month + b2z ((2 <? month) && leapyear) in
    if n <? preceding then
      let month' := month - 1 in
      let preceding' :=
        preceding - (days_in_month_tbl month' + b2z ((month' =? 2) && leapyear)) in
      (year, month', n - preceding' + 1)
    else (year, month, n - preceding + 1).

(** [d.day]: the day of the month. *)
Definition dt_day (t : datetime) : Z := snd (ord2ymd (dt_date t)).

(** CPython's [_ymd2ord], minus one (zero-based day count). *)
Definition ymd2ord (year month day : Z) : Z :=
  let y := year - 1 in
  y * 365 + y / 4 - y / 100 + y / 400
  + (days_before_month_tbl month + b2z ((2 <? month) && is_leap year))
  + day - 1.

(** The datetime at [hour]:[minute] on the day with zero-based ordinal
    [day]. *)
Definition on_day (day hour minute : Z) : datetime :=
  day * US_PER_DAY + hour * US_PER_HOUR + minute * US_PER_MINUTE.

(** [datetime(year, month, day, hour, minute)]. *)
Definition mk_datetime (year month day hour minute : Z) : datetime :=
  on_day (ymd2ord year month day) hour minute.

(** [date.max.toordinal()] days: datetimes live in years 1..9999. *)
Definition MAX_DAYS : Z := 3652059.
Definition MAX_DELTA_DAYS : Z := 999999999.

(** [last_run + timedelta(minutes=m)]; [None] stands for the
    [OverflowError] that [timedelta] or the addition raises. *)
Definition add_minutes (t : datetime) (m : Z) : option datetime :=
  let delta := m * US_PER_MINUTE in
  if (Z.abs (delta / US_PER_DAY) >? MAX_DELTA_DAYS) then None
  else
    let r := t + delta in
    if (r <? 0) || (MAX_DAYS * US_PER_DAY <=? r) then None else Some r.

(** ** Python exceptions and results

    [Error msg] is an instance of a subclass of [Exception] with
    [str(e) = msg]; [CancelledError] is [asyncio.CancelledError], which
    derives from [BaseException] since Python 3.8 (the version that
    [asyncio.create_task(..., name=...)] in [_start_scheduled_tasks]
    needs) and is therefore not caught by [except Exception]. *)

Inductive Exn :=
| Error (msg : string)
| CancelledError.

Inductive Res (A : Type) :=
| Val (a : A)
| Raise (e : Exn).
Arguments Val {A} a.
Arguments Raise {A} e.

(** ** Persisted values *)

(** The [execution_log] dict of [_log_task_execution]. *)
Record ExecutionLog := {
  log_task_name : string;
  log_timestamp : datetime;
  log_success : bool;
  log_error : option string
}.

(** One entry of [health_status["task_status"]]. *)
Record TaskLiveness := {
  running : bool;
  cancelled : bool
}.

Inductive OverallStatus := StatusUnknown | Healthy | Degraded | Unhealthy.

(** The [health_status] dict of [_system_health_check] (its constant
    [api_endpoints] and [memory_usage] entries carry no information). *)
Record HealthStatus := {
  hs_timestamp : datetime;
  redis_connection : bool;
  task_status : list (string * TaskLiveness);
  overall_status : OverallStatus
}.

(** What the scheduler writes under a key of the data store. *)
Inductive Value :=
| VHistory (history : list ExecutionLog)
| VStamp (iso : datetime)
| VHealth (h : HealthStatus).

Record Entry := {
  entry_value : Value;
  expires_at : option datetime
}.

(** ** The world outside the scheduler *)

Inductive StoreMode :=
| StoreOk          (* reachable *)
| StoreRaises      (* unreachable, the client raises *)
| StoreSilent.     (* unreachable, the client swallows: get is absent, set is lost *)

Inductive ReportKind := Daily | Weekly | Monthly.

Inductive ReportResult :=
| Report (text : string)
| NoReport
| ReportError (msg : string).

(** Externally visible side effects, newest first. *)
Inductive Effect :=
| Alert (message source : string)
| ReportBuilt (kind : ReportKind)
| ReportSent (text : string)
| CancelRequested (task_name : string).

Record World := {
  clock : datetime;
  store_mode : StoreMode;
  store : gmap string Entry;
  discord_up : bool;
  report_feed : ReportKind -> ReportResult;
  effects : list Effect
}.

Definition with_store (m : gmap string Entry) (w : World) : World :=
  {| clock := clock w; store_mode := store_mode w; store := m;
     discord_up := discord_up w; report_feed := report_feed w;
     effects := effects w |}.

Definition with_effect (e : Effect) (w : World) : World :=
  {| clock := clock w; store_mode := store_mode w; store := store w;
     discord_up := discord_up w; report_feed := report_feed w;
     effects := e :: effects w |}.

Definition with_clock (t : datetime) (w : World) : World :=
  {| clock := t; store_mode := store_mode w; store := store w;
     discord_up := discord_up w; report_feed := report_feed w;
     effects := effects w |}.

(** ** The scheduler object *)

(** The bound methods registered as [config["function"]].  The jobs whose
    bodies live in other modules (content posting, engagement, sales,
    learning) are opaque operations on the world: they return, raise an
    error, or are cancelled at one of their awaits. *)
Inductive JobFunction :=
| GenerateDailyAnalytics
| GenerateWeeklyAnalytics
| GenerateMonthlyAnalytics
| SystemHealthCheck
| Opaque (operation : World -> Res unit * World).

(** One value of [task_configs], as [_initialize_task_configs] builds it;
    only [run_at_hour] is an optional key. *)
Record Config := {
  interval_minutes : Z;
  enabled : bool;
  last_run : option datetime;
  function : JobFunction;
  run_at_hour : option Z
}.

(** [task_configs] is a [Dict[str, Dict[str, Any]]] attribute that any
    caller may assign to; an entry that is not a dict ([None], say) makes
    [config.get] and [config[...]] raise. *)
Inductive ConfigObj :=
| ConfigDict (config : Config)
| NotADict.

(** How an [asyncio.Task] ended, or will end once cancelled and awaited. *)
Inductive Completion :=
| Returned
| Cancelled
| Crashed (msg : string).

Inductive TaskState :=
| Pending
| Done (c : Completion).

(** An [asyncio.Task]; [on_cancel] is how its coroutine reacts to the
    [CancelledError] thrown into it by [task.cancel()].  A coroutine that
    swallows the cancellation and never finishes is outside the model:
    awaiting it would not return. *)
Record Task := {
  task_state : TaskState;
  on_cancel : Completion
}.

Record TaskScheduler := {
  running_tasks : list (string * Task);
  task_configs : list (string * ConfigObj);
  is_running : bool
}.

Record Sys := {
  self : TaskScheduler;
  env : World
}.

(** ** Insertion-ordered dicts with string keys *)

Fixpoint dict_get {V : Type} (k : string) (d : list (string * V)) : option V :=
  match d with
  | [] => None
  | (k', v) :: rest => if String.eqb k k' then Some v else dict_get k rest
  end.

Fixpoint dict_set {V : Type} (k : string) (v : V) (d : list (string * V))
  : list (string * V) :=
  match d with
  | [] => [(k, v)]
  | (k', v') :: rest =>
      if String.eqb k k' then (k, v) :: rest else (k', v') :: dict_set k v rest
  end.

(** ** A state-and-exception monad for the coroutines *)

Definition M (A : Type) : Type := Sys -> Res A * Sys.

Definition ret {A} (a : A) : M A := fun s => (Val a, s).

Definition raise {A} (e : Exn) : M A := fun s => (Raise e, s).

Definition bind {A B} (c : M A) (k : A -> M B) : M B :=
  fun s =>
    match c s with
    | (Val a, s') => k a s'
    | (Raise e, s') => (Raise e, s')
    end.

Notation "'let*' x := c 'in' k" := (bind c (fun x => k))
  (at level 10, x binder, c at level 100, k at level 200,
   format "'[v' 'let*'  x  :=  c  'in' '/' k ']'").

(** [try: body except Exception as e: handler(str(e))]. *)
Definition try_except {A} (body : M A) (handler : string -> M A) : M A :=
  fun s =>
    match body s with
    | (Raise (Error msg), s') => handler msg s'
    | r => r
    end.

(** [try: body except: pass]. *)
Definition try_bare (body : M unit) : M unit :=
  fun s =>
    match body s with
    | (Raise _, s') => (Val tt, s')
    | r => r
    end.

(** [try: body except asyncio.CancelledError: pass]. *)
Definition try_cancelled (body : M unit) : M unit :=
  fun s =>
    match body s with
    | (Raise CancelledError, s') => (Val tt, s')
    | r => r
    end.

Definition gets {A} (f : Sys -> A) : M A := fun s => (Val (f s), s).

Definition modify_env (f : World -> World) : M unit :=
  fun s => (Val tt, {| self := self s; env := f (env s) |}).

Definition modify_self (f : TaskScheduler -> TaskScheduler) : M unit :=
  fun s => (Val tt, {| self := f (self s); env := env s |}).

(** [datetime.now()]. *)
Definition datetime_now : M datetime := gets (fun s => clock (env s)).

(** ** Collaborators *)

(** A stored entry is visible until its expiry time. *)
Definition live (now : datetime) (e : Entry) : option Value :=
  match expires_at e with
  | Some t => if t <=? now then None else Some (entry_value e)
  | None => Some (entry_value e)
  end.

(** Modelled from the spec: the state store client [data_store] (module
    [data_store] is not among the sources).  [get(key) -> value|absent].
    An unreachable store either raises or answers absent. *)
Definition data_store_get (key : string) : M (option Value) :=
  fun s =>
    match store_mode (env s) with
    | StoreOk => (Val (store (env s) !! key ≫= live (clock (env s))), s)
    | StoreRaises => (Raise (Error "data store unreachable"), s)
    | StoreSilent => (Val None, s)
    end.

(** Modelled from the spec: [set(key, value, expire?: duration) -> ok],
    [expire] in seconds. *)
Definition data_store_set (key : string) (v : Value) (expire : option Z) : M unit :=
  fun s =>
    match store_mode (env s) with
    | StoreOk =>
        let e := {| entry_value := v;
                    expires_at := (fun d => clock (env s) + d * US_PER_SECOND) <$> expire |} in
        (Val tt, {| self := self s;
                    env := with_store (<[key := e]> (store (env s))) (env s) |})
    | StoreRaises => (Raise (Error "data store unreachable"), s)
    | StoreSilent => (Val tt, s)
    end.

(** Modelled from the spec: the alerting sink
    [send_alert(message, source_tag) -> ok|error] (module [social] is not
    among the sources). *)
Definition discord_send_system_alert (message source : string) : M unit :=
  fun s =>
    if discord_up (env s)
    then (Val tt, {| self := self s; env := with_effect (Alert message source) (env s) |})
    else (Raise (Error "discord unreachable"), s).

(** Modelled from the spec: delivery of an analytics report to the same
    sink. *)
Definition discord_send_analytics_report (text : string) : M unit :=
  fun s =>
    if discord_up (env s)
    then (Val tt, {| self := self s; env := with_effect (ReportSent text) (env s) |})
    else (Raise (Error "discord unreachable"), s).

(** Modelled from the spec: the analytics report builders
    [generate_daily_report], [generate_weekly_report] and
    [generate_monthly_report] (module [analytics] is not among the
    sources): opaque calls that yield a report, nothing, or raise. *)
Definition generate_report (kind : ReportKind) : M (option string) :=
  fun s =>
    let s' := {| self := self s; env := with_effect (ReportBuilt kind) (env s) |} in
    match report_feed (env s) kind with
    | Report text => (Val (Some text), s')
    | NoReport => (Val None, s')
    | ReportError msg => (Raise (Error msg), s')
    end.

(** [await asyncio.sleep(60)]: the runner is suspended; a cancellation
    requested meanwhile is thrown into it here.  The sixty seconds pass in
    the world (see [Elapse] below), not in the runner. *)
Definition asyncio_sleep (seconds : Z) (interrupted : bool) : M unit :=
  if interrupted then raise CancelledError else ret tt.

(** ** Binary floating point

    Python's true division of two ints returns the binary64 number
    nearest to the exact quotient, a tie going to the even mantissa;
    the product of two floats is rounded in the same way.  A binary64
    number is kept as the rational it denotes. *)

(** [n / d] rounded to the nearest integer, a tie to the even one
    ([0 < d]). *)
Definition round_half_even (n d : Z) : Z :=
  let q := n / d in
  let r := n mod d in
  if 2 * r <? d then q
  else if d <? 2 * r then q + 1
  else if Z.even q then q else q + 1.

(** The number of binary digits that the 53-bit mantissa of [n / d]
    keeps after the point ([0 < n], [0 < d]): 52 minus the binary
    exponent of the quotient.  From 2^53 on, where a mantissa would
    step by more than 1, the model keeps no digit and rounds to an
    integer; no quotient of this program gets there (a [timedelta]
    holds fewer than 2^47 seconds, a rate is at most 100). *)
Definition fraction_bits (n d : Z) : Z :=
  let L := Z.log2 d + 1 in
  Z.max 0 (52 + L - Z.log2 (n * 2 ^ L / d)).

(** The binary64 nearest to [n / d], for [0 < d].  Underflow does not
    occur for the quotients of this program and is not modelled. *)
Definition binary64 (n d : Z) : Q :=
  if n =? 0 then 0%Q
  else
    let s := fraction_bits (Z.abs n) d in
    Qmake (Z.sgn n * round_half_even (Z.abs n * 2 ^ s) d) (Z.to_pos (2 ^ s)).

(** [x < y] on numbers; the comparison of a float with an int is
    exact. *)
Definition Qltb (x y : Q) : bool := negb (Qle_bool y x).

(** [timedelta.total_seconds()], of a span given in microseconds:
    [(days * 86400 + seconds) * 10**6 + microseconds) / 10**6]. *)
Definition total_seconds (span : Z) : Q := binary64 span (10 ^ 6).

(** ** Schedule evaluator *)

(** The body of [_should_run_task], with [now] the reading of
    [datetime.now()]: the function does not await, so its calls of
    [datetime.now()] read one instant. *)
Definition should_run_at (config : Config) (run_at_hour : option Z)
    (now : datetime) : bool :=
  match last_run config with
  | None =>
      match run_at_hour with
      | Some h => dt_hour now =? h
      | None => true
      end
  | Some last =>
      if Qltb (total_seconds (now - last))
           (inject_Z (interval_minutes config * 60))
      then false
      else
        match run_at_hour with
        | Some h =>
            if negb (dt_hour now =? h) then false
            else if (dt_date last =? dt_date now) && (dt_hour last =? h) then false
            else true
        | None => true
        end
  end.

(** The runner holds a reference to its dict in [task_configs]; the model
    reaches it by name. *)
Definition get_config (task_name : string) : M Config :=
  fun s =>
    match dict_get task_name (task_configs (self s)) with
    | Some (ConfigDict c) => (Val c, s)
    | Some NotADict => (Raise (Error "TypeError"), s)
    | None => (Raise (Error "KeyError"), s)
    end.

Definition _should_run_task (task_name : string) (run_at_hour : option Z) : M bool :=
  try_except
    (let* config := get_config task_name in
     let* now := datetime_now in
     ret (should_run_at config run_at_hour now))
    (fun _ => ret false).

(** ** Execution history *)

Definition history_key (task_name : string) : string :=
  String.append "task_execution_history:" task_name.

(** [history = await data_store.get(history_key) or []], then
    [history.insert(0, execution_log)]: an absent or empty value starts a
    fresh list.  The other values of [Value], the ISO text of a time and
    the health snapshot dict, are not empty, so [or] keeps them, and they
    have no [insert]. *)
Definition history_of (v : option Value) : Res (list ExecutionLog) :=
  match v with
  | None => Val []
  | Some (VHistory l) => Val l
  | Some _ => Raise (Error "AttributeError")
  end.

Definition _log_task_execution (task_name : string) (success : bool)
    (error : option string) : M unit :=
  try_except
    (let* now := datetime_now in
     let execution_log :=
       {| log_task_name := task_name; log_timestamp := now;
          log_success := success; log_error := error |} in
     let* v := data_store_get (history_key task_name) in
     let* history := (fun s => (history_of v, s)) in
     let history := take 100 (execution_log :: history) in
     data_store_set (history_key task_name) (VHistory history) None)
    (fun _ => ret tt).

(** ** Job operations

    The [log_async_function_calls] decorator (module [logger], not among
    the sources) only logs; it is transparent here. *)

Definition _generate_daily_analytics : M unit :=
  try_except
    (let* report := generate_report Daily in
     match report with
     | Some text => discord_send_analytics_report text
     | None => ret tt
     end)
    (fun _ => ret tt).

Definition _generate_weekly_analytics : M unit :=
  try_except
    (let* now := datetime_now in
     (* Only run on Mondays *)
     if dt_weekday now =? 0 then
       let* report := generate_report Weekly in
       match report with
       | Some text => discord_send_analytics_report text
       | None => ret tt
       end
     else ret tt)
    (fun _ => ret tt).

Definition _generate_monthly_analytics : M unit :=
  try_except
    (let* now := datetime_now in
     (* Only run on the 1st of the month *)
     if dt_day now =? 1 then
       let* report := generate_report Monthly in
       match report with
       | Some text => discord_send_analytics_report text
       | None => ret tt
       end
     else ret tt)
    (fun _ => ret tt).

Definition task_done (t : Task) : bool :=
  match task_state t with
  | Pending => false
  | Done _ => true
  end.

Definition task_cancelled (t : Task) : bool :=
  match task_state t with
  | Done Cancelled => true
  | _ => false
  end.

Definition liveness_of (t : Task) : TaskLiveness :=
  {| running := negb (task_done t);
     cancelled := if task_done t then task_cancelled t else false |}.

Definition derive_overall_status (redis_ok tasks_ok : bool) : OverallStatus :=
  if redis_ok && tasks_ok then Healthy
  else if redis_ok || tasks_ok then Degraded
  else Unhealthy.

(** The first part of [_system_health_check]: probe the store, list the
    runners, derive the overall status. *)
Definition build_health_status : M HealthStatus :=
  let* now := datetime_now in
  let* redis :=
    try_except
      (let* _ := data_store_set "health_check" (VStamp now) (Some 300) in
       let* test_value := data_store_get "health_check" in
       ret (match test_value with Some _ => true | None => false end))
      (fun _ => ret false) in
  let* tasks := gets (fun s => running_tasks (self s)) in
  let statuses := map (fun nt => (fst nt, liveness_of (snd nt))) tasks in
  let redis_ok := redis in
  let tasks_ok := forallb (fun nt => running (snd nt)) statuses in
  ret {| hs_timestamp := now;
         redis_connection := redis;
         task_status := statuses;
         overall_status := derive_overall_status redis_ok tasks_ok |}.

Definition _system_health_check : M unit :=
  try_except
    (let* health_status := build_health_status in
     let* _ := data_store_set "system_health" (VHealth health_status) (Some 3600) in
     match overall_status health_status with
     | Unhealthy =>
         discord_send_system_alert
           "System health check failed - multiple components are down"
           "health_monitor"
     | _ => ret tt
     end)
    (fun _ => ret tt).

(** [await task_function()]. *)
Definition call_function (f : JobFunction) : M unit :=
  match f with
  | GenerateDailyAnalytics => _generate_daily_analytics
  | GenerateWeeklyAnalytics => _generate_weekly_analytics
  | GenerateMonthlyAnalytics => _generate_monthly_analytics
  | SystemHealthCheck => _system_health_check
  | Opaque operation =>
      fun s =>
        let (r, w) := operation (env s) in
        (r, {| self := self s; env := w |})
  end.

(** ** Job runner *)

(** The config dict after [config["last_run"] = now]. *)
Definition ran_at (now : datetime) (c : Config) : Config :=
  {| interval_minutes := interval_minutes c; enabled := enabled c;
     last_run := Some now; function := function c;
     run_at_hour := run_at_hour c |}.

Definition set_last_run_cfg (now : datetime) (o : ConfigObj) : ConfigObj :=
  match o with
  | ConfigDict c => ConfigDict (ran_at now c)
  | NotADict => NotADict
  end.

Definition with_configs (cfgs : list (string * ConfigObj)) (t : TaskScheduler)
  : TaskScheduler :=
  {| running_tasks := running_tasks t; task_configs := cfgs;
     is_running := is_running t |}.

Definition with_tasks (tasks : list (string * Task)) (t : TaskScheduler)
  : TaskScheduler :=
  {| running_tasks := tasks; task_configs := task_configs t;
     is_running := is_running t |}.

Definition with_running (b : bool) (t : TaskScheduler) : TaskScheduler :=
  {| running_tasks := running_tasks t; task_configs := task_configs t;
     is_running := b |}.

(** [config["last_run"] = datetime.now().isoformat()] on the dict that
    [task_configs[task_name]] references. *)
Definition set_last_run (task_name : string) : M unit :=
  let* now := datetime_now in
  modify_self (fun t =>
    match dict_get task_name (task_configs t) with
    | Some o => with_configs (dict_set task_name (set_last_run_cfg now o) (task_configs t)) t
    | None => t
    end).

Definition alert_text (task_name msg : string) : string :=
  String.append "Scheduled task '"
    (String.append task_name (String.append "' failed: " msg)).

(** The [if should_run:] branch of the runner's loop body. *)
Definition execute_due (task_name : string) (task_function : JobFunction) : M unit :=
  try_except
    (let* _ := call_function task_function in
     let* _ := set_last_run task_name in
     _log_task_execution task_name true None)
    (fun e =>
       let* _ := _log_task_execution task_name false (Some e) in
       try_bare (discord_send_system_alert (alert_text task_name e) "scheduler")).

Inductive LoopControl := KeepLooping | LoopExit.

(** One evaluation of [while self.is_running:] and of the loop body of
    [_run_periodic_task].  [task_function] and [run_at_hour] were read
    from the config before the loop.  A raised result is an exception
    that leaves the coroutine. *)
Definition runner_iteration (task_name : string) (task_function : JobFunction)
    (run_at_hour : option Z) (interrupted : bool) : M LoopControl :=
  fun s =>
    if negb (is_running (self s)) then (Val LoopExit, s)
    else
      let body :=
        let* should_run := _should_run_task task_name run_at_hour in
        let* _ := if should_run then execute_due task_name task_function else ret tt in
        asyncio_sleep 60 interrupted in
      match body s with
      | (Val _, s') => (Val KeepLooping, s')
      | (Raise CancelledError, s') => (Val LoopExit, s')
      | (Raise (Error _), s') =>
          (let* _ := asyncio_sleep 60 interrupted in ret KeepLooping) s'
      end.

(** ** Manual trigger *)

Definition run_task_manually (task_name : string) : M bool :=
  try_except
    (let* cfgs := gets (fun s => task_configs (self s)) in
     match dict_get task_name cfgs with
     | None => ret false
     | Some NotADict => raise (Error "'NoneType' object is not subscriptable")
     | Some (ConfigDict config) =>
         let* _ := call_function (function config) in
         let* _ := set_last_run task_name in
         let* _ := _log_task_execution task_name true None in
         ret true
     end)
    (fun e =>
       let* _ := _log_task_execution task_name false (Some e) in
       ret false).

(** ** Status query *)

(** The result of [_calculate_next_run]: ["immediately"], an ISO time, or
    [None]. *)
Inductive NextRun :=
| Immediately
| NextAt (t : datetime)
| NextNone.

Record TaskStatus := {
  st_enabled : bool;
  st_interval_minutes : Z;
  st_last_run : option datetime;
  st_running : bool;
  st_next_run : NextRun
}.

(** The dict returned by [get_task_status]; a key that is absent is
    [None], so the empty dict is [empty_status]. *)
Record StatusDict := {
  scheduler_running : option bool;
  tasks : option (list (string * TaskStatus));
  last_updated : option datetime
}.

Definition empty_status : StatusDict :=
  {| scheduler_running := None; tasks := None; last_updated := None |}.

Definition _calculate_next_run (config : Config) : NextRun :=
  match last_run config with
  | None => Immediately
  | Some last =>
      match add_minutes last (interval_minutes config) with
      | Some t => NextAt t
      | None => NextNone
      end
  end.

(** One round of the [for task_name, config in self.task_configs.items()]
    loop of [get_task_status]. *)
Definition status_entry (spawned : list (string * Task))
    (task_name : string) (o : ConfigObj) : Res TaskStatus :=
  match o with
  | NotADict => Raise (Error "AttributeError")
  | ConfigDict config =>
      let task := dict_get task_name spawned in
      Val {| st_enabled := enabled config;
             st_interval_minutes := interval_minutes config;
             st_last_run := last_run config;
             st_running :=
               match task with
               | Some t => negb (task_done t)
               | None => false
               end;
             st_next_run := _calculate_next_run config |}
  end.

Fixpoint status_entries (spawned : list (string * Task))
    (cfgs : list (string * ConfigObj)) (acc : list (string * TaskStatus))
  : Res (list (string * TaskStatus)) :=
  match cfgs with
  | [] => Val acc
  | (task_name, o) :: rest =>
      match status_entry spawned task_name o with
      | Val e => status_entries spawned rest (dict_set task_name e acc)
      | Raise e => Raise e
      end
  end.

(** The [try] block of [get_task_status]. *)
Definition build_status : M StatusDict :=
  let* running := gets (fun s => is_running (self s)) in
  let* now := datetime_now in
  let* cfgs := gets (fun s => task_configs (self s)) in
  let* spawned := gets (fun s => running_tasks (self s)) in
  let* entries := (fun s => (status_entries spawned cfgs [], s)) in
  ret {| scheduler_running := Some running;
         tasks := Some entries;
         last_updated := Some now |}.

Definition get_task_status : M StatusDict :=
  try_except build_status (fun _ => ret empty_status).

(** ** Start and stop *)

(** A runner suspended in its sleep leaves the loop through
    [except asyncio.CancelledError: break] and returns. *)
Definition spawned_runner : Task :=
  {| task_state := Pending; on_cancel := Returned |}.

(** [_start_scheduled_tasks]. *)
Fixpoint start_each (cfgs : list (string * ConfigObj)) : M unit :=
  match cfgs with
  | [] => ret tt
  | (task_name, o) :: rest =>
      match o with
      | NotADict => raise (Error "AttributeError")
      | ConfigDict config =>
          let* _ :=
            if enabled config then
              modify_self (fun t =>
                with_tasks (dict_set task_name spawned_runner (running_tasks t)) t)
            else ret tt in
          start_each rest
      end
  end.

Definition _start_scheduled_tasks : M unit :=
  let* cfgs := gets (fun s => task_configs (self s)) in
  start_each cfgs.

(** [task.cancel()]: the request is an observable side effect. *)
Definition task_cancel (task_name : string) : M unit :=
  modify_env (with_effect (CancelRequested task_name)).

(** [await task] on a task that was just cancelled: the task runs to its
    end, and the await returns or re-raises what the task raised.  The
    await is one step here: while [stop] waits for a runner that sleeps,
    the other runners sleep too.  Runners that [start] has only just
    created would make their first tick during this await, an
    interleaving that the model does not follow. *)
Definition await_task (task_name : string) (task : Task) : M unit :=
  let* _ :=
    modify_self (fun t =>
      with_tasks
        (dict_set task_name
           {| task_state := Done (on_cancel task); on_cancel := on_cancel task |}
           (running_tasks t)) t) in
  match on_cancel task with
  | Returned => ret tt
  | Cancelled => raise CancelledError
  | Crashed msg => raise (Error msg)
  end.

(** The [for task_name, task in self.running_tasks.items()] loop of
    [stop]. *)
Fixpoint cancel_each (items : list (string * Task)) : M unit :=
  match items with
  | [] => ret tt
  | (task_name, task) :: rest =>
      let* _ :=
        if negb (task_done task) then
          let* _ := task_cancel task_name in
          try_cancelled (await_task task_name task)
        else ret tt in
      cancel_each rest
  end.

Definition stop : M unit :=
  let* running := gets (fun s => is_running (self s)) in
  if negb running then ret tt
  else
    let* items := gets (fun s => running_tasks (self s)) in
    let* _ := cancel_each items in
    let* _ := modify_self (with_tasks []) in
    modify_self (with_running false).

(** ** The cooperative schedule

    The event loop interleaves the runners at their awaits.  A run of the
    system is a list of events: a runner performs one loop iteration
    ([interrupted] tells whether a cancellation reaches it in its sleep),
    a caller triggers a job by hand, or time passes. *)

Inductive Event :=
| Tick (task_name : string) (interrupted : bool)
| Manual (task_name : string)
| Elapse (dt : Z).

Definition finish_task (task_name : string) (c : Completion) (s : Sys) : Sys :=
  match dict_get task_name (running_tasks (self s)) with
  | Some task =>
      {| self :=
           with_tasks
             (dict_set task_name
                {| task_state := Done c; on_cancel := on_cancel task |}
                (running_tasks (self s))) (self s);
         env := env s |}
  | None => s
  end.

Definition step (ev : Event) (s : Sys) : Sys :=
  match ev with
  | Elapse dt =>
      {| self := self s; env := with_clock (clock (env s) + dt) (env s) |}
  | Manual task_name => snd (run_task_manually task_name s)
  | Tick task_name interrupted =>
      match dict_get task_name (running_tasks (self s)),
            dict_get task_name (task_configs (self s)) with
      | Some task, Some (ConfigDict config) =>
          match task_state task with
          | Pending =>
              match runner_iteration task_name (function config)
                      (run_at_hour config) interrupted s with
              | (Val KeepLooping, s') => s'
              | (Val LoopExit, s') => finish_task task_name Returned s'
              | (Raise CancelledError, s') => finish_task task_name Cancelled s'
              | (Raise (Error msg), s') => finish_task task_name (Crashed msg) s'
              end
          | Done _ => s
          end
      | _, _ => s
      end
  end.

Definition run (evs : list Event) (s : Sys) : Sys :=
  fold_left (fun s ev => step ev s) evs s.

(** The runner of [task_name] has not left its loop. *)
Definition alive (task_name : string) (s : Sys) : bool :=
  match dict_get task_name (running_tasks (self s)) with
  | Some task => negb (task_done task)
  | None => false
  end.

(** The schedule evaluator's answer for [task_name] in state [s]. *)
Definition due_now (task_name : string) (s : Sys) : bool :=
  match dict_get task_name (task_configs (self s)) with
  | Some (ConfigDict config) =>
      should_run_at config (run_at_hour config) (clock (env s))
  | _ => false
  end.

(** Every tick of the schedule finds its job due. *)
Fixpoint all_due (evs : list Event) (s : Sys) : bool :=
  match evs with
  | [] => true
  | ev :: rest =>
      match ev with
      | Tick task_name _ => due_now task_name s
      | _ => true
      end && all_due rest (step ev s)
  end.

Definition ticks_of (task_name : string) (evs : list Event) : nat :=
  length (List.filter (fun ev =>
                    match ev with
                    | Tick n _ => String.eqb n task_name
                    | _ => false
                    end) evs).

(** An event that the isolation property considers: time passing, or a
    tick, not interrupted by a cancellation, of a runner that is alive in
    [s]. *)
Definition schedulable (s : Sys) (ev : Event) : bool :=
  match ev with
  | Tick n i => negb i && alive n s
  | Manual _ => false
  | Elapse _ => true
  end.

(** The history persisted for [task_name], as a reader of the store sees
    it. *)
Definition stored_history (task_name : string) (w : World) : list ExecutionLog :=
  match store w !! history_key task_name ≫= live (clock w) with
  | Some (VHistory l) => l
  | _ => []
  end.

(** A job whose every invocation attempt is logged: [attempts] lists, for
    each attempt in turn, the time that passed before it, its outcome and
    its error text. *)
Fixpoint log_attempts (task_name : string)
    (attempts : list (Z * bool * option string)) : M unit :=
  match attempts with
  | [] => ret tt
  | (dt, success, error) :: rest =>
      let* _ := modify_env (fun w => with_clock (clock w + dt) w) in
      let* _ := _log_task_execution task_name success error in
      log_attempts task_name rest
  end.

(** The records that [log_attempts] creates, oldest first, when started
    at time [now]. *)
Fixpoint records_of (task_name : string) (now : datetime)
    (attempts : list (Z * bool * option string)) : list ExecutionLog :=
  match attempts with
  | [] => []
  | (dt, success, error) :: rest =>
      {| log_task_name := task_name; log_timestamp := now + dt;
         log_success := success; log_error := error |}
      :: records_of task_name (now + dt) rest
  end.

(** ** Vocabulary of the properties *)

(** The store holds the list [l] as the history of [task_name] (an absent
    key reads as the empty history). *)
Definition holds_history (task_name : string) (l : list ExecutionLog) (w : World) : Prop :=
  store_mode w = StoreOk
  /\ (store w !! history_key task_name
        = Some {| entry_value := VHistory l; expires_at := None |}
      \/ (store w !! history_key task_name = None /\ l = [])).

(** An interval of at most 2^34 seconds, some 544 years.  Up to there
    the binary64 reading of a span still tells the last microsecond
    before the interval from the interval; beyond, it rounds that
    microsecond away. *)
Definition plain_interval (config : Config) : Prop :=
  0 < interval_minutes config * 60 <= 2 ^ 34.

(** [c'] is the config [c] after [config["last_run"] = now]: the
    stamp is [now] and every other key is as before. *)
Definition restamped (c c' : Config) (now : datetime) : Prop :=
  last_run c' = Some now
  /\ interval_minutes c' = interval_minutes c
  /\ enabled c' = enabled c
  /\ function c' = function c
  /\ run_at_hour c' = run_at_hour c.



(** Every tracked runner is still running. *)
Definition all_pending (spawned : list (string * Task)) : Prop :=
  Forall (fun nt => task_state (snd nt) = Pending) spawned.

(** Awaiting [t] after its cancellation raises nothing that [stop] lets
    through: [t] is already done, or it returns, or it raises
    [CancelledError]. *)
Definition clean_cancel (t : Task) : bool :=
  match on_cancel t with
  | Crashed _ => task_done t
  | _ => true
  end.

(** The world after [stop] asked every runner of [items] that was not
    done to cancel. *)
Definition drained_env (items : list (string * Task)) (w : World) : World :=
  fold_left
    (fun w nt =>
       if task_done (snd nt) then w else with_effect (CancelRequested (fst nt)) w)
    items w.

(** The stopped state that [stop] reaches from [s]. *)
Definition stopped (s : Sys) : Sys :=
  {| self := {| running_tasks := []; task_configs := task_configs (self s);
                is_running := false |};
     env := drained_env (running_tasks (self s)) (env s) |}.

(** The record that [_log_task_execution] creates at time [now]. *)
Definition record_at (task_name : string) (now : datetime) (success : bool)
    (error : option string) : ExecutionLog :=
  {| log_task_name := task_name; log_timestamp := now;
     log_success := success; log_error := error |}.

(** The scheduler after the runner of [task_name] stamped its config. *)
Definition stamped (task_name : string) (c : Config) (now : datetime)
    (t : TaskScheduler) : TaskScheduler :=
  with_configs (dict_set task_name (ConfigDict (ran_at now c)) (task_configs t)) t.

(** The world after one more record was put in front of the history [l]
    of [task_name]. *)
Definition logged (task_name : string) (r : ExecutionLog) (l : list ExecutionLog)
    (w : World) : World :=
  with_store
    (<[history_key task_name :=
         {| entry_value := VHistory (take 100 (r :: l)); expires_at := None |}]>
       (store w)) w.

(** The alert that the runner sends when [task_name] failed with [msg],
    if the sink takes it. *)
Definition alerted (task_name msg : string) (w : World) : World :=
  if discord_up w
  then with_effect (Alert (alert_text task_name msg) "scheduler") w
  else w.

(** A coroutine that leaves the scheduler object as it found it. *)
Definition keeps_self {A : Type} (c : M A) : Prop :=
  forall s, self (snd (c s)) = self s.

(** The report job [f] is invoked on a day on which it skips its work:
    the weekly job on a day other than Monday, the monthly job on a day
    other than the 1st. *)
Definition off_day (f : JobFunction) (now : datetime) : Prop :=
  (f = GenerateWeeklyAnalytics /\ dt_weekday now <> 0)
  \/ (f = GenerateMonthlyAnalytics /\ dt_day now <> 1).

(** A coroutine that is not cancelled at its awaits and that leaves the
    reachability of the store and every execution history alone. *)
Definition keeps_histories {A : Type} (c : M A) : Prop :=
  forall s,
    fst (c s) <> Raise CancelledError
    /\ store_mode (env (snd (c s))) = store_mode (env s)
    /\ (forall k, store (env (snd (c s))) !! history_key k
                  = store (env s) !! history_key k).

(** A job operation of that kind. *)
Definition well_behaved (f : JobFunction) : Prop :=
  keeps_histories (call_function f).

(** Every registered job is such an operation. *)
Definition tame_jobs (s : Sys) : Prop :=
  forall k c,
    dict_get k (task_configs (self s)) = Some (ConfigDict c) ->
    well_behaved (function c).

(** An operation that raises an error on every invocation. *)
Definition fails_always (f : JobFunction) : Prop :=
  forall s, exists msg, fst (call_function f s) = Raise (Error msg).

(** An operation that returns normally on every invocation. *)
Definition returns_always (f : JobFunction) : Prop :=
  forall s, fst (call_function f s) = Val tt.

(** What a run of uninterrupted ticks preserves, [s0] being the state it
    started in. *)
Definition isolation_inv (s0 s : Sys) : Prop :=
  is_running (self s) = true
  /\ running_tasks (self s) = running_tasks (self s0)
  /\ store_mode (env s) = StoreOk
  /\ (forall k, exists l, holds_history k l (env s))
  /\ tame_jobs s.

Definition failed (r : ExecutionLog) : Prop := log_success r = false.
Definition succeeded (r : ExecutionLog) : Prop := log_success r = true.

(** ** Sample states

    Small concrete states on which the properties below are exercised. *)

(** A reachable store holding nothing, a working alert sink, report
    builders that deliver. *)
Definition world_at (t : datetime) : World :=
  {| clock := t; store_mode := StoreOk; store := ∅; discord_up := true;
     report_feed := fun _ => Report "report"; effects := [] |}.

Definition job (interval : Z) (last : option datetime) (f : JobFunction)
    (hour : option Z) : Config :=
  {| interval_minutes := interval; enabled := true; last_run := last;
     function := f; run_at_hour := hour |}.

(** A started scheduler: one pending runner per config. *)
Definition started (cfgs : list (string * ConfigObj)) : TaskScheduler :=
  {| running_tasks := map (fun nc => (fst nc, spawned_runner)) cfgs;
     task_configs := cfgs;
     is_running := true |}.

(** Friday 2024-03-15, 09:30. *)
Definition friday_0930 : datetime := mk_datetime 2024 3 15 9 30.

Definition always_returns : JobFunction := Opaque (fun w => (Val tt, w)).
Definition always_raises (msg : string) : JobFunction :=
  Opaque (fun w => (Raise (Error msg), w)).

(** An hourly job that last ran half an hour ago. *)
Definition sales_half_hour_ago : Sys :=
  {| self := started
       [("sales_tasks",
         ConfigDict (job 60 (Some (mk_datetime 2024 3 15 9 0)) always_returns None))];
     env := world_at friday_0930 |}.

(** A registry in which one entry was overwritten with a non-dict. *)
Definition broken_registry : Sys :=
  {| self := started
       [("sales_tasks", ConfigDict (job 60 None always_returns None));
        ("daily_analytics", NotADict)];
     env := world_at friday_0930 |}.

(** A running scheduler one of whose tasks answers cancellation with an
    error other than [CancelledError]. *)
Definition crashing_on_cancel : Sys :=
  {| self :=
       {| running_tasks :=
            [("content_posting", {| task_state := Pending; on_cancel := Crashed "boom" |});
             ("sales_tasks", spawned_runner)];
          task_configs :=
            [("content_posting", ConfigDict (job 60 None always_returns None));
             ("sales_tasks", ConfigDict (job 60 None always_returns None))];
          is_running := true |};
     env := world_at friday_0930 |}.

(** A running scheduler with a sleeping runner, a runner that lets the
    [CancelledError] through, and a task that is already done. *)
Definition three_runners : Sys :=
  {| self :=
       {| running_tasks :=
            [("content_posting", spawned_runner);
             ("sales_tasks", {| task_state := Pending; on_cancel := Cancelled |});
             ("auto_learning", {| task_state := Done (Crashed "KeyError");
                                  on_cancel := Returned |})];
          task_configs :=
            [("content_posting", ConfigDict (job 60 None always_returns None));
             ("sales_tasks", ConfigDict (job 60 None always_returns None));
             ("auto_learning", ConfigDict (job 60 None always_returns None))];
          is_running := true |};
     env := world_at friday_0930 |}.

(** A started scheduler whose only job fails on every invocation. *)
Definition flaky : Sys :=
  {| self := started
       [("content_posting", ConfigDict (job 60 None (always_raises "boom") None))];
     env := world_at friday_0930 |}.

(** The weekly report job, never run, at its report hour on a Friday. *)
Definition weekly_on_friday : Sys :=
  {| self := started
       [("weekly_analytics",
         ConfigDict (job 10080 None GenerateWeeklyAnalytics (Some 9)))];
     env := world_at friday_0930 |}.

(** Two jobs that are due every minute, [content_posting], which fails
    on every invocation, and [sales_tasks], which succeeds, next to the
    health check. *)
Definition one_bad_job : Sys :=
  {| self := started
       [("content_posting", ConfigDict (job 1 None (always_raises "boom") None));
        ("sales_tasks", ConfigDict (job 1 None always_returns None));
        ("system_health_check", ConfigDict (job 15 None SystemHealthCheck None))];
     env := world_at friday_0930 |}.

(** Three rounds of the two runners, a minute apart, after a first health
    check. *)
Definition three_rounds : list Event :=
  [Tick "system_health_check" false;
   Tick "content_posting" false; Tick "sales_tasks" false; Elapse US_PER_MINUTE;
   Tick "sales_tasks" false; Tick "content_posting" false; Elapse US_PER_MINUTE;
   Tick "content_posting" false; Tick "sales_tasks" false].

(** ** Start-up and the job registry *)

(** The fields of [settings] (module [config], not among the sources)
    that the scheduler reads. *)
Record Settings := {
  post_interval_minutes : Z;
  analytics_report_hour : Z;
  learning_update_hours : Z
}.

(** [try: await op() except Exception: log]: what the wrapper jobs do
    with an error of the collaborator they call. *)
Definition swallow (op : World -> Res unit * World) : World -> Res unit * World :=
  fun w =>
    match op w with
    | (Raise (Error _), w') => (Val tt, w')
    | r => r
    end.

(** [_process_sales_tasks]: [process_sales_tasks] (module [sales]) is the
    collaborator; its result is only logged. *)
Definition _process_sales_tasks (process_sales_tasks : World -> Res unit * World)
  : JobFunction :=
  Opaque (swallow process_sales_tasks).

(** [_process_social_engagement]: the Twitter and the Mastodon mentions
    are processed in turn, each in its own [try]; the counts are only
    logged. *)
Definition _process_social_engagement
    (twitter_engage mastodon_engage : World -> Res unit * World) : JobFunction :=
  Opaque (swallow (fun w =>
                     match swallow twitter_engage w with
                     | (Val _, w1) => swallow mastodon_engage w1
                     | r => r
                     end)).

(** The two jobs whose bodies are not embedded, and the collaborators of
    the two wrapper jobs. *)
Record Collaborators := {
  _post_scheduled_content : World -> Res unit * World;
  _run_auto_learning : World -> Res unit * World;
  process_sales_tasks : World -> Res unit * World;
  twitter_engage : World -> Res unit * World;
  mastodon_engage : World -> Res unit * World
}.

(** The dict that [_initialize_task_configs] assigns to [task_configs]. *)
Definition registry (settings : Settings) (ext : Collaborators)
  : list (string * ConfigObj) :=
  [("content_posting",
    ConfigDict {| interval_minutes := post_interval_minutes settings;
                  enabled := true; last_run := None;
                  function := Opaque (_post_scheduled_content ext);
                  run_at_hour := None |});
   ("social_engagement",
    ConfigDict {| interval_minutes := 30; enabled := true; last_run := None;
                  function := _process_social_engagement (twitter_engage ext)
                                (mastodon_engage ext);
                  run_at_hour := None |});
   ("sales_tasks",
    ConfigDict {| interval_minutes := 60; enabled := true; last_run := None;
                  function := _process_sales_tasks (process_sales_tasks ext);
                  run_at_hour := None |});
   ("daily_analytics",
    ConfigDict {| interval_minutes := 1440; enabled := true; last_run := None;
                  function := GenerateDailyAnalytics;
                  run_at_hour := Some (analytics_report_hour settings) |});
   ("weekly_analytics",
    ConfigDict {| interval_minutes := 10080; enabled := true; last_run := None;
                  function := GenerateWeeklyAnalytics;
                  run_at_hour := Some (analytics_report_hour settings) |});
   ("monthly_analytics",
    ConfigDict {| interval_minutes := 43200; enabled := true; last_run := None;
                  function := GenerateMonthlyAnalytics;
                  run_at_hour := Some (analytics_report_hour settings) |});
   ("auto_learning",
    ConfigDict {| interval_minutes := learning_update_hours settings * 60;
                  enabled := true; last_run := None;
                  function := Opaque (_run_auto_learning ext);
                  run_at_hour := None |});
   ("system_health_check",
    ConfigDict {| interval_minutes := 15; enabled := true; last_run := None;
                  function := SystemHealthCheck;
                  run_at_hour := None |})].

Definition _initialize_task_configs (settings : Settings) (ext : Collaborators)
  : M unit :=
  modify_self (with_configs (registry settings ext)).

(** [start]: [except Exception] clears the running flag and re-raises. *)
Definition start (settings : Settings) (ext : Collaborators) : M unit :=
  let* running := gets (fun s => is_running (self s)) in
  if running then ret tt
  else
    let* _ := modify_self (with_running true) in
    fun s =>
      match (let* _ := _initialize_task_configs settings ext in
             _start_scheduled_tasks) s with
      | (Raise (Error msg), s') =>
          (Raise (Error msg),
           {| self := with_running false (self s'); env := env s' |})
      | r => r
      end.

(** The names under which the jobs are registered, in registration
    order. *)
Definition job_names : list string :=
  ["content_posting"; "social_engagement"; "sales_tasks"; "daily_analytics";
   "weekly_analytics"; "monthly_analytics"; "auto_learning";
   "system_health_check"].

(** The jobs that [_initialize_task_configs] ties to the report hour. *)
Definition hour_bound (task_name : string) : bool :=
  String.eqb task_name "daily_analytics"
  || String.eqb task_name "weekly_analytics"
  || String.eqb task_name "monthly_analytics".

(** A scheduler object that was never started. *)
Definition fresh_scheduler : TaskScheduler :=
  {| running_tasks := []; task_configs := []; is_running := false |}.

(** Settings of a sample deployment: posts every two hours, reports at
    nine, learning every six hours. *)
Definition sample_settings : Settings :=
  {| post_interval_minutes := 120; analytics_report_hour := 9;
     learning_update_hours := 6 |}.

(** Collaborators that all return at once. *)
Definition quiet_collaborators : Collaborators :=
  {| _post_scheduled_content := fun w => (Val tt, w);
     _run_auto_learning := fun w => (Val tt, w);
     process_sales_tasks := fun w => (Val tt, w);
     twitter_engage := fun w => (Val tt, w);
     mastodon_engage := fun w => (Val tt, w) |}.

(** A registry with a disabled job. *)
Definition one_disabled : Sys :=
  {| self :=
       {| running_tasks := [];
          task_configs :=
            [("content_posting", ConfigDict (job 60 None always_returns None));
             ("sales_tasks",
              ConfigDict {| interval_minutes := 60; enabled := false;
                            last_run := None; function := always_returns;
                            run_at_hour := None |})];
          is_running := true |};
     env := world_at friday_0930 |}.

(** The status row that [get_task_status] builds for the job [n] with
    config [c] in state [s]. *)
Definition status_row (s : Sys) (n : string) (c : Config) : TaskStatus :=
  {| st_enabled := enabled c;
     st_interval_minutes := interval_minutes c;
     st_last_run := last_run c;
     st_running := alive n s;
     st_next_run := _calculate_next_run c |}.

(** The row of one registry entry, if the entry is a dict. *)
Definition row_of (s : Sys) (no : string * ConfigObj)
  : option (string * TaskStatus) :=
  match snd no with
  | ConfigDict c => Some (fst no, status_row s (fst no) c)
  | NotADict => None
  end.

(** A job whose operation is cancelled at one of its awaits. *)
Definition cancelled_midway : Sys :=
  {| self := started
       [("content_posting",
         ConfigDict (job 60 None (Opaque (fun w => (Raise CancelledError, w))) None))];
     env := world_at friday_0930 |}.

(** A store in which the history key of [sales_tasks] holds a timestamp
    instead of a list. *)
Definition corrupted_history : Sys :=
  {| self := started
       [("sales_tasks", ConfigDict (job 60 None always_returns None))];
     env := {| clock := friday_0930; store_mode := StoreOk;
               store := {[ history_key "sales_tasks" :=
                             {| entry_value := VStamp friday_0930;
                                expires_at := None |} ]};
               discord_up := true; report_feed := fun _ => Report "report";
               effects := [] |} |}.

(** The daily report job at the report hour, with a report builder that
    raises. *)
Definition failing_daily_report : Sys :=
  {| self := started
       [("daily_analytics",
         ConfigDict (job 1440 None GenerateDailyAnalytics (Some 9)))];
     env := {| clock := friday_0930; store_mode := StoreOk; store := ∅;
               discord_up := true;
               report_feed := fun _ => ReportError "no data";
               effects := [] |} |}.

(** A scheduler whose runners are all done, with a store that fails
    silently, respectively raises. *)
Definition all_dead (mode : StoreMode) : Sys :=
  {| self := {| running_tasks :=
                  [("content_posting",
                    {| task_state := Done Returned; on_cancel := Returned |})];
                task_configs :=
                  [("content_posting",
                    ConfigDict (job 60 None always_returns None))];
                is_running := true |};
     env := {| clock := friday_0930; store_mode := mode; store := ∅;
               discord_up := true; report_feed := fun _ => NoReport;
               effects := [] |} |}.

(** The alert of the health check. *)
Definition health_alert : Effect :=
  Alert "System health check failed - multiple components are down"
    "health_monitor".

(** * The learning engine's analyses ([auto_learning.py])

    Numbers: the scores and counts of the source are Python integers.
    Where the source takes their mean (a division by the length, or
    [statistics.mean], which is exact on integers before its final
    conversion), the model keeps the rational: the properties proved of
    these means compare them with integers only, which the rounding to
    a float preserves.  The conversion rate is computed in binary64 as
    in the source. *)

(** [interaction.get("timestamp")]: absent or empty, a text that
    [datetime.fromisoformat] rejects, or an ISO time. *)
Inductive Timestamp :=
| NoTimestamp
| BadTimestamp
| IsoTimestamp (t : datetime).

(** An interaction dict, by the keys the analyses read: the truthiness
    of ["success"], the value of ["type"] (absent reads as the empty
    string here), the timestamp. *)
Record Interaction := {
  i_success : bool;
  i_type : string;
  i_timestamp : Timestamp
}.

Definition in_strings (x : string) (l : list string) : bool :=
  existsb (String.eqb x) l.

(** What one round of the loop of [_calculate_engagement_score] adds. *)
Definition interaction_points (i : Interaction) : Z :=
  (if i_success i then 10 else 0)
  + (if in_strings (i_type i) ["reply"; "mention"] then 5
     else if in_strings (i_type i) ["like"; "favourite"] then 3
     else if in_strings (i_type i) ["share"; "boost"] then 8
     else 0).

Definition sum_Z (l : list Z) : Z := fold_right Z.add 0 l.

(** [ContentAnalyzer._calculate_engagement_score]. *)
Definition _calculate_engagement_score (interactions : list Interaction) : Q :=
  match interactions with
  | [] => 0%Q
  | _ =>
      (inject_Z (sum_Z (map interaction_points interactions))
       / inject_Z (Z.of_nat (length interactions)))%Q
  end.

(** The block of [analyze_content_performance] that picks the high and
    the low performers from the list sorted by score:
    [top_quartile = len(p) // 4], [p[:top_quartile or 1]] and
    [p[-top_quartile or 1:]]; on the empty list both stay empty. *)
Definition pick_performers {A : Type} (content_performance : list A)
  : list A * list A :=
  match content_performance with
  | [] => ([], [])
  | _ =>
      let top_quartile := (length content_performance / 4)%nat in
      (take (if (top_quartile =? 0)%nat then 1%nat else top_quartile)
         content_performance,
       if (top_quartile =? 0)%nat
       then drop 1 content_performance
       else drop (length content_performance - top_quartile) content_performance)
  end.

(** [defaultdict(list)]: [d[k].append(v)], keys in order of first
    use. *)
Fixpoint group_append {K V : Type} (eqb : K -> K -> bool) (k : K) (v : V)
    (d : list (K * list V)) : list (K * list V) :=
  match d with
  | [] => [(k, [v])]
  | (k', vs) :: rest =>
      if eqb k k' then (k', vs ++ [v]) :: rest
      else (k', vs) :: group_append eqb k v rest
  end.

(** [statistics.mean(scores) if scores else 0]. *)
Definition mean_or_zero (scores : list Z) : Q :=
  match scores with
  | [] => 0%Q
  | _ => (inject_Z (sum_Z scores) / inject_Z (Z.of_nat (length scores)))%Q
  end.

(** [max(d.items(), key=lambda x: x[1])[0]]: the first item whose value
    no other item exceeds. *)
Fixpoint max_by_value {K : Type} (best : K * Q) (items : list (K * Q)) : K :=
  match items with
  | [] => fst best
  | item :: rest =>
      if Qle_bool (snd item) (snd best) then max_by_value best rest
      else max_by_value item rest
  end.

(** [strftime("%A")] of a weekday number. *)
Definition day_name (weekday : Z) : string :=
  match weekday with
  | 0 => "Monday" | 1 => "Tuesday" | 2 => "Wednesday" | 3 => "Thursday"
  | 4 => "Friday" | 5 => "Saturday" | _ => "Sunday"
  end.

Record PostingTimes := {
  best_hour : Z;
  best_day : string;
  hourly_performance : list (Z * Q);
  daily_performance : list (string * Q)
}.

(** The first loop of [_analyze_posting_times]: the scores by hour and
    by day name. *)
Fixpoint posting_groups (interactions : list Interaction)
    (hourly : list (Z * list Z)) (daily : list (string * list Z))
  : list (Z * list Z) * list (string * list Z) :=
  match interactions with
  | [] => (hourly, daily)
  | i :: rest =>
      match i_success i, i_timestamp i with
      | true, IsoTimestamp t =>
          let engagement_score := if i_success i then 1 else 0 in
          posting_groups rest
            (group_append Z.eqb (dt_hour t) engagement_score hourly)
            (group_append String.eqb (day_name (dt_weekday t)) engagement_score
               daily)
      | _, _ => posting_groups rest hourly daily
      end
  end.

(** [ContentAnalyzer._analyze_posting_times]. *)
Definition _analyze_posting_times (interactions : list Interaction) : PostingTimes :=
  let (hourly_engagement, daily_engagement) := posting_groups interactions [] [] in
  let optimal_hours := map (fun kv => (fst kv, mean_or_zero (snd kv))) hourly_engagement in
  let optimal_days := map (fun kv => (fst kv, mean_or_zero (snd kv))) daily_engagement in
  {| best_hour := match optimal_hours with
                  | [] => 12
                  | first :: rest => max_by_value first rest
                  end;
     best_day := match optimal_days with
                 | [] => "Monday"
                 | first :: rest => max_by_value first rest
                 end;
     hourly_performance := optimal_hours;
     daily_performance := optimal_days |}.

(** The first interaction that [_analyze_posting_times] takes into
    account: successful, with a timestamp that parses. *)
Fixpoint first_timed (interactions : list Interaction) : option datetime :=
  match interactions with
  | [] => None
  | i :: rest =>
      match i_success i, i_timestamp i with
      | true, IsoTimestamp t => Some t
      | _, _ => first_timed rest
      end
  end.

(** ** Sales patterns ([SalesPatternAnalyzer])

    A lead dict, by the keys the analyses read.  A text key that is
    absent reads as its default (["unknown"], ["unqualified"], ["new"]);
    the score defaults to 0; the response time is kept optional since
    its default, 24 hours, decides on which side the lead is counted. *)
Record Lead := {
  l_platform : string;
  l_qualification : string;
  l_lead_score : Q;
  l_status : string;
  l_created_at : Timestamp;
  l_conversion_date : Timestamp;
  l_avg_response_time_hours : option Q
}.

(** [SalesPatternAnalyzer._categorize_lead_score]. *)
Definition _categorize_lead_score (score : Q) : string :=
  if Qle_bool 80 score then "80-100"
  else if Qle_bool 60 score then "60-79"
  else if Qle_bool 40 score then "40-59"
  else if Qle_bool 20 score then "20-39"
  else "0-19".

(** An entry of [defaultdict(lambda: {"total": 0, "converted": 0})]. *)
Record Counts := {
  total : Z;
  converted : Z
}.

(** [d[k]["total"] += 1], followed when the lead converted by
    [d[k]["converted"] += 1]; a new key starts from zero counts. *)
Fixpoint count_lead (k : string) (is_converted : bool)
    (d : list (string * Counts)) : list (string * Counts) :=
  match d with
  | [] =>
      [(k, {| total := 0 + 1;
              converted := if is_converted then 0 + 1 else 0 |})]
  | (k', c) :: rest =>
      if String.eqb k k'
      then (k', {| total := total c + 1;
                   converted := if is_converted then converted c + 1
                                else converted c |}) :: rest
      else (k', c) :: count_lead k is_converted rest
  end.

Record ConversionData := {
  data_by_platform : list (string * Counts);
  data_by_qualification : list (string * Counts);
  data_by_lead_score : list (string * Counts);
  data_time_to_conversion : list Z
}.

(** [(converted - created).days]: whole days, rounded down. *)
Definition days_between (created converted_on : datetime) : Z :=
  (converted_on - created) / US_PER_DAY.

(** The loop of [_analyze_conversion_patterns] over one lead. *)
Definition count_conversion (lead : Lead) (data : ConversionData)
  : ConversionData :=
  let score_range := _categorize_lead_score (l_lead_score lead) in
  let is_converted := String.eqb (l_status lead) "converted" in
  {| data_by_platform :=
       count_lead (l_platform lead) is_converted (data_by_platform data);
     data_by_qualification :=
       count_lead (l_qualification lead) is_converted
         (data_by_qualification data);
     data_by_lead_score :=
       count_lead score_range is_converted (data_by_lead_score data);
     data_time_to_conversion :=
       if is_converted then
         match l_created_at lead, l_conversion_date lead with
         | IsoTimestamp created, IsoTimestamp converted_on =>
             data_time_to_conversion data
               ++ [days_between created converted_on]
         | _, _ => data_time_to_conversion data
         end
       else data_time_to_conversion data |}.

Definition conversion_data (leads : list Lead) : ConversionData :=
  fold_left (fun data lead => count_conversion lead data) leads
    {| data_by_platform := []; data_by_qualification := [];
       data_by_lead_score := []; data_time_to_conversion := [] |}.

Record ConversionRate := {
  total_leads : Z;
  converted_leads : Z;
  conversion_rate : Q
}.

(** [x * k] for a float [x] and an int [k] that a float holds exactly:
    the product rounded to binary64. *)
Definition float_mul (x : Q) (k : Z) : Q :=
  binary64 (Qnum x * k) (Zpos (Qden x)).

(** The row that the second loop of [_analyze_conversion_patterns]
    writes for one key:
    [(converted / total * 100) if total > 0 else 0], the quotient and
    the product each rounded to binary64. *)
Definition rate_row (values : Counts) : ConversionRate :=
  {| total_leads := total values;
     converted_leads := converted values;
     conversion_rate :=
       if 0 <? total values
       then float_mul (binary64 (converted values) (total values)) 100
       else 0%Q |}.

Definition rate_table (data : list (string * Counts))
  : list (string * ConversionRate) :=
  map (fun kv => (fst kv, rate_row (snd kv))) data.

Record ConversionPatterns := {
  by_platform : list (string * ConversionRate);
  by_qualification : list (string * ConversionRate);
  by_lead_score : list (string * ConversionRate);
  days_to_convert : list Z
}.

(** [SalesPatternAnalyzer._analyze_conversion_patterns].  The three
    tables are as the source builds them; of ["time_to_conversion"] the
    model keeps the list of days that the source then summarises by its
    mean, median, minimum and maximum. *)
Definition _analyze_conversion_patterns (leads : list Lead)
  : ConversionPatterns :=
  let data := conversion_data leads in
  {| by_platform := rate_table (data_by_platform data);
     by_qualification := rate_table (data_by_qualification data);
     by_lead_score := rate_table (data_by_lead_score data);
     days_to_convert := data_time_to_conversion data |}.

(** The number of leads whose status is ["converted"]. *)
Definition converted_count (leads : list Lead) : Z :=
  Z.of_nat
    (length (List.filter (fun l => String.eqb (l_status l) "converted") leads)).

Definition score_ranges : list string :=
  ["80-100"; "60-79"; "40-59"; "20-39"; "0-19"].

(** The ["response_time_impact"] entry of [_analyze_customer_behavior]. *)
Record ResponseTimeImpact := {
  fast_response_conversion : Q;
  slow_response_conversion : Q;
  optimal_response_time : string
}.

(** [statistics.mean(scores or [0])]. *)
Definition mean_or_of_zero (scores : list Z) : Q :=
  mean_or_zero (match scores with [] => [0] | _ => scores end).

(** The pairs [(avg_response_time, converted)] that
    [_analyze_customer_behavior] collects. *)
Definition conversions_by_response_time (leads : list Lead) : list (Q * Z) :=
  map (fun lead =>
         (default 24%Q (l_avg_response_time_hours lead),
          if String.eqb (l_status lead) "converted" then 1 else 0))
    leads.

Definition fast_responders (pairs : list (Q * Z)) : list Z :=
  map snd (List.filter (fun p => Qle_bool (fst p) 2) pairs).

Definition slow_responders (pairs : list (Q * Z)) : list Z :=
  map snd (List.filter (fun p => negb (Qle_bool (fst p) 12)) pairs).

(** [SalesPatternAnalyzer._analyze_customer_behavior], by the one entry
    it fills in: [None] is the empty ["response_time_impact"] dict that
    it leaves when there is no lead. *)
Definition _analyze_customer_behavior (leads : list Lead)
  : option ResponseTimeImpact :=
  let pairs := conversions_by_response_time leads in
  match pairs with
  | [] => None
  | _ =>
      let fast := fast_responders pairs in
      let slow := slow_responders pairs in
      Some {| fast_response_conversion := mean_or_zero fast;
              slow_response_conversion := mean_or_zero slow;
              optimal_response_time :=
                if negb (Qle_bool (mean_or_of_zero fast) (mean_or_of_zero slow))
                then "< 2 hours" else "> 12 hours" |}
  end.

(** A lead that converted and was answered within two hours, and one
    that converted although it was answered after more than twelve. *)
Definition converted_fast (lead : Lead) : Prop :=
  l_status lead = "converted"
  /\ exists rt, l_avg_response_time_hours lead = Some rt /\ (rt <= 2)%Q.

Definition converted_slow (lead : Lead) : Prop :=
  l_status lead = "converted"
  /\ (12 < default 24%Q (l_avg_response_time_hours lead))%Q.

Definition sample_lead (platform status : string) (score : Q)
    (rt : option Q) : Lead :=
  {| l_platform := platform; l_qualification := "warm";
     l_lead_score := score; l_status := status;
     l_created_at := NoTimestamp; l_conversion_date := NoTimestamp;
     l_avg_response_time_hours := rt |}.

(** What the counting loop keeps true of a table after [n] leads of
    which [c] converted. *)
Definition row_ok (values : Counts) : Prop :=
  1 <= total values /\ 0 <= converted values <= total values.

Definition counts_ok (n c : Z) (d : list (string * Counts)) : Prop :=
  sum_Z (map (fun kv => total (snd kv)) d) = n
  /\ sum_Z (map (fun kv => converted (snd kv)) d) = c
  /\ Forall (fun kv => row_ok (snd kv)) d
  /\ NoDup (map fst d).

(** ** The system controller ([main.AureliusSystem]) *)

Module Main.

(** The controller's two attributes; [shutdown_event] tells whether the
    [asyncio.Event] is set. *)
Record AureliusSystem := {
  running : bool;
  shutdown_event : bool
}.

(** The controller together with the scheduler and the world that it
    drives. *)
Record App := {
  system : AureliusSystem;
  sys : Sys
}.

(** The coroutines of other modules that [stop] awaits,
    [discord.post_announcement(title, message)] and
    [close_data_store()]: each acts on the world and returns or
    raises. *)
Record Services := {
  post_announcement : string -> string -> M unit;
  close_data_store : M unit
}.

(** [scheduler.stop_scheduler]. *)
Definition stop_scheduler : M unit := stop.

(** The body of the outer [try] of [AureliusSystem.stop], up to the
    assignment to [self.running]. *)
Definition shutdown_steps (ext : Services) : M unit :=
  let* _ :=
    try_except
      (post_announcement ext "System Shutdown"
         "🛑 AURELIUS system is shutting down gracefully...")
      (fun _ => ret tt) in
  let* _ := stop_scheduler in
  close_data_store ext.

(** [AureliusSystem.stop]: [except Exception] logs the error,
    [finally] sets the shutdown event, also when a [CancelledError]
    passes through. *)
Definition stop (ext : Services) (a : App) : Res unit * App :=
  if negb (running (system a)) then (Val tt, a)
  else
    match shutdown_steps ext (sys a) with
    | (Val _, s') =>
        (Val tt,
         {| system := {| running := false; shutdown_event := true |};
            sys := s' |})
    | (Raise (Error _), s') =>
        (Val tt,
         {| system := {| running := running (system a);
                         shutdown_event := true |};
            sys := s' |})
    | (Raise CancelledError, s') =>
        (Raise CancelledError,
         {| system := {| running := running (system a);
                         shutdown_event := true |};
            sys := s' |})
    end.

(** Services that do nothing and return. *)
Definition quiet_services : Services :=
  {| post_announcement := fun _ _ => ret tt; close_data_store := ret tt |}.

(** A Discord outage: the announcement raises. *)
Definition discord_down : Services :=
  {| post_announcement := fun _ _ => raise (Error "discord unreachable");
     close_data_store := ret tt |}.

Definition up (s : Sys) : App :=
  {| system := {| running := true; shutdown_event := false |}; sys := s |}.

End Main.


(** * Properties *)

(** ** Sanity checks of the model *)

Example start_spawns_enabled_jobs :
  _start_scheduled_tasks
    {| self := {| running_tasks := []; task_configs := task_configs (self flaky);
                  is_running := true |};
       env := world_at friday_0930 |}
  = (Val tt, flaky).
Proof. reflexivity. Qed.

Example monday_2024_01_01 : dt_weekday (mk_datetime 2024 1 1 9 0) = 0.
Proof. reflexivity. Qed.

Example leap_day_2024 : ord2ymd (ymd2ord 2024 2 29) = (2024, 2, 29).
Proof. reflexivity. Qed.

Example last_day_9999 : ymd2ord 9999 12 31 + 1 = MAX_DAYS.
Proof. reflexivity. Qed.

Lemma dt_date_on_day (day hour minute : Z) :
  0 <= hour < 24 -> 0 <= minute < 60 -> dt_date (on_day day hour minute) = day.
Proof.
  intros Hh Hm. unfold dt_date, on_day, US_PER_DAY, US_PER_HOUR, US_PER_MINUTE,
    US_PER_SECOND.
  symmetry. apply (Z.div_unique _ _ _ (hour * 3600000000 + minute * 60000000)); lia.
Qed.

Lemma dt_hour_on_day (day hour minute : Z) :
  0 <= hour < 24 -> 0 <= minute < 60 -> dt_hour (on_day day hour minute) = hour.
Proof.
  intros Hh Hm. unfold dt_hour, on_day, US_PER_DAY, US_PER_HOUR, US_PER_MINUTE,
    US_PER_SECOND.
  replace ((day * (24 * (60 * (60 * 1000000))) + hour * (60 * (60 * 1000000))
            + minute * (60 * 1000000)) / (60 * (60 * 1000000)))
    with (day * 24 + hour).
  - symmetry. apply (Z.mod_unique _ _ day); lia.
  - apply (Z.div_unique _ _ _ (minute * 60000000)); lia.
Qed.

(** ** Binary floating point *)

Lemma round_half_even_cases (n d : Z) :
  0 < d ->
  exists q r, n = d * q + r /\ 0 <= r < d
    /\ (round_half_even n d = q /\ 2 * r <= d
        \/ round_half_even n d = q + 1 /\ d <= 2 * r).
Proof.
  intros Hd. exists (n / d), (n mod d).
  split; [apply Z.div_mod; lia |]. split; [apply Z.mod_pos_bound; lia |].
  unfold round_half_even.
  destruct (Z.ltb_spec (2 * (n mod d)) d); [left; split; [reflexivity | lia] |].
  destruct (Z.ltb_spec d (2 * (n mod d))); [right; split; [reflexivity | lia] |].
  destruct (Z.even (n / d)); [left | right]; split; (reflexivity || lia).
Qed.

Lemma round_half_even_lower (n d a : Z) :
  0 < d -> a * d <= n -> a <= round_half_even n d.
Proof.
  intros Hd Ha.
  destruct (round_half_even_cases n d Hd) as (q & r & Hn & Hr & [[-> _] | [-> _]]); nia.
Qed.

Lemma round_half_even_upper (n d a : Z) :
  0 < d -> n <= a * d -> round_half_even n d <= a.
Proof.
  intros Hd Ha.
  destruct (round_half_even_cases n d Hd) as (q & r & Hn & Hr & [[-> _] | [-> Hh]]); nia.
Qed.

Lemma round_half_even_below (n d a : Z) :
  0 < d -> 2 * n < (2 * a - 1) * d -> round_half_even n d <= a - 1.
Proof.
  intros Hd Ha.
  destruct (round_half_even_cases n d Hd) as (q & r & Hn & Hr & [[-> _] | [-> Hh]]); nia.
Qed.

Lemma round_half_even_mono (n n' d : Z) :
  0 < d -> n <= n' -> round_half_even n d <= round_half_even n' d.
Proof.
  intros Hd Hle. unfold round_half_even.
  pose proof (Z.div_mod n d ltac:(lia)) as Hn.
  pose proof (Z.div_mod n' d ltac:(lia)) as Hn'.
  pose proof (Z.mod_pos_bound n d Hd) as Hr.
  pose proof (Z.mod_pos_bound n' d Hd) as Hr'.
  assert (Hq : n / d <= n' / d) by (apply Z.div_le_mono; lia).
  destruct (Z.eq_dec (n / d) (n' / d)) as [Heq | Hne].
  - rewrite <- Heq in *.
    destruct (Z.ltb_spec (2 * (n mod d)) d), (Z.ltb_spec (2 * (n' mod d)) d),
      (Z.ltb_spec d (2 * (n mod d))), (Z.ltb_spec d (2 * (n' mod d)));
      destruct (Z.even (n / d)); lia.
  - destruct (Z.ltb_spec (2 * (n mod d)) d), (Z.ltb_spec (2 * (n' mod d)) d),
      (Z.ltb_spec d (2 * (n mod d))), (Z.ltb_spec d (2 * (n' mod d)));
      destruct (Z.even (n / d)), (Z.even (n' / d)); lia.
Qed.

Lemma fraction_bits_spec (n d : Z) :
  0 < n -> 0 < d ->
  0 <= fraction_bits n d
  /\ 2 ^ 52 * d <= n * 2 ^ fraction_bits n d
  /\ (0 < fraction_bits n d -> n * 2 ^ fraction_bits n d < 2 ^ 53 * d).
Proof.
  intros Hn Hd. unfold fraction_bits.
  set (L := Z.log2 d + 1).
  assert (HL0 : 0 <= Z.log2 d) by apply Z.log2_nonneg.
  assert (HdL : d < 2 ^ L).
  { subst L. destruct (Z.log2_spec d Hd) as [_ H]. exact H. }
  assert (HA : 0 < 2 ^ L) by (apply Z.pow_pos_nonneg; lia).
  set (q := n * 2 ^ L / d).
  pose proof (Z.div_mod (n * 2 ^ L) d ltac:(lia)) as Hdm.
  pose proof (Z.mod_pos_bound (n * 2 ^ L) d Hd) as Hr.
  fold q in Hdm.
  assert (Hq : 1 <= q) by nia.
  destruct (Z.log2_spec q ltac:(lia)) as [Hlo Hhi].
  assert (He0 : 0 <= Z.log2 q) by apply Z.log2_nonneg.
  set (e := Z.log2 q) in *.
  replace (Z.succ e) with (e + 1) in Hhi by lia.
  rewrite Z.pow_add_r in Hhi by lia. change (2 ^ 1) with 2 in Hhi.
  assert (HB : 0 < 2 ^ e) by (apply Z.pow_pos_nonneg; lia).
  destruct (Z.max_spec 0 (52 + L - e)) as [[Hlt ->] | [Hge ->]].
  - (* s = 52 + L - e > 0 *)
    split; [lia |].
    assert (Hpow : 2 ^ (52 + L - e) * 2 ^ e = 2 ^ 52 * 2 ^ L).
    { rewrite <- !Z.pow_add_r by lia. f_equal. lia. }
    set (S := 2 ^ (52 + L - e)) in *.
    assert (HS : 0 < S) by (apply Z.pow_pos_nonneg; lia).
    change (2 ^ 53) with (2 * 2 ^ 52).
    set (P := 2 ^ 52) in *. set (A := 2 ^ L) in *. set (B := 2 ^ e) in *.
    assert (HP : 0 < P) by (subst P; lia).
    assert (H1 : B * d <= n * A) by nia.
    assert (H2 : n * A < 2 * B * d) by nia.
    split; [| intros _].
    + apply Z.mul_le_mono_pos_r with (p := A); [exact HA |].
      assert (S * (B * d) <= S * (n * A))
        by (apply Z.mul_le_mono_nonneg_l; lia).
      replace (P * d * A) with (S * (B * d))
        by (transitivity (S * B * d); [ring | rewrite Hpow; ring]).
      replace (n * S * A) with (S * (n * A)) by ring. assumption.
    + apply Z.mul_lt_mono_pos_r with (p := A); [exact HA |].
      assert (S * (n * A) < S * (2 * B * d))
        by (apply Z.mul_lt_mono_pos_l; lia).
      replace (2 * P * d * A) with (S * (2 * B * d))
        by (transitivity (2 * d * (S * B)); [ring | rewrite Hpow; ring]).
      replace (n * S * A) with (S * (n * A)) by ring. assumption.
  - (* capped *)
    split; [lia |]. split; [| lia].
    rewrite Z.mul_1_r.
    assert (Hpow : 2 ^ e = 2 ^ (e - L - 52) * (2 ^ 52 * 2 ^ L)).
    { rewrite <- !Z.pow_add_r by lia. f_equal. lia. }
    assert (HS : 0 < 2 ^ (e - L - 52)) by (apply Z.pow_pos_nonneg; lia).
    set (S := 2 ^ (e - L - 52)) in *.
    set (P := 2 ^ 52) in *. set (A := 2 ^ L) in *. set (B := 2 ^ e) in *.
    assert (HP : 0 < P) by (subst P; lia).
    assert (H1 : B * d <= n * A) by nia.
    apply Z.mul_le_mono_pos_r with (p := A); [exact HA |].
    assert (H2 : P * d * A <= B * d).
    { rewrite Hpow. replace (P * d * A) with (1 * (P * A * d)) by ring.
      replace (S * (P * A) * d) with (S * (P * A * d)) by ring.
      apply Z.mul_le_mono_nonneg_r; nia. }
    lia.
Qed.

Lemma pow2_le (a b : Z) : 0 <= a <= b -> 0 < 2 ^ a <= 2 ^ b.
Proof.
  intros H. split; [apply Z.pow_pos_nonneg; lia |].
  apply Z.pow_le_mono_r; lia.
Qed.

Lemma pow2_double_le (a b : Z) : 0 <= a < b -> 0 < 2 * 2 ^ a <= 2 ^ b.
Proof.
  intros H. rewrite <- Z.pow_succ_r by lia. apply pow2_le. lia.
Qed.

Lemma fraction_bits_den (n d : Z) :
  0 < n -> 0 < d ->
  Z.pos (Z.to_pos (2 ^ fraction_bits n d)) = 2 ^ fraction_bits n d
  /\ 0 < 2 ^ fraction_bits n d.
Proof.
  intros Hn Hd. destruct (fraction_bits_spec n d Hn Hd) as (Hs & _).
  assert (H : 0 < 2 ^ fraction_bits n d) by (apply Z.pow_pos_nonneg; lia).
  split; [apply Z2Pos.id; exact H | exact H].
Qed.

Lemma binary64_pos (n d : Z) :
  0 < n ->
  binary64 n d
  = Qmake (round_half_even (n * 2 ^ fraction_bits n d) d)
      (Z.to_pos (2 ^ fraction_bits n d)).
Proof.
  intros Hn. unfold binary64.
  destruct (Z.eqb_spec n 0); [lia |].
  rewrite Z.abs_eq, Z.sgn_pos by lia. cbv zeta. now rewrite Z.mul_1_l.
Qed.

Lemma binary64_opp (n d : Z) : binary64 (- n) d = Qopp (binary64 n d).
Proof.
  unfold binary64. destruct (Z.eqb_spec n 0) as [-> | Hn]; [reflexivity |].
  destruct (Z.eqb_spec (- n) 0); [lia |].
  rewrite Z.abs_opp, Z.sgn_opp. cbv zeta. unfold Qopp. simpl.
  now rewrite Z.mul_opp_l.
Qed.

Lemma binary64_pos_ge (n d T : Z) :
  0 < n -> 0 < d -> T * d <= n -> (inject_Z T <= binary64 n d)%Q.
Proof.
  intros Hn Hd HT. rewrite (binary64_pos n d Hn).
  destruct (fraction_bits_den n d Hn Hd) as (Hden & Hpos).
  unfold Qle. cbn [Qnum Qden inject_Z]. rewrite Hden, Z.mul_1_r.
  apply round_half_even_lower; [exact Hd |]. nia.
Qed.

Lemma binary64_pos_le (n d T : Z) :
  0 < n -> 0 < d -> n <= T * d -> (binary64 n d <= inject_Z T)%Q.
Proof.
  intros Hn Hd HT. rewrite (binary64_pos n d Hn).
  destruct (fraction_bits_den n d Hn Hd) as (Hden & Hpos).
  unfold Qle. cbn [Qnum Qden inject_Z]. rewrite Hden, Z.mul_1_r.
  apply round_half_even_upper; [exact Hd |]. nia.
Qed.

Lemma inject_Z_opp (T : Z) : inject_Z (- T) = Qopp (inject_Z T).
Proof. reflexivity. Qed.

Lemma binary64_ge (n d T : Z) :
  0 < d -> T * d <= n -> (inject_Z T <= binary64 n d)%Q.
Proof.
  intros Hd HT. destruct (Z.lt_trichotomy n 0) as [Hn | [-> | Hn]].
  - replace n with (- - n) by lia. rewrite binary64_opp.
    replace T with (- - T) by lia. rewrite inject_Z_opp.
    apply Qopp_le_compat. apply binary64_pos_le; lia.
  - change (binary64 0 d) with (inject_Z 0). rewrite <- Zle_Qle. nia.
  - now apply binary64_pos_ge.
Qed.

Lemma binary64_le (n d T : Z) :
  0 < d -> n <= T * d -> (binary64 n d <= inject_Z T)%Q.
Proof.
  intros Hd HT. destruct (Z.lt_trichotomy n 0) as [Hn | [-> | Hn]].
  - replace n with (- - n) by lia. rewrite binary64_opp.
    replace T with (- - T) by lia. rewrite inject_Z_opp.
    apply Qopp_le_compat. apply binary64_pos_ge; lia.
  - change (binary64 0 d) with (inject_Z 0). rewrite <- Zle_Qle. nia.
  - now apply binary64_pos_le.
Qed.

Lemma binary64_pos_mono (n n' d : Z) :
  0 < n -> 0 < d -> n <= n' -> (binary64 n d <= binary64 n' d)%Q.
Proof.
  intros Hn Hd Hle.
  assert (Hn' : 0 < n') by lia.
  rewrite (binary64_pos n d Hn), (binary64_pos n' d Hn').
  destruct (fraction_bits_den n d Hn Hd) as (Hden & Hpos).
  destruct (fraction_bits_den n' d Hn' Hd) as (Hden' & Hpos').
  destruct (fraction_bits_spec n d Hn Hd) as (Hs & Hlo & Hhi).
  destruct (fraction_bits_spec n' d Hn' Hd) as (Hs' & Hlo' & Hhi').
  unfold Qle. cbn [Qnum Qden]. rewrite Hden, Hden'.
  set (s := fraction_bits n d) in *. set (s' := fraction_bits n' d) in *.
  assert (Hss : s' <= s).
  { destruct (Z.le_gt_cases s' s) as [H | H]; [exact H | exfalso].
    specialize (Hhi' ltac:(lia)).
    destruct (pow2_double_le s s' ltac:(lia)) as [Hp0 Hp].
    change (2 ^ 53) with (2 * 2 ^ 52) in Hhi'. nia. }
  destruct (Z.eq_dec s s') as [Heq | Hne].
  - rewrite <- Heq. apply Z.mul_le_mono_nonneg_r; [lia |].
    apply round_half_even_mono; [exact Hd |]. nia.
  - specialize (Hhi ltac:(lia)).
    assert (Hm : round_half_even (n * 2 ^ s) d <= 2 ^ 53)
      by (apply round_half_even_upper; [exact Hd | lia]).
    assert (Hm' : 2 ^ 52 <= round_half_even (n' * 2 ^ s') d)
      by (apply round_half_even_lower; [exact Hd | lia]).
    destruct (pow2_double_le s' s ltac:(lia)) as [Hp0 Hp].
    change (2 ^ 53) with (2 * 2 ^ 52) in Hm. nia.
Qed.

Lemma binary64_mono (n n' d : Z) :
  0 < d -> n <= n' -> (binary64 n d <= binary64 n' d)%Q.
Proof.
  intros Hd Hle.
  destruct (Z.lt_trichotomy n 0) as [Hn | [-> | Hn]].
  - destruct (Z.lt_trichotomy n' 0) as [Hn' | [-> | Hn']].
    + replace n with (- - n) by lia. replace n' with (- - n') by lia.
      rewrite (binary64_opp (- n)), (binary64_opp (- n')).
      apply Qopp_le_compat. apply binary64_pos_mono; lia.
    + apply (binary64_le n d 0); lia.
    + apply Qle_trans with (inject_Z 0);
        [apply binary64_le | apply binary64_ge]; lia.
  - apply (binary64_ge n' d 0); lia.
  - apply binary64_pos_mono; lia.
Qed.

Lemma binary64_seconds_lt (us T : Z) :
  0 < T <= 2 ^ 34 -> us < T * 1000000 ->
  (binary64 us 1000000 < inject_Z T)%Q.
Proof.
  intros [HT0 HT] Hlt.
  destruct (Z.le_gt_cases us 0) as [Hn | Hn].
  - apply Qle_lt_trans with (inject_Z 0); [apply binary64_le; lia |].
    now rewrite <- Zlt_Qlt.
  - rewrite (binary64_pos us _ Hn).
    destruct (fraction_bits_den us 1000000 Hn ltac:(lia)) as (Hden & Hpos).
    destruct (fraction_bits_spec us 1000000 Hn ltac:(lia)) as (Hs & Hlo & Hhi).
    unfold Qlt. cbn [Qnum Qden inject_Z]. rewrite Hden, Z.mul_1_r.
    set (s := fraction_bits us 1000000) in *.
    assert (Hs19 : 19 <= s).
    { destruct (Z.le_gt_cases 19 s) as [H | H]; [exact H | exfalso].
      destruct (pow2_le s 18 ltac:(lia)) as [Hp0 Hp].
      change (2 ^ 52) with (2 ^ 34 * 2 ^ 18) in Hlo. nia. }
    assert (Hbig : 1000000 < 2 * 2 ^ s).
    { destruct (pow2_le 19 s ltac:(lia)) as [_ Hp].
      change (2 ^ 19) with 524288 in Hp. lia. }
    enough (round_half_even (us * 2 ^ s) 1000000 <= T * 2 ^ s - 1) by lia.
    apply round_half_even_below; [lia |]. nia.
Qed.

(** The interval test of the evaluator, [total_seconds() < seconds]:
    it fails once the span has reached the interval, it holds before
    for an interval of at most 2^34 seconds, and at any rate it does
    not come back once it has failed. *)
Lemma interval_test_elapsed (span seconds : Z) :
  seconds * US_PER_SECOND <= span ->
  Qltb (total_seconds span) (inject_Z seconds) = false.
Proof.
  intros H. unfold Qltb. apply negb_false_iff, Qle_bool_iff.
  apply binary64_ge; [reflexivity | exact H].
Qed.

Lemma interval_test_early (span seconds : Z) :
  0 < seconds <= 2 ^ 34 ->
  span < seconds * US_PER_SECOND ->
  Qltb (total_seconds span) (inject_Z seconds) = true.
Proof.
  intros Hs H. unfold Qltb. apply negb_true_iff.
  apply not_true_iff_false. rewrite Qle_bool_iff. apply Qlt_not_le.
  apply binary64_seconds_lt; assumption.
Qed.

Lemma interval_test_mono (span span' seconds : Z) :
  span <= span' ->
  Qltb (total_seconds span) (inject_Z seconds) = false ->
  Qltb (total_seconds span') (inject_Z seconds) = false.
Proof.
  unfold Qltb. rewrite !negb_false_iff, !Qle_bool_iff. intros Hle H.
  eapply Qle_trans; [exact H |]. apply binary64_mono; [reflexivity | exact Hle].
Qed.

(** Beyond 2^34 seconds the test rounds: one microsecond before an
    interval of 300000000 minutes the span reads as the interval. *)
Example interval_test_rounds :
  let seconds := 300000000 * 60 in
  Qltb (total_seconds (seconds * US_PER_SECOND - 1)) (inject_Z seconds) = false.
Proof. vm_compute. reflexivity. Qed.

(** ** Schedule evaluator *)

Section Evaluator.

Variables (config : Config) (last : datetime).
Hypothesis Hlast : last_run config = Some last.

Lemma should_run_at_early (run_at_hour : option Z) (now : datetime) :
  plain_interval config ->
  now - last < interval_minutes config * 60 * US_PER_SECOND ->
  should_run_at config run_at_hour now = false.
Proof.
  intros Hplain Hearly. unfold should_run_at. rewrite Hlast.
  now rewrite (interval_test_early _ _ Hplain Hearly).
Qed.

Lemma should_run_at_elapsed (h : Z) (now : datetime) :
  interval_minutes config * 60 * US_PER_SECOND <= now - last ->
  should_run_at config (Some h) now =
    (dt_hour now =? h) && negb ((dt_date last =? dt_date now) && (dt_hour last =? h)).
Proof.
  intros Hlate. unfold should_run_at. rewrite Hlast.
  rewrite (interval_test_elapsed _ _ Hlate).
  destruct (dt_hour now =? h); simpl; [| reflexivity].
  destruct ((dt_date last =? dt_date now) && (dt_hour last =? h)); reflexivity.
Qed.

End Evaluator.

Lemma _should_run_task_eval (s : Sys) (task_name : string) (config : Config)
    (run_at_hour : option Z) :
  dict_get task_name (task_configs (self s)) = Some (ConfigDict config) ->
  _should_run_task task_name run_at_hour s
  = (Val (should_run_at config run_at_hour (clock (env s))), s).
Proof.
  intros Hcfg. unfold _should_run_task, try_except, bind, get_config.
  rewrite Hcfg. reflexivity.
Qed.

(** C6 (as amended): a job whose [last_run] is present and whose
    interval is at most 2^34 seconds (some 544 years) is not due while
    [now - last_run] is strictly less than its interval, whatever its
    [run_at_hour]; this holds of the evaluator's decision body and of
    [_should_run_task] as the runner calls it.  Up to that interval the
    float that [total_seconds()] returns still tells the span from the
    interval. *)
Theorem not_due_before_interval (s : Sys) (task_name : string) (config : Config)
    (run_at_hour : option Z) (last : datetime)
    (Hcfg : dict_get task_name (task_configs (self s)) = Some (ConfigDict config))
    (Hlast : last_run config = Some last)
    (Hplain : plain_interval config)
    (Hearly : clock (env s) - last < interval_minutes config * 60 * US_PER_SECOND) :
  should_run_at config run_at_hour (clock (env s)) = false
  /\ _should_run_task task_name run_at_hour s = (Val false, s).
Proof.
  pose proof (should_run_at_early config last Hlast run_at_hour _ Hplain Hearly)
    as Hf.
  split; [exact Hf |].
  rewrite (_should_run_task_eval s task_name config run_at_hour Hcfg).
  now rewrite Hf.
Qed.

Lemma not_due_before_interval_witness :
  should_run_at (job 60 (Some (mk_datetime 2024 3 15 9 0)) always_returns None)
    (Some 9) friday_0930 = false
  /\ _should_run_task "sales_tasks" (Some 9) sales_half_hour_ago
     = (Val false, sales_half_hour_ago).
Proof.
  apply (not_due_before_interval sales_half_hour_ago "sales_tasks"
           (job 60 (Some (mk_datetime 2024 3 15 9 0)) always_returns None)
           (Some 9) (mk_datetime 2024 3 15 9 0)).
  - reflexivity.
  - reflexivity.
  - unfold plain_interval. simpl. lia.
  - vm_compute. reflexivity.
Defined.

(** C6, the claim as stated fails: [total_seconds()] is a binary64
    number.  One microsecond before an interval of 300000000 minutes has
    passed, the span of 17999999999.999999 seconds reads as
    18000000000.0, the interval test does not hold and the evaluator
    answers that the job is due. *)
Lemma due_before_interval_elapsed :
  let config := job 300000000 (Some friday_0930) always_returns None in
  let now := friday_0930 + 300000000 * US_PER_MINUTE - 1 in
  let s := {| self := started [("content_posting", ConfigDict config)];
              env := world_at now |} in
  last_run config = Some friday_0930
  /\ clock (env s) - friday_0930 < interval_minutes config * 60 * US_PER_SECOND
  /\ should_run_at config None (clock (env s)) = true
  /\ _should_run_task "content_posting" None s = (Val true, s).
Proof. vm_compute. repeat split; reflexivity. Qed.

(** C7: once the interval has elapsed since [last_run], a job with
    [run_at_hour = h] is not due unless the current hour is [h], and is
    not due either when [last_run] lies on today's date with hour [h];
    otherwise it is due.  For an hourly job with [run_at_hour = 9] that
    last ran at 09:00 on some day, the evaluator answers no at 09:30 on
    that day and yes at 09:05 on the next day. *)
Theorem hour_constraint :
  (forall (config : Config) (h last now : Z),
     last_run config = Some last ->
     interval_minutes config * 60 * US_PER_SECOND <= now - last ->
     (dt_hour now <> h -> should_run_at config (Some h) now = false)
     /\ (dt_date last = dt_date now -> dt_hour last = h ->
         should_run_at config (Some h) now = false)
     /\ (dt_hour now = h -> ~ (dt_date last = dt_date now /\ dt_hour last = h) ->
         should_run_at config (Some h) now = true))
  /\ (forall (day : Z) (f : JobFunction),
        let config := job 60 (Some (on_day day 9 0)) f (Some 9) in
        should_run_at config (Some 9) (on_day day 9 30) = false
        /\ should_run_at config (Some 9) (on_day (day + 1) 9 5) = true).
Proof.
  split.
  - intros config h last now Hlast Hlate.
    rewrite (should_run_at_elapsed config last Hlast h now Hlate).
    repeat split.
    + intros Hh. apply Z.eqb_neq in Hh. now rewrite Hh.
    + intros Hd Hl. apply Z.eqb_eq in Hd, Hl. rewrite Hd, Hl.
      now rewrite andb_false_r.
    + intros Hh Hn. apply Z.eqb_eq in Hh. rewrite Hh. simpl.
      destruct (Z.eqb_spec (dt_date last) (dt_date now)); simpl; [| reflexivity].
      destruct (Z.eqb_spec (dt_hour last) h); simpl; [| reflexivity].
      exfalso. apply Hn. now split.
  - intros day f config. split.
    + apply (should_run_at_early config (on_day day 9 0) eq_refl).
      * unfold plain_interval. simpl. lia.
      * unfold on_day, config, job, US_PER_DAY, US_PER_HOUR, US_PER_MINUTE,
          US_PER_SECOND; simpl interval_minutes. lia.
    + rewrite (should_run_at_elapsed config (on_day day 9 0) eq_refl).
      * rewrite !dt_hour_on_day, !dt_date_on_day by lia.
        destruct (Z.eqb_spec day (day + 1)); [lia | reflexivity].
      * unfold on_day, config, job, US_PER_DAY, US_PER_HOUR, US_PER_MINUTE,
          US_PER_SECOND; simpl interval_minutes. lia.
Qed.

Lemma hour_constraint_witness :
  should_run_at (job 60 (Some (mk_datetime 2024 3 15 9 0)) always_returns (Some 9))
    (Some 9) (mk_datetime 2024 3 16 9 5) = true.
Proof.
  refine (proj2 (proj2 (proj1 hour_constraint
            (job 60 (Some (mk_datetime 2024 3 15 9 0)) always_returns (Some 9))
            9 (mk_datetime 2024 3 15 9 0) (mk_datetime 2024 3 16 9 5) _ _)) _ _).
  - reflexivity.
  - vm_compute. discriminate.
  - reflexivity.
  - vm_compute. intros [H _]. discriminate H.
Defined.

(** ** Execution history *)

Lemma holds_history_read (task_name : string) (l : list ExecutionLog) (w : World) :
  holds_history task_name l w -> stored_history task_name w = l.
Proof.
  intros [_ [H | [H ->]]]; unfold stored_history; rewrite H; reflexivity.
Qed.

Lemma holds_history_clock (task_name : string) (l : list ExecutionLog) (w : World)
    (t : datetime) :
  holds_history task_name l w -> holds_history task_name l (with_clock t w).
Proof. intros [Hm H]. split; assumption. Qed.

Lemma log_step (s : Sys) (task_name : string) (success : bool)
    (error : option string) (l : list ExecutionLog) :
  holds_history task_name l (env s) ->
  let record := {| log_task_name := task_name; log_timestamp := clock (env s);
                   log_success := success; log_error := error |} in
  _log_task_execution task_name success error s
  = (Val tt,
     {| self := self s;
        env := with_store
                 (<[history_key task_name :=
                      {| entry_value := VHistory (take 100 (record :: l));
                         expires_at := None |}]> (store (env s)))
                 (env s) |}).
Proof.
  intros [Hm H] record.
  unfold _log_task_execution, try_except, bind, datetime_now, gets,
    data_store_get, data_store_set.
  rewrite Hm.
  destruct H as [H | [H ->]]; rewrite H; cbn -[insert take]; rewrite Hm; reflexivity.
Qed.

Lemma log_step_holds (s : Sys) (task_name : string) (success : bool)
    (error : option string) (l : list ExecutionLog) :
  holds_history task_name l (env s) ->
  holds_history task_name
    (take 100 ({| log_task_name := task_name; log_timestamp := clock (env s);
                  log_success := success; log_error := error |} :: l))
    (env (snd (_log_task_execution task_name success error s))).
Proof.
  intros H. rewrite (log_step s task_name success error l H).
  destruct H as [Hm _]. split; [exact Hm |].
  left. simpl. apply lookup_insert_eq.
Qed.

Lemma take_app_take {A : Type} (n : nat) (a b : list A) :
  take n (a ++ take n b) = take n (a ++ b).
Proof.
  rewrite !take_app, take_take. f_equal. f_equal. lia.
Qed.

Lemma log_attempts_history (task_name : string)
    (attempts : list (Z * bool * option string)) :
  forall (s : Sys) (l : list ExecutionLog),
    holds_history task_name l (env s) ->
    (length l <= 100)%nat ->
    fst (log_attempts task_name attempts s) = Val tt
    /\ holds_history task_name
         (take 100 (rev (records_of task_name (clock (env s)) attempts) ++ l))
         (env (snd (log_attempts task_name attempts s))).
Proof.
  induction attempts as [| [[dt success] error] rest IH]; intros s l H Hlen.
  - simpl. split; [reflexivity |]. now rewrite take_ge by lia.
  - set (s1 := {| self := self s; env := with_clock (clock (env s) + dt) (env s) |}).
    assert (H1 : holds_history task_name l (env s1))
      by (apply holds_history_clock; exact H).
    pose proof (log_step s1 task_name success error l H1) as Hstep.
    pose proof (log_step_holds s1 task_name success error l H1) as Hholds.
    cbv zeta in Hstep.
    set (r := {| log_task_name := task_name; log_timestamp := clock (env s1);
                 log_success := success; log_error := error |}) in *.
    destruct (IH (snd (_log_task_execution task_name success error s1))
                (take 100 (r :: l)) Hholds) as [IHv IHh].
    { rewrite length_take. lia. }
    assert (Hrun : log_attempts task_name ((dt, success, error) :: rest) s
                   = log_attempts task_name rest
                       (snd (_log_task_execution task_name success error s1))).
    { simpl log_attempts. unfold bind at 1. unfold modify_env at 1.
      fold s1. unfold bind at 1. rewrite Hstep. reflexivity. }
    rewrite Hrun. split; [exact IHv |].
    rewrite Hstep in IHh |- *. simpl snd in *. simpl env in IHh at 2.
    simpl clock in IHh.
    rewrite take_app_take in IHh.
    simpl records_of. simpl rev. rewrite <- app_assoc. simpl app.
    exact IHh.
Qed.

Lemma length_records_of (task_name : string)
    (attempts : list (Z * bool * option string)) :
  forall now, length (records_of task_name now attempts) = length attempts.
Proof.
  induction attempts as [| [[dt ok] err] rest IH]; intros now; simpl;
    [reflexivity | now rewrite IH].
Qed.

(** C4: starting from a store that is reachable and holds no history for
    the job, after any sequence of logged invocation attempts the
    persisted history is the list of the most recent records, newest
    first, cut after 100: it never holds more than 100 records, holds
    [min n 100] of them after [n] attempts, and exactly 100 after 150. *)
Theorem history_retention (s : Sys) (task_name : string)
    (attempts : list (Z * bool * option string))
    (Hok : store_mode (env s) = StoreOk)
    (Hfresh : store (env s) !! history_key task_name = None) :
  let s' := snd (log_attempts task_name attempts s) in
  fst (log_attempts task_name attempts s) = Val tt
  /\ stored_history task_name (env s')
     = take 100 (rev (records_of task_name (clock (env s)) attempts))
  /\ (length (stored_history task_name (env s')) <= 100)%nat
  /\ length (stored_history task_name (env s')) = Nat.min (length attempts) 100
  /\ (length attempts = 150%nat ->
      length (stored_history task_name (env s')) = 100%nat).
Proof.
  intros s'.
  assert (H0 : holds_history task_name [] (env s))
    by (split; [exact Hok | right; split; [exact Hfresh | reflexivity]]).
  destruct (log_attempts_history task_name attempts s [] H0) as [Hv Hh];
    [simpl; lia |].
  apply holds_history_read in Hh. rewrite app_nil_r in Hh. fold s' in Hh.
  pose proof (length_records_of task_name attempts (clock (env s))) as Hlen.
  assert (Hl : length (stored_history task_name (env s'))
               = Nat.min (length attempts) 100).
  { rewrite Hh, length_take, length_rev, Hlen. lia. }
  split; [exact Hv |]. split; [exact Hh |]. split; [lia |]. split; [exact Hl | lia].
Qed.

Example history_two_attempts :
  stored_history "sales_tasks"
    (env (snd (log_attempts "sales_tasks"
                 [(0, true, None); (60000000, false, Some "boom")]
                 sales_half_hour_ago)))
  = [ {| log_task_name := "sales_tasks"; log_timestamp := friday_0930 + 60000000;
         log_success := false; log_error := Some "boom" |};
      {| log_task_name := "sales_tasks"; log_timestamp := friday_0930;
         log_success := true; log_error := None |} ].
Proof. vm_compute. reflexivity. Qed.

Lemma history_retention_witness :
  length (stored_history "sales_tasks"
            (env (snd (log_attempts "sales_tasks"
                         (replicate 150 (60000000, true, None))
                         sales_half_hour_ago))))
  = 100%nat.
Proof.
  pose proof (history_retention sales_half_hour_ago "sales_tasks"
                (replicate 150 (60000000, true, None))
                eq_refl (lookup_empty _)) as H.
  cbv zeta in H. apply H. reflexivity.
Defined.

(** ** Status query *)

Lemma status_entries_raises (spawned : list (string * Task))
    (cfgs : list (string * ConfigObj)) :
  forall acc e, status_entries spawned cfgs acc = Raise e -> exists msg, e = Error msg.
Proof.
  induction cfgs as [| [n o] rest IH]; intros acc e H; simpl in H.
  - discriminate.
  - destruct o as [c |]; simpl in H.
    + eapply IH; exact H.
    + inversion H. eauto.
Qed.

Lemma build_status_eval (s : Sys) :
  build_status s
  = (match status_entries (running_tasks (self s)) (task_configs (self s)) [] with
     | Val entries =>
         Val {| scheduler_running := Some (is_running (self s));
                tasks := Some entries;
                last_updated := Some (clock (env s)) |}
     | Raise e => Raise e
     end, s).
Proof.
  unfold build_status, bind, datetime_now, gets, ret.
  destruct (status_entries _ _ _); reflexivity.
Qed.

(** C10: the status query never raises and never changes the state: it
    returns a dict and leaves scheduler and world as they were; when
    building the dict raises, the answer is the empty dict, which has
    neither the scheduler-running flag nor a job entry; when building
    succeeds, the answer is the dict built. *)
Theorem status_query_contained (s : Sys) :
  (exists d, get_task_status s = (Val d, s))
  /\ (forall e s', build_status s = (Raise e, s') ->
        get_task_status s = (Val empty_status, s)
        /\ scheduler_running empty_status = None
        /\ tasks empty_status = None)
  /\ (forall d s', build_status s = (Val d, s') ->
        get_task_status s = (Val d, s)
        /\ scheduler_running d = Some (is_running (self s))).
Proof.
  unfold get_task_status, try_except. rewrite build_status_eval.
  destruct (status_entries _ _ _) as [entries | e] eqn:He.
  - split; [eexists; reflexivity |]. split.
    + intros e s' H. discriminate H.
    + intros d s' H. inversion H; subst. split; reflexivity.
  - destruct (status_entries_raises _ _ _ _ He) as [msg ->].
    split; [eexists; reflexivity |]. split.
    + intros e s' _. repeat split; reflexivity.
    + intros d s' H. discriminate H.
Qed.

Lemma status_query_contained_witness :
  build_status broken_registry = (Raise (Error "AttributeError"), broken_registry)
  /\ get_task_status broken_registry = (Val empty_status, broken_registry).
Proof.
  split; [reflexivity |].
  apply (proj1 (proj2 (status_query_contained broken_registry))
           (Error "AttributeError") broken_registry).
  reflexivity.
Defined.

Example status_of_sales :
  fst (get_task_status sales_half_hour_ago)
  = Val {| scheduler_running := Some true;
           tasks := Some [("sales_tasks",
                           {| st_enabled := true; st_interval_minutes := 60;
                              st_last_run := Some (mk_datetime 2024 3 15 9 0);
                              st_running := true;
                              st_next_run := NextAt (mk_datetime 2024 3 15 10 0) |})];
           last_updated := Some friday_0930 |}.
Proof. reflexivity. Qed.

(** ** Shutdown *)

Lemma cancel_each_clean (items : list (string * Task)) :
  forall s,
    forallb (fun nt => clean_cancel (snd nt)) items = true ->
    exists s',
      cancel_each items s = (Val tt, s')
      /\ task_configs (self s') = task_configs (self s)
      /\ is_running (self s') = is_running (self s)
      /\ env s' = drained_env items (env s).
Proof.
  induction items as [| [n t] rest IH]; intros s Hclean.
  - exists s. repeat split; reflexivity.
  - simpl in Hclean. apply andb_true_iff in Hclean as [Ht Hrest].
    simpl cancel_each. simpl drained_env.
    unfold clean_cancel in Ht.
    destruct (task_done t) eqn:Hdone; simpl negb; cbv iota.
    + unfold bind at 1. unfold ret at 1.
      destruct (IH s Hrest) as [s' [H1 [H2 [H3 H4]]]].
      exists s'. repeat split; assumption.
    + unfold bind at 1. unfold bind at 1. unfold task_cancel, modify_env.
      unfold try_cancelled, await_task, bind, modify_self.
      destruct (on_cancel t) eqn:Hc; try discriminate; cbn -[cancel_each];
        match goal with
        | |- context [cancel_each rest ?s1] =>
            destruct (IH s1 Hrest) as [s' [H1 [H2 [H3 H4]]]]
        end;
        exists s'; repeat split; assumption.
Qed.




(** [stop] catches [CancelledError] only.  A task put into the task
    set from outside, which is no runner of the scheduler, may answer
    its cancellation with an error of its own; [stop] then raises that
    error and leaves the scheduler running with its task set in
    place. *)
Example stop_lets_errors_through :
  fst (stop crashing_on_cancel) = Raise (Error "boom")
  /\ is_running (self (snd (stop crashing_on_cancel))) = true
  /\ running_tasks (self (snd (stop crashing_on_cancel))) <> [].
Proof.
  split; [reflexivity | split; [reflexivity | discriminate]].
Qed.

(** ** Dict and state bookkeeping *)

Lemma dict_get_set_eq {V : Type} (k : string) (v : V) (d : list (string * V)) :
  dict_get k (dict_set k v d) = Some v.
Proof.
  induction d as [| [k' v'] rest IH]; simpl.
  - now rewrite String.eqb_refl.
  - destruct (String.eqb k k') eqn:E; simpl.
    + now rewrite String.eqb_refl.
    + now rewrite E.
Qed.

Lemma dict_get_set_ne {V : Type} (k k' : string) (v : V) (d : list (string * V)) :
  k <> k' -> dict_get k' (dict_set k v d) = dict_get k' d.
Proof.
  intros Hne. induction d as [| [k0 v0] rest IH]; simpl.
  - destruct (String.eqb_spec k' k); [congruence | reflexivity].
  - destruct (String.eqb_spec k k0) as [-> | Hk]; simpl.
    + destruct (String.eqb_spec k' k0); [congruence | reflexivity].
    + destruct (String.eqb_spec k' k0); [reflexivity | exact IH].
Qed.

Lemma sys_eta (s : Sys) : {| self := self s; env := env s |} = s.
Proof. destruct s; reflexivity. Qed.

Lemma with_store_id (w : World) : with_store (store w) w = w.
Proof. destruct w; reflexivity. Qed.

(** [_log_task_execution] always returns: whatever the store does, the
    call ends normally, and it touches nothing but the history key. *)
Lemma log_total (task_name : string) (success : bool) (error : option string)
    (s : Sys) :
  exists m,
    _log_task_execution task_name success error s
    = (Val tt, {| self := self s; env := with_store m (env s) |})
    /\ (forall k, k <> history_key task_name -> m !! k = store (env s) !! k).
Proof.
  unfold _log_task_execution, try_except, bind, datetime_now, gets,
    data_store_get, data_store_set.
  destruct (store_mode (env s)) eqn:Hm.
  - destruct (history_of (store (env s) !! history_key task_name
                          ≫= live (clock (env s)))) as [l | e] eqn:Hh.
    + eexists. cbn -[insert take]. rewrite Hm. split; [reflexivity |].
      intros k Hk. now rewrite lookup_insert_ne.
    + exists (store (env s)). rewrite with_store_id, sys_eta.
      destruct e; [split; reflexivity |].
      unfold history_of in Hh.
      destruct (store (env s) !! history_key task_name ≫= live (clock (env s)))
        as [[| |] |]; discriminate.
  - exists (store (env s)). rewrite with_store_id, sys_eta.
    split; reflexivity.
  - exists (store (env s)). cbn. rewrite Hm, with_store_id, sys_eta.
    split; reflexivity.
Qed.

Lemma set_last_run_eval (task_name : string) (c : Config) (s : Sys) :
  dict_get task_name (task_configs (self s)) = Some (ConfigDict c) ->
  set_last_run task_name s
  = (Val tt, {| self := stamped task_name c (clock (env s)) (self s); env := env s |}).
Proof.
  intros Hcfg. unfold set_last_run, bind, datetime_now, gets, modify_self.
  rewrite Hcfg. reflexivity.
Qed.

(** ** Job operations never touch the scheduler object *)

Section KeepsSelf.

Context {A B : Type}.

Lemma keeps_self_ret (a : A) : keeps_self (ret a).
Proof. intros s. reflexivity. Qed.

Lemma keeps_self_raise (e : Exn) : keeps_self (@raise A e).
Proof. intros s. reflexivity. Qed.

Lemma keeps_self_gets (f : Sys -> A) : keeps_self (gets f).
Proof. intros s. reflexivity. Qed.

Lemma keeps_self_bind (c : M A) (k : A -> M B) :
  keeps_self c -> (forall a, keeps_self (k a)) -> keeps_self (bind c k).
Proof.
  intros Hc Hk s. unfold bind. specialize (Hc s).
  destruct (c s) as [[a | e] s1]; simpl in *; [| exact Hc].
  rewrite <- Hc. apply Hk.
Qed.

Lemma keeps_self_try_except (body : M A) (handler : string -> M A) :
  keeps_self body -> (forall msg, keeps_self (handler msg)) ->
  keeps_self (try_except body handler).
Proof.
  intros Hb Hh s. unfold try_except. specialize (Hb s).
  destruct (body s) as [[a | [msg |]] s1]; simpl in *; try exact Hb.
  rewrite <- Hb. apply Hh.
Qed.

End KeepsSelf.

Lemma keeps_self_modify_env (f : World -> World) : keeps_self (modify_env f).
Proof. intros s. reflexivity. Qed.

Lemma keeps_self_get (key : string) : keeps_self (data_store_get key).
Proof. intros s. unfold data_store_get. destruct (store_mode (env s)); reflexivity. Qed.

Lemma keeps_self_set (key : string) (v : Value) (expire : option Z) :
  keeps_self (data_store_set key v expire).
Proof. intros s. unfold data_store_set. destruct (store_mode (env s)); reflexivity. Qed.

Lemma keeps_self_alert (message source : string) :
  keeps_self (discord_send_system_alert message source).
Proof.
  intros s. unfold discord_send_system_alert. destruct (discord_up (env s)); reflexivity.
Qed.

Lemma keeps_self_send_report (text : string) :
  keeps_self (discord_send_analytics_report text).
Proof.
  intros s. unfold discord_send_analytics_report.
  destruct (discord_up (env s)); reflexivity.
Qed.

Lemma keeps_self_generate_report (kind : ReportKind) :
  keeps_self (generate_report kind).
Proof.
  intros s. unfold generate_report. destruct (report_feed (env s) kind); reflexivity.
Qed.

Create HintDb keeps discriminated.
#[local] Hint Resolve keeps_self_ret keeps_self_raise keeps_self_gets
  keeps_self_modify_env keeps_self_get keeps_self_set keeps_self_alert
  keeps_self_send_report keeps_self_generate_report : keeps.

Ltac keeps_step :=
  match goal with
  | |- keeps_self (bind _ _) => apply keeps_self_bind; [| intros ?]
  | |- keeps_self (try_except _ _) => apply keeps_self_try_except; [| intros ?]
  | |- keeps_self (if ?b then _ else _) => destruct b
  | |- keeps_self (match ?x with _ => _ end) => destruct x
  | |- keeps_self datetime_now => apply keeps_self_gets
  | |- keeps_self _ => solve [auto with keeps]
  end.

Lemma call_function_self (f : JobFunction) : keeps_self (call_function f).
Proof.
  destruct f as [| | | | operation]; simpl.
  - unfold _generate_daily_analytics. repeat keeps_step.
  - unfold _generate_weekly_analytics. repeat keeps_step.
  - unfold _generate_monthly_analytics. repeat keeps_step.
  - unfold _system_health_check, build_health_status. repeat keeps_step.
  - intros s. destruct (operation (env s)); reflexivity.
Qed.

(** ** The runner's due branch *)

Lemma alert_eval (task_name msg : string) (s : Sys) :
  try_bare (discord_send_system_alert (alert_text task_name msg) "scheduler") s
  = (Val tt, {| self := self s; env := alerted task_name msg (env s) |}).
Proof.
  unfold try_bare, discord_send_system_alert, alerted.
  destruct (discord_up (env s)); [reflexivity | now rewrite sys_eta].
Qed.

Lemma execute_due_eval (task_name : string) (f : JobFunction) (c : Config) (s : Sys) :
  dict_get task_name (task_configs (self s)) = Some (ConfigDict c) ->
  execute_due task_name f s
  = match call_function f s with
    | (Val _, s1) =>
        _log_task_execution task_name true None
          {| self := stamped task_name c (clock (env s1)) (self s1); env := env s1 |}
    | (Raise (Error msg), s1) =>
        let s2 := snd (_log_task_execution task_name false (Some msg) s1) in
        (Val tt, {| self := self s2; env := alerted task_name msg (env s2) |})
    | (Raise CancelledError, s1) => (Raise CancelledError, s1)
    end.
Proof.
  intros Hcfg. pose proof (call_function_self f s) as Hself.
  unfold execute_due, try_except. unfold bind at 1.
  destruct (call_function f s) as [[[] | [msg |]] s1]; simpl in Hself.
  - assert (Hcfg1 : dict_get task_name (task_configs (self s1)) = Some (ConfigDict c))
      by (rewrite Hself; exact Hcfg).
    unfold bind. rewrite (set_last_run_eval task_name c s1 Hcfg1).
    destruct (log_total task_name true None
                {| self := stamped task_name c (clock (env s1)) (self s1);
                   env := env s1 |}) as [m [Hlog _]].
    rewrite Hlog. reflexivity.
  - unfold bind.
    destruct (log_total task_name false (Some msg) s1) as [m [Hlog _]].
    rewrite Hlog. cbv zeta. apply alert_eval.
  - reflexivity.
Qed.

Lemma execute_due_no_error (task_name : string) (f : JobFunction) (c : Config)
    (s : Sys) :
  dict_get task_name (task_configs (self s)) = Some (ConfigDict c) ->
  forall msg s', execute_due task_name f s <> (Raise (Error msg), s').
Proof.
  intros Hcfg msg s'. rewrite (execute_due_eval task_name f c s Hcfg).
  destruct (call_function f s) as [[[] | [msg' |]] s1].
  - destruct (log_total task_name true None
                {| self := stamped task_name c (clock (env s1)) (self s1);
                   env := env s1 |}) as [m [Hlog _]].
    rewrite Hlog. discriminate.
  - discriminate.
  - discriminate.
Qed.

Lemma runner_iteration_due (task_name : string) (f : JobFunction) (c : Config)
    (run_at_hour : option Z) (interrupted : bool) (s : Sys) :
  is_running (self s) = true ->
  dict_get task_name (task_configs (self s)) = Some (ConfigDict c) ->
  should_run_at c run_at_hour (clock (env s)) = true ->
  runner_iteration task_name f run_at_hour interrupted s
  = match execute_due task_name f s with
    | (Val _, s') => (Val (if interrupted then LoopExit else KeepLooping), s')
    | (Raise _, s') => (Val LoopExit, s')
    end.
Proof.
  intros Hrun Hcfg Hdue. pose proof (execute_due_no_error task_name f c s Hcfg) as Hne.
  unfold runner_iteration. rewrite Hrun. simpl negb. cbv iota.
  unfold bind at 1. rewrite (_should_run_task_eval s task_name c run_at_hour Hcfg).
  rewrite Hdue. unfold bind.
  destruct (execute_due task_name f s) as [[[] | [msg |]] s'].
  - unfold asyncio_sleep. destruct interrupted; reflexivity.
  - exfalso. exact (Hne msg s' eq_refl).
  - reflexivity.
Qed.

Lemma runner_iteration_not_due (task_name : string) (f : JobFunction) (c : Config)
    (run_at_hour : option Z) (interrupted : bool) (s : Sys) :
  is_running (self s) = true ->
  dict_get task_name (task_configs (self s)) = Some (ConfigDict c) ->
  should_run_at c run_at_hour (clock (env s)) = false ->
  runner_iteration task_name f run_at_hour interrupted s
  = (Val (if interrupted then LoopExit else KeepLooping), s).
Proof.
  intros Hrun Hcfg Hdue.
  unfold runner_iteration. rewrite Hrun. simpl negb. cbv iota.
  unfold bind at 1. rewrite (_should_run_task_eval s task_name c run_at_hour Hcfg).
  rewrite Hdue. unfold bind, ret, asyncio_sleep.
  destruct interrupted; reflexivity.
Qed.

Lemma still_due_later (c : Config) (now later : datetime) :
  should_run_at c None now = true -> now <= later ->
  should_run_at c None later = true.
Proof.
  unfold should_run_at. destruct (last_run c) as [last |]; [| reflexivity].
  intros Hdue Hle.
  destruct (Qltb (total_seconds (now - last))
              (inject_Z (interval_minutes c * 60))) eqn:Hnow; [discriminate |].
  rewrite (interval_test_mono (now - last) (later - last) _ ltac:(lia) Hnow).
  reflexivity.
Qed.

(** A config stamped at [now] is not due again before its interval has
    passed, whatever its report hour. *)
Lemma restamped_not_due (c c' : Config) (now : datetime) (h : option Z) (dt : Z) :
  restamped c c' now -> plain_interval c ->
  dt < interval_minutes c * 60 * US_PER_SECOND ->
  should_run_at c' h (now + dt) = false.
Proof.
  intros (Hlast & Hint & _) Hplain Hdt.
  apply (should_run_at_early c' now Hlast).
  - unfold plain_interval. now rewrite Hint.
  - rewrite Hint. lia.
Qed.

(** What the stamp of the runner does to the registry: the job's entry
    is its old config with [last_run] set, every other entry is as
    before. *)
Lemma stamped_config (task_name : string) (c : Config) (now : datetime)
    (t : TaskScheduler) :
  (exists c',
      dict_get task_name (task_configs (stamped task_name c now t))
      = Some (ConfigDict c')
      /\ restamped c c' now)
  /\ (forall n, n <> task_name ->
        dict_get n (task_configs (stamped task_name c now t))
        = dict_get n (task_configs t))
  /\ running_tasks (stamped task_name c now t) = running_tasks t
  /\ is_running (stamped task_name c now t) = is_running t.
Proof.
  split; [| split; [| split; reflexivity]].
  - simpl. rewrite dict_get_set_eq. eexists. split; [reflexivity |].
    repeat split.
  - intros n Hn. simpl. apply dict_get_set_ne. congruence.
Qed.

(** C2 (as amended): on a due tick the runner stamps [last_run] only
    after the operation has returned, with the time read at that moment
    and with no other change to the job's config, so that the job is not
    due again before its interval has passed since the return; when the
    operation raises or is cancelled, [last_run] keeps its old value, so
    a job without hour constraint that was due stays due at every later
    instant. *)
Theorem last_run_after_attempt (s : Sys) (task_name : string) (c : Config)
    (interrupted : bool)
    (Hrun : is_running (self s) = true)
    (Hcfg : dict_get task_name (task_configs (self s)) = Some (ConfigDict c))
    (Hdue : should_run_at c (run_at_hour c) (clock (env s)) = true) :
  let s' := snd (runner_iteration task_name (function c) (run_at_hour c)
                   interrupted s) in
  match call_function (function c) s with
  | (Val _, s1) =>
      exists c',
        dict_get task_name (task_configs (self s')) = Some (ConfigDict c')
        /\ restamped c c' (clock (env s1))
        /\ clock (env s') = clock (env s1)
        /\ (plain_interval c ->
            forall dt, dt < interval_minutes c * 60 * US_PER_SECOND ->
              due_now task_name (step (Elapse dt) s') = false)
  | (Raise _, s1) =>
      dict_get task_name (task_configs (self s')) = Some (ConfigDict c)
      /\ (run_at_hour c = None ->
          forall later, clock (env s) <= later -> should_run_at c None later = true)
  end.
Proof.
  intros s'. subst s'.
  rewrite (runner_iteration_due task_name (function c) c (run_at_hour c)
             interrupted s Hrun Hcfg Hdue).
  rewrite (execute_due_eval task_name (function c) c s Hcfg).
  pose proof (call_function_self (function c) s) as Hself.
  destruct (call_function (function c) s) as [[[] | [msg |]] s1]; simpl in Hself.
  - destruct (log_total task_name true None
                {| self := stamped task_name c (clock (env s1)) (self s1);
                   env := env s1 |}) as [m [Hlog _]].
    rewrite Hlog. cbn [fst snd self env].
    assert (Hget : exists c',
               dict_get task_name
                 (task_configs (stamped task_name c (clock (env s1)) (self s1)))
               = Some (ConfigDict c')
               /\ restamped c c' (clock (env s1))).
    { simpl. rewrite dict_get_set_eq. eexists. split; [reflexivity |].
      repeat split. }
    destruct Hget as (c' & Hget & Hstamp).
    exists c'.
    split; [exact Hget |]. split; [exact Hstamp |]. split; [reflexivity |].
    intros Hplain dt Hdt. unfold due_now, step. cbn [self env]. rewrite Hget.
    destruct Hstamp as (Hl & Hi & He & Hf & Hh).
    apply (restamped_not_due c c' (clock (env s1)) (run_at_hour c') dt);
      [repeat split; assumption | exact Hplain | exact Hdt].
  - destruct (log_total task_name false (Some msg) s1) as [m [Hlog _]].
    rewrite Hlog. simpl. rewrite Hself. split; [exact Hcfg |].
    intros Hnone later Hle. rewrite Hnone in Hdue.
    exact (still_due_later c _ _ Hdue Hle).
  - simpl. rewrite Hself. split; [exact Hcfg |].
    intros Hnone later Hle. rewrite Hnone in Hdue.
    exact (still_due_later c _ _ Hdue Hle).
Qed.

Lemma last_run_after_attempt_witness :
  let s' := snd (runner_iteration "sales_tasks" always_returns None false
                   (step (Elapse (30 * US_PER_MINUTE)) sales_half_hour_ago)) in
  exists c',
    dict_get "sales_tasks" (task_configs (self s')) = Some (ConfigDict c')
    /\ last_run c' = Some (mk_datetime 2024 3 15 10 0)
    /\ due_now "sales_tasks" (step (Elapse (59 * US_PER_MINUTE)) s') = false.
Proof.
  destruct (last_run_after_attempt
              (step (Elapse (30 * US_PER_MINUTE)) sales_half_hour_ago)
              "sales_tasks"
              (job 60 (Some (mk_datetime 2024 3 15 9 0)) always_returns None)
              false eq_refl eq_refl eq_refl)
    as (c' & Hget & (Hlast & _) & _ & Hnot).
  exists c'. split; [exact Hget |]. split; [exact Hlast |].
  apply Hnot; [unfold plain_interval; simpl; lia | vm_compute; reflexivity].
Defined.

(** C2, the claim as stated fails: the job is due, its operation raises,
    and after the tick [last_run] is still absent rather than the time of
    the attempt; a minute later the job is due again. *)
Lemma failed_attempt_not_stamped :
  let s' := snd (runner_iteration "content_posting" (always_raises "boom") None
                   false flaky) in
  due_now "content_posting" flaky = true
  /\ dict_get "content_posting" (task_configs (self s'))
     = Some (ConfigDict (job 60 None (always_raises "boom") None))
  /\ due_now "content_posting" (step (Elapse US_PER_MINUTE) s') = true.
Proof.
  vm_compute. repeat split; reflexivity.
Qed.

(** ** Manual trigger *)

Lemma run_task_manually_eval (task_name : string) (c : Config) (s : Sys) :
  dict_get task_name (task_configs (self s)) = Some (ConfigDict c) ->
  run_task_manually task_name s
  = match call_function (function c) s with
    | (Val _, s1) =>
        (Val true,
         snd (_log_task_execution task_name true None
                {| self := stamped task_name c (clock (env s1)) (self s1);
                   env := env s1 |}))
    | (Raise (Error msg), s1) =>
        (Val false, snd (_log_task_execution task_name false (Some msg) s1))
    | (Raise CancelledError, s1) => (Raise CancelledError, s1)
    end.
Proof.
  intros Hcfg. pose proof (call_function_self (function c) s) as Hself.
  unfold run_task_manually, try_except. unfold bind at 1. unfold gets at 1.
  rewrite Hcfg. unfold bind at 1.
  destruct (call_function (function c) s) as [[[] | [msg |]] s1]; simpl in Hself.
  - assert (Hcfg1 : dict_get task_name (task_configs (self s1)) = Some (ConfigDict c))
      by (rewrite Hself; exact Hcfg).
    unfold bind. rewrite (set_last_run_eval task_name c s1 Hcfg1).
    destruct (log_total task_name true None
                {| self := stamped task_name c (clock (env s1)) (self s1);
                   env := env s1 |}) as [m [Hlog _]].
    rewrite Hlog. reflexivity.
  - unfold bind.
    destruct (log_total task_name false (Some msg) s1) as [m [Hlog _]].
    rewrite Hlog. reflexivity.
  - reflexivity.
Qed.

(** C3 (as amended): for a registered job, a manual run makes the same
    change to the job's config and persists the same execution record as
    the due branch of the automatic runner, on success and on failure
    alike: when the operation returns, the two reach the same state; when
    it raises, they agree on the scheduler object and differ in the world
    only by the alert, which the automatic runner sends and the manual
    run does not (the manual run answers [False] instead).  For an
    unregistered name the manual run answers [False] and changes
    nothing. *)
Theorem manual_run_matches_runner (s : Sys) (task_name : string) :
  (forall c : Config,
     dict_get task_name (task_configs (self s)) = Some (ConfigDict c) ->
     let manual := run_task_manually task_name s in
     let auto := execute_due task_name (function c) s in
     match call_function (function c) s with
     | (Val _, _) =>
         fst manual = Val true /\ fst auto = Val tt /\ snd manual = snd auto
     | (Raise (Error msg), _) =>
         fst manual = Val false /\ fst auto = Val tt
         /\ self (snd auto) = self (snd manual)
         /\ env (snd auto) = alerted task_name msg (env (snd manual))
     | (Raise CancelledError, _) =>
         fst manual = Raise CancelledError /\ fst auto = Raise CancelledError
         /\ snd manual = snd auto
     end)
  /\ (dict_get task_name (task_configs (self s)) = None ->
      run_task_manually task_name s = (Val false, s)).
Proof.
  split.
  - intros c Hcfg manual auto. subst manual auto.
    rewrite (run_task_manually_eval task_name c s Hcfg).
    rewrite (execute_due_eval task_name (function c) c s Hcfg).
    destruct (call_function (function c) s) as [[[] | [msg |]] s1].
    + destruct (log_total task_name true None
                  {| self := stamped task_name c (clock (env s1)) (self s1);
                     env := env s1 |}) as [m [Hlog _]].
      rewrite Hlog. repeat split; reflexivity.
    + repeat split; reflexivity.
    + repeat split; reflexivity.
  - intros Hnone. unfold run_task_manually, try_except, bind, gets.
    rewrite Hnone. reflexivity.
Qed.

Lemma manual_run_matches_runner_witness :
  fst (run_task_manually "content_posting" flaky) = Val false
  /\ fst (execute_due "content_posting" (always_raises "boom") flaky) = Val tt
  /\ self (snd (execute_due "content_posting" (always_raises "boom") flaky))
     = self (snd (run_task_manually "content_posting" flaky))
  /\ env (snd (execute_due "content_posting" (always_raises "boom") flaky))
     = alerted "content_posting" "boom"
         (env (snd (run_task_manually "content_posting" flaky))).
Proof.
  exact (proj1 (manual_run_matches_runner flaky "content_posting")
           (job 60 None (always_raises "boom") None) eq_refl).
Defined.

Example manual_run_unknown_job :
  run_task_manually "nonexistent" flaky = (Val false, flaky).
Proof. reflexivity. Qed.

(** A registry entry that is [None] makes the manual run fail before
    the operation is reached; the failure is recorded with the text of
    the [TypeError]. *)
Example manual_run_on_broken_entry :
  fst (run_task_manually "daily_analytics" broken_registry) = Val false
  /\ stored_history "daily_analytics"
       (env (snd (run_task_manually "daily_analytics" broken_registry)))
     = [record_at "daily_analytics" (clock (env broken_registry)) false
          (Some "'NoneType' object is not subscriptable")].
Proof. vm_compute. split; reflexivity. Qed.

(** C3, the claim as stated fails: when the operation raises, the
    automatic runner sends a failure alert and the manual run sends none,
    so the two do not perform the same sequence. *)
Lemma manual_run_sends_no_alert :
  effects (env (snd (execute_due "content_posting" (always_raises "boom") flaky)))
  = [Alert "Scheduled task 'content_posting' failed: boom" "scheduler"]
  /\ effects (env (snd (run_task_manually "content_posting" flaky))) = []
  /\ stored_history "content_posting"
       (env (snd (run_task_manually "content_posting" flaky)))
     = [record_at "content_posting" friday_0930 false (Some "boom")].
Proof.
  vm_compute. repeat split; reflexivity.
Qed.

(** ** Report jobs on their off days *)

Lemma off_day_returns (f : JobFunction) (s : Sys) :
  off_day f (clock (env s)) -> call_function f s = (Val tt, s).
Proof.
  intros [[-> Hday] | [-> Hday]]; simpl.
  - unfold _generate_weekly_analytics, try_except, bind, datetime_now, gets.
    apply Z.eqb_neq in Hday. rewrite Hday. reflexivity.
  - unfold _generate_monthly_analytics, try_except, bind, datetime_now, gets.
    apply Z.eqb_neq in Hday. rewrite Hday. reflexivity.
Qed.

(** C9: invoked on a day other than Monday, the weekly report job
    returns normally and leaves the world as it was (no report is built
    or sent); likewise the monthly job on a day other than the 1st.  A
    runner that finds such a job due therefore keeps looping, sets the
    job's [last_run] to the current time, touching no other key of the
    registry, and puts a success record in front of the job's history;
    nothing else changes, and for an interval of at most 2^34 seconds
    the job is not due again before its interval has passed. *)
Theorem off_day_report_job (s : Sys) (task_name : string) (c : Config)
    (l : list ExecutionLog)
    (Hoff : off_day (function c) (clock (env s))) :
  call_function (function c) s = (Val tt, s)
  /\ (is_running (self s) = true ->
      dict_get task_name (task_configs (self s)) = Some (ConfigDict c) ->
      should_run_at c (run_at_hour c) (clock (env s)) = true ->
      holds_history task_name l (env s) ->
      let s' := snd (runner_iteration task_name (function c) (run_at_hour c)
                       false s) in
      fst (runner_iteration task_name (function c) (run_at_hour c) false s)
      = Val KeepLooping
      /\ (exists c',
            dict_get task_name (task_configs (self s')) = Some (ConfigDict c')
            /\ restamped c c' (clock (env s)))
      /\ (forall n, n <> task_name ->
            dict_get n (task_configs (self s')) = dict_get n (task_configs (self s)))
      /\ running_tasks (self s') = running_tasks (self s)
      /\ is_running (self s') = true
      /\ env s' = logged task_name
                    (record_at task_name (clock (env s)) true None) l (env s)
      /\ (plain_interval c ->
          forall dt, dt < interval_minutes c * 60 * US_PER_SECOND ->
            due_now task_name (step (Elapse dt) s') = false)).
Proof.
  pose proof (off_day_returns (function c) s Hoff) as Hcall.
  split; [exact Hcall |].
  intros Hrun Hcfg Hdue Hhist s'. subst s'.
  rewrite (runner_iteration_due task_name (function c) c (run_at_hour c) false s
             Hrun Hcfg Hdue).
  rewrite (execute_due_eval task_name (function c) c s Hcfg), Hcall.
  rewrite (log_step {| self := stamped task_name c (clock (env s)) (self s);
                       env := env s |} task_name true None l Hhist).
  cbn [fst snd self env].
  destruct (stamped_config task_name c (clock (env s)) (self s))
    as ((c' & Hget & Hstamp) & Hothers & Htasks & Hflag).
  split; [reflexivity |]. split; [exists c'; now split |].
  split; [exact Hothers |]. split; [exact Htasks |].
  split; [now rewrite Hflag |]. split; [reflexivity |].
  intros Hplain dt Hdt. unfold due_now, step. cbn [self env]. rewrite Hget.
  exact (restamped_not_due c c' (clock (env s)) (run_at_hour c') dt
           Hstamp Hplain Hdt).
Qed.

Lemma off_day_report_job_witness :
  let s' := snd (runner_iteration "weekly_analytics" GenerateWeeklyAnalytics
                   (Some 9) false weekly_on_friday) in
  (exists c',
      dict_get "weekly_analytics" (task_configs (self s')) = Some (ConfigDict c')
      /\ last_run c' = Some friday_0930)
  /\ stored_history "weekly_analytics" (env s')
     = [record_at "weekly_analytics" friday_0930 true None]
  /\ effects (env s') = []
  /\ due_now "weekly_analytics" (step (Elapse (3 * US_PER_DAY)) s') = false.
Proof.
  intros s'.
  destruct (proj2 (off_day_report_job weekly_on_friday "weekly_analytics"
                     (job 10080 None GenerateWeeklyAnalytics (Some 9)) []
                     ltac:(left; split; [reflexivity | vm_compute; discriminate]))
              eq_refl eq_refl eq_refl
              ltac:(split; [reflexivity
                           | right; split; [apply lookup_empty | reflexivity]]))
    as (_ & (c' & Hget & Hlast & _) & _ & _ & _ & Henv & Hnot).
  assert (Henv' : env s' = logged "weekly_analytics"
                            (record_at "weekly_analytics" friday_0930 true None)
                            [] (env weekly_on_friday)) by exact Henv.
  split; [exists c'; split; [exact Hget | exact Hlast] |].
  split; [rewrite Henv'; reflexivity |]. split; [rewrite Henv'; reflexivity |].
  apply Hnot; [unfold plain_interval; simpl; lia | vm_compute; reflexivity].
Defined.

Example weekly_job_starves :
  let s1 := step (Tick "weekly_analytics" false) weekly_on_friday in
  effects (env s1) = []
  /\ due_now "weekly_analytics" (step (Elapse (3 * US_PER_DAY)) s1) = false.
Proof. vm_compute. split; reflexivity. Qed.

(** ** Failure isolation *)

Lemma history_key_inj (a b : string) : history_key a = history_key b -> a = b.
Proof.
  unfold history_key.
  generalize "task_execution_history:"%string as pre.
  induction pre as [| ch pre IH]; simpl; intros H.
  - exact H.
  - injection H as H. exact (IH H).
Qed.

Lemma holds_history_frame (k : string) (l : list ExecutionLog) (w w1 : World) :
  store w1 !! history_key k = store w !! history_key k ->
  store_mode w1 = store_mode w ->
  holds_history k l w -> holds_history k l w1.
Proof.
  intros Hs Hm [Hok H]. split; [congruence | rewrite Hs; exact H].
Qed.

Lemma holds_history_alerted (k task_name msg : string) (l : list ExecutionLog)
    (w : World) :
  holds_history k l w -> holds_history k l (alerted task_name msg w).
Proof.
  unfold alerted. destruct (discord_up w); [| trivial].
  apply holds_history_frame; reflexivity.
Qed.

Lemma store_alerted (task_name msg : string) (w : World) :
  store (alerted task_name msg w) = store w.
Proof. unfold alerted. destruct (discord_up w); reflexivity. Qed.

Lemma store_mode_alerted (task_name msg : string) (w : World) :
  store_mode (alerted task_name msg w) = store_mode w.
Proof. unfold alerted. destruct (discord_up w); reflexivity. Qed.

Lemma holds_history_logged_same (m : string) (r : ExecutionLog)
    (l : list ExecutionLog) (w : World) :
  store_mode w = StoreOk ->
  holds_history m (take 100 (r :: l)) (logged m r l w).
Proof.
  intros Hok. split; [exact Hok |]. left. simpl. apply lookup_insert_eq.
Qed.

Lemma holds_history_logged_other (k m : string) (r : ExecutionLog)
    (l lk : list ExecutionLog) (w : World) :
  k <> m -> holds_history k lk w -> holds_history k lk (logged m r l w).
Proof.
  intros Hne [Hok H]. split; [exact Hok |]. simpl.
  rewrite lookup_insert_ne; [exact H |].
  intros Heq. apply Hne. symmetry. exact (history_key_inj _ _ Heq).
Qed.

Lemma tame_jobs_stamped (s : Sys) (m : string) (c : Config) (now : datetime)
    (w : World) :
  dict_get m (task_configs (self s)) = Some (ConfigDict c) ->
  tame_jobs s ->
  tame_jobs {| self := stamped m c now (self s); env := w |}.
Proof.
  intros Hc Hjobs k ck Hk. simpl in Hk.
  destruct (String.eqb_spec m k) as [<- | Hne].
  - rewrite dict_get_set_eq in Hk. inversion Hk; subst. simpl.
    exact (Hjobs m c Hc).
  - rewrite dict_get_set_ne in Hk by exact Hne. exact (Hjobs k ck Hk).
Qed.

Lemma alive_pending (m : string) (s : Sys) :
  alive m s = true ->
  exists task, dict_get m (running_tasks (self s)) = Some task
               /\ task_state task = Pending.
Proof.
  unfold alive, task_done. destruct (dict_get m (running_tasks (self s))) as [t |];
    [| discriminate].
  destruct (task_state t) eqn:Ht; [| discriminate].
  intros _. exists t. split; [reflexivity | exact Ht].
Qed.

(** A due tick whose operation raises an error: the error stops at the
    runner, which logs it, alerts, and goes to sleep. *)
Lemma failed_tick (s s1 : Sys) (n msg : string) (c : Config) (interrupted : bool) :
  is_running (self s) = true ->
  dict_get n (task_configs (self s)) = Some (ConfigDict c) ->
  should_run_at c (run_at_hour c) (clock (env s)) = true ->
  call_function (function c) s = (Raise (Error msg), s1) ->
  let s2 := snd (_log_task_execution n false (Some msg) s1) in
  runner_iteration n (function c) (run_at_hour c) interrupted s
  = (Val (if interrupted then LoopExit else KeepLooping),
     {| self := self s2; env := alerted n msg (env s2) |}).
Proof.
  intros Hrun Hcfg Hdue Hcall s2.
  rewrite (runner_iteration_due n (function c) c (run_at_hour c) interrupted s
             Hrun Hcfg Hdue).
  rewrite (execute_due_eval n (function c) c s Hcfg), Hcall.
  reflexivity.
Qed.

(** One uninterrupted tick of a due, well-behaved job: the runner keeps
    looping; the job's config is stamped only on success; one record goes
    in front of the job's history; every other config and every other
    history is as before. *)
Lemma tick_step (s0 s : Sys) (m : string) (c : Config) (l : list ExecutionLog) :
  isolation_inv s0 s ->
  alive m s = true ->
  dict_get m (task_configs (self s)) = Some (ConfigDict c) ->
  should_run_at c (run_at_hour c) (clock (env s)) = true ->
  holds_history m l (env s) ->
  let s' := step (Tick m false) s in
  isolation_inv s0 s'
  /\ (exists c' r,
        dict_get m (task_configs (self s')) = Some (ConfigDict c')
        /\ function c' = function c
        /\ holds_history m (take 100 (r :: l)) (env s')
        /\ log_success r = match fst (call_function (function c) s) with
                           | Val _ => true
                           | Raise _ => false
                           end)
  /\ (forall k, k <> m ->
        dict_get k (task_configs (self s')) = dict_get k (task_configs (self s)))
  /\ (forall k lk, k <> m -> holds_history k lk (env s) -> holds_history k lk (env s')).
Proof.
  intros [Hrun [Htasks [Hok [Hall Hjobs]]]] Halive Hcfg Hdue Hhist s'.
  destruct (alive_pending m s Halive) as [task [Htask Hpending]].
  destruct (Hjobs m c Hcfg s) as [Hnc [Hmode Hkeys]].
  pose proof (call_function_self (function c) s) as Hself.
  assert (Hs' : s' = snd (execute_due m (function c) s)).
  { subst s'. unfold step. rewrite Htask, Hcfg, Hpending.
    rewrite (runner_iteration_due m (function c) c (run_at_hour c) false s
               Hrun Hcfg Hdue).
    rewrite (execute_due_eval m (function c) c s Hcfg).
    destruct (call_function (function c) s) as [[[] | [msg |]] s1]; simpl in Hnc.
    - destruct (log_total m true None
                  {| self := stamped m c (clock (env s1)) (self s1); env := env s1 |})
        as [m' [Hlog _]].
      rewrite Hlog. reflexivity.
    - reflexivity.
    - congruence. }
  clearbody s'. subst s'.
  rewrite (execute_due_eval m (function c) c s Hcfg).
  destruct (call_function (function c) s) as [[[] | [msg |]] [self1 w1]];
    simpl in Hnc, Hmode, Hkeys, Hself; [| | congruence]; subst self1;
    cbn [self env].
  - (* the operation returned *)
    assert (Hframe : forall k lk, holds_history k lk (env s) -> holds_history k lk w1)
      by (intros k lk; apply holds_history_frame; [apply Hkeys | exact Hmode]).
    assert (Hok1 : store_mode w1 = StoreOk) by congruence.
    rewrite (log_step {| self := stamped m c (clock w1) (self s); env := w1 |}
               m true None l (Hframe m l Hhist)).
    cbv zeta. simpl snd. simpl fst. simpl self. simpl env.
    set (r := {| log_task_name := m; log_timestamp := clock w1;
                 log_success := true; log_error := None |}).
    change (with_store _ w1) with (logged m r l w1).
    split; [| split; [| split]].
    + split; [exact Hrun |]. split; [exact Htasks |]. split; [exact Hok1 |]. split.
      * intros k. simpl. destruct (String.eqb_spec k m) as [-> | Hne].
        -- eexists. apply holds_history_logged_same. exact Hok1.
        -- destruct (Hall k) as [lk Hk]. exists lk.
           apply holds_history_logged_other; [exact Hne | exact (Hframe k lk Hk)].
      * apply tame_jobs_stamped; assumption.
    + exists (ran_at (clock w1) c), r. simpl.
      split; [apply dict_get_set_eq |]. split; [reflexivity |].
      split; [apply holds_history_logged_same; exact Hok1 | reflexivity].
    + intros k Hne. simpl. apply dict_get_set_ne. congruence.
    + intros k lk Hne Hk. simpl.
      apply holds_history_logged_other; [exact Hne | exact (Hframe k lk Hk)].
  - (* the operation raised *)
    assert (Hframe : forall k lk, holds_history k lk (env s) -> holds_history k lk w1)
      by (intros k lk; apply holds_history_frame; [apply Hkeys | exact Hmode]).
    assert (Hok1 : store_mode w1 = StoreOk) by congruence.
    rewrite (log_step {| self := self s; env := w1 |} m false (Some msg) l
               (Hframe m l Hhist)).
    cbv zeta. simpl snd. simpl fst. simpl self. simpl env.
    set (r := {| log_task_name := m; log_timestamp := clock w1;
                 log_success := false; log_error := Some msg |}).
    change (with_store _ w1) with (logged m r l w1).
    split; [| split; [| split]].
    + split; [exact Hrun |]. split; [exact Htasks |].
      split; [cbn [env]; rewrite store_mode_alerted; exact Hok1 |]. split.
      * intros k. simpl. destruct (String.eqb_spec k m) as [-> | Hne].
        -- eexists. apply holds_history_alerted.
           apply holds_history_logged_same. exact Hok1.
        -- destruct (Hall k) as [lk Hk]. exists lk.
           apply holds_history_alerted.
           apply holds_history_logged_other; [exact Hne | exact (Hframe k lk Hk)].
      * exact Hjobs.
    + exists c, r. simpl.
      split; [exact Hcfg |]. split; [reflexivity |].
      split; [| reflexivity].
      apply holds_history_alerted. apply holds_history_logged_same. exact Hok1.
    + intros k Hne. reflexivity.
    + intros k lk Hne Hk. simpl. apply holds_history_alerted.
      apply holds_history_logged_other; [exact Hne | exact (Hframe k lk Hk)].
Qed.

Lemma due_now_config (m : string) (s : Sys) :
  due_now m s = true ->
  exists c, dict_get m (task_configs (self s)) = Some (ConfigDict c)
            /\ should_run_at c (run_at_hour c) (clock (env s)) = true.
Proof.
  unfold due_now. destruct (dict_get m (task_configs (self s))) as [[c |] |];
    try discriminate.
  intros H. exists c. split; [reflexivity | exact H].
Qed.

Lemma isolation_inv_elapse (s0 s : Sys) (dt : Z) :
  isolation_inv s0 s -> isolation_inv s0 (step (Elapse dt) s).
Proof.
  intros [Hrun [Htasks [Hok [Hall Hjobs]]]]. simpl.
  split; [exact Hrun |]. split; [exact Htasks |]. split; [exact Hok |]. split.
  - intros k. destruct (Hall k) as [l Hl]. exists l.
    apply holds_history_clock. exact Hl.
  - exact Hjobs.
Qed.

Lemma ticks_of_tick (n m : string) (i : bool) (rest : list Event) :
  ticks_of n (Tick m i :: rest)
  = if String.eqb m n then S (ticks_of n rest) else ticks_of n rest.
Proof. unfold ticks_of. simpl. destruct (String.eqb m n); reflexivity. Qed.

Lemma run_isolated (s0 : Sys) (n : string) (f : JobFunction) (evs : list Event) :
  forall (s : Sys) (l : list ExecutionLog) (c : Config),
    isolation_inv s0 s ->
    forallb (schedulable s0) evs = true ->
    all_due evs s = true ->
    dict_get n (task_configs (self s)) = Some (ConfigDict c) ->
    function c = f ->
    holds_history n l (env s) ->
    (length l <= 100)%nat ->
    exists l',
      isolation_inv s0 (run evs s)
      /\ holds_history n l' (env (run evs s))
      /\ length l' = Nat.min (length l + ticks_of n evs) 100
      /\ (fails_always f -> Forall failed l -> Forall failed l')
      /\ (returns_always f -> Forall succeeded l -> Forall succeeded l').
Proof.
  induction evs as [| ev rest IH]; intros s l c Hinv Hsched Hdue Hcfg Hf Hhist Hlen.
  - exists l. change (ticks_of n []) with 0%nat. simpl run.
    split; [exact Hinv |]. split; [exact Hhist |].
    split; [lia |]. split; intros _ H; exact H.
  - simpl in Hsched, Hdue. apply andb_true_iff in Hsched as [Hev Hsched].
    apply andb_true_iff in Hdue as [Hnow Hdue].
    change (run (ev :: rest) s) with (run rest (step ev s)).
    destruct ev as [m i | m | dt]; simpl in Hev.
    + (* a tick of the runner of [m] *)
      apply andb_true_iff in Hev as [Hi Halive0].
      destruct i; [discriminate |].
      assert (Halive : alive m s = true).
      { unfold alive in *. destruct Hinv as [_ [Htasks _]]. now rewrite Htasks. }
      destruct (due_now_config m s Hnow) as [cm [Hcm Hduem]].
      destruct (String.eqb_spec m n) as [-> | Hne].
      * assert (cm = c) by congruence. subst cm.
        destruct (tick_step s0 s n c l Hinv Halive Hcfg Hduem Hhist)
          as [Hinv' [[c' [r [Hc' [Hf' [Hh' Hr]]]]] _]].
        destruct (IH _ (take 100 (r :: l)) c' Hinv' Hsched Hdue Hc')
          as [l' [Hi' [Hl' [Hlen' [Hfail Hsucc]]]]];
          [congruence | exact Hh' | rewrite length_take; lia |].
        exists l'. split; [exact Hi' |]. split; [exact Hl' |]. split; [| split].
        -- rewrite Hlen', length_take, ticks_of_tick, String.eqb_refl.
           change (length (r :: l)) with (S (length l)). lia.
        -- intros Hraises Hl. apply Hfail; [exact Hraises |].
           apply Forall_take. constructor; [| exact Hl].
           unfold failed. rewrite Hr, Hf.
           destruct (Hraises s) as [msg ->]. reflexivity.
        -- intros Hreturns Hl. apply Hsucc; [exact Hreturns |].
           apply Forall_take. constructor; [| exact Hl].
           unfold succeeded. rewrite Hr, Hf, (Hreturns s). reflexivity.
      * assert (Hall : exists lm, holds_history m lm (env s))
          by (destruct Hinv as [_ [_ [_ [Hall _]]]]; apply Hall).
        destruct Hall as [lm Hlm].
        destruct (tick_step s0 s m cm lm Hinv Halive Hcm Hduem Hlm)
          as [Hinv' [_ [Hother Hkeep]]].
        assert (Hnm : n <> m) by congruence.
        destruct (IH _ l c Hinv' Hsched Hdue) as [l' [Hi' [Hl' [Hlen' Hrest]]]];
          [rewrite (Hother n Hnm); exact Hcfg | exact Hf
          | exact (Hkeep n l Hnm Hhist) | exact Hlen |].
        exists l'. split; [exact Hi' |]. split; [exact Hl' |].
        split; [| exact Hrest].
        rewrite Hlen', ticks_of_tick.
        destruct (String.eqb_spec m n); [congruence | reflexivity].
    + discriminate.
    + destruct (IH _ l c (isolation_inv_elapse s0 s dt Hinv) Hsched Hdue Hcfg Hf)
        as [l' [Hi' [Hl' [Hlen' Hrest]]]];
        [apply holds_history_clock; exact Hhist | exact Hlen |].
      exists l'. split; [exact Hi' |]. split; [exact Hl' |].
      split; [exact Hlen' | exact Hrest].
Qed.

(** ** The scheduler's own jobs are well behaved *)

Ltac same_store :=
  split;
  [simpl; discriminate
  | split; [simpl; first [reflexivity | assumption] | intros ?; reflexivity]].

Section KeepsHistories.

Context {A B : Type}.

Lemma keeps_histories_ret (a : A) : keeps_histories (ret a).
Proof. intros s. same_store. Qed.

Lemma keeps_histories_error (msg : string) : keeps_histories (@raise A (Error msg)).
Proof. intros s. same_store. Qed.

Lemma keeps_histories_gets (f : Sys -> A) : keeps_histories (gets f).
Proof. intros s. same_store. Qed.

Lemma keeps_histories_bind (c : M A) (k : A -> M B) :
  keeps_histories c -> (forall a, keeps_histories (k a)) ->
  keeps_histories (bind c k).
Proof.
  intros Hc Hk s. unfold bind. destruct (Hc s) as [Hn [Hm Hs]].
  destruct (c s) as [[a | e] s1]; simpl in *.
  - destruct (Hk a s1) as [Hn' [Hm' Hs']].
    split; [exact Hn' |]. split; [congruence |].
    intros key. rewrite Hs'. apply Hs.
  - split; [congruence |]. split; assumption.
Qed.

Lemma keeps_histories_try_except (body : M A) (handler : string -> M A) :
  keeps_histories body -> (forall msg, keeps_histories (handler msg)) ->
  keeps_histories (try_except body handler).
Proof.
  intros Hb Hh s. unfold try_except. destruct (Hb s) as [Hn [Hm Hs]].
  destruct (body s) as [[a | [msg |]] s1]; simpl in *.
  - split; [discriminate |]. split; assumption.
  - destruct (Hh msg s1) as [Hn' [Hm' Hs']].
    split; [exact Hn' |]. split; [congruence |].
    intros key. rewrite Hs'. apply Hs.
  - congruence.
Qed.

End KeepsHistories.

Lemma keeps_histories_get (key : string) : keeps_histories (data_store_get key).
Proof.
  intros s. unfold data_store_get.
  destruct (store_mode (env s)) eqn:Hm; same_store.
Qed.

Lemma keeps_histories_set (key : string) (v : Value) (expire : option Z) :
  (forall k, key <> history_key k) ->
  keeps_histories (data_store_set key v expire).
Proof.
  intros Hkey s. unfold data_store_set.
  destruct (store_mode (env s)) eqn:Hm; [| same_store | same_store].
  split; [simpl; discriminate |]. split; [simpl; exact Hm |].
  intros k. simpl. apply lookup_insert_ne. apply Hkey.
Qed.

Lemma keeps_histories_alert (message source : string) :
  keeps_histories (discord_send_system_alert message source).
Proof.
  intros s. unfold discord_send_system_alert.
  destruct (discord_up (env s)); same_store.
Qed.

Lemma keeps_histories_send_report (text : string) :
  keeps_histories (discord_send_analytics_report text).
Proof.
  intros s. unfold discord_send_analytics_report.
  destruct (discord_up (env s)); same_store.
Qed.

Lemma keeps_histories_generate_report (kind : ReportKind) :
  keeps_histories (generate_report kind).
Proof.
  intros s. unfold generate_report.
  destruct (report_feed (env s) kind); same_store.
Qed.

Lemma health_keys_are_no_history (k : string) :
  "health_check"%string <> history_key k /\ "system_health"%string <> history_key k.
Proof. split; unfold history_key; simpl; discriminate. Qed.

Create HintDb histories discriminated.
#[local] Hint Resolve keeps_histories_ret keeps_histories_error keeps_histories_gets
  keeps_histories_get keeps_histories_alert keeps_histories_send_report
  keeps_histories_generate_report : histories.

Ltac histories_step :=
  match goal with
  | |- keeps_histories (bind _ _) => apply keeps_histories_bind; [| intros ?]
  | |- keeps_histories (try_except _ _) =>
      apply keeps_histories_try_except; [| intros ?]
  | |- keeps_histories (if ?b then _ else _) => destruct b
  | |- keeps_histories (match ?x with _ => _ end) => destruct x
  | |- keeps_histories datetime_now => apply keeps_histories_gets
  | |- keeps_histories (data_store_set _ _ _) =>
      apply keeps_histories_set; intros ?; apply health_keys_are_no_history
  | |- keeps_histories _ => solve [auto with histories]
  end.

(** The analytics jobs and the health check are well behaved. *)
Lemma own_jobs_well_behaved (f : JobFunction) :
  (forall operation, f <> Opaque operation) -> well_behaved f.
Proof.
  intros Hf. unfold well_behaved.
  destruct f as [| | | | operation]; simpl.
  - unfold _generate_daily_analytics. repeat histories_step.
  - unfold _generate_weekly_analytics. repeat histories_step.
  - unfold _generate_monthly_analytics. repeat histories_step.
  - unfold _system_health_check, build_health_status. repeat histories_step.
  - exfalso. exact (Hf operation eq_refl).
Qed.

(** They also never raise: each catches every error in its own body. *)
Lemma own_jobs_return (f : JobFunction) :
  (forall operation, f <> Opaque operation) -> returns_always f.
Proof.
  intros Hf s. destruct (own_jobs_well_behaved f Hf s) as [Hnc _].
  destruct f as [| | | | operation]; simpl in *;
    try (exfalso; exact (Hf operation eq_refl));
    match goal with
    | H : fst (?c s) <> Raise CancelledError |- fst (?c s) = Val tt =>
        unfold _generate_daily_analytics, _generate_weekly_analytics,
          _generate_monthly_analytics, _system_health_check, try_except in *;
        match goal with
        | |- context [match ?b s with _ => _ end] =>
            destruct (b s) as [[[] | [msg |]] s1]; simpl in *;
              [reflexivity | reflexivity | congruence]
        end
    end.
Qed.

(** ** Health check *)

Lemma tasks_ok_spec (spawned : list (string * Task)) :
  forallb (fun nt => running (snd nt))
    (map (fun nt => (fst nt, liveness_of (snd nt))) spawned) = true
  <-> all_pending spawned.
Proof.
  unfold all_pending. induction spawned as [| [n t] rest IH]; simpl.
  - split; [constructor | reflexivity].
  - rewrite andb_true_iff, IH, Forall_cons. simpl.
    unfold task_done. destruct (task_state t); simpl; intuition congruence.
Qed.

Lemma probe_store (s : Sys) :
  exists s',
    try_except
      (let* _ := data_store_set "health_check" (VStamp (clock (env s))) (Some 300) in
       let* test_value := data_store_get "health_check" in
       ret (match test_value with Some _ => true | None => false end))
      (fun _ => ret false) s
    = (Val (match store_mode (env s) with StoreOk => true | _ => false end), s')
    /\ self s' = self s
    /\ clock (env s') = clock (env s)
    /\ store_mode (env s') = store_mode (env s).
Proof.
  unfold try_except, bind, data_store_set, data_store_get.
  destruct (store_mode (env s)) eqn:Hm.
  - eexists. cbn -[insert]. rewrite Hm. cbn -[insert].
    rewrite lookup_insert_eq. cbn.
    destruct (Z.leb_spec (clock (env s) + 300 * US_PER_SECOND) (clock (env s)))
      as [Hle | Hgt]; [unfold US_PER_SECOND in Hle; lia |].
    repeat split; reflexivity || exact Hm.
  - exists s. repeat split; reflexivity || exact Hm.
  - exists s. cbn. rewrite Hm. repeat split; reflexivity || exact Hm.
Qed.

(** What [build_health_status] returns. *)
Lemma build_health_status_eval (s : Sys) :
  exists s',
    build_health_status s
    = (Val {| hs_timestamp := clock (env s);
              redis_connection :=
                match store_mode (env s) with StoreOk => true | _ => false end;
              task_status :=
                map (fun nt => (fst nt, liveness_of (snd nt)))
                  (running_tasks (self s));
              overall_status :=
                derive_overall_status
                  (match store_mode (env s) with StoreOk => true | _ => false end)
                  (forallb (fun nt => running (snd nt))
                     (map (fun nt => (fst nt, liveness_of (snd nt)))
                        (running_tasks (self s)))) |}, s')
    /\ self s' = self s
    /\ clock (env s') = clock (env s)
    /\ store_mode (env s') = store_mode (env s).
Proof.
  destruct (probe_store s) as [s' [Hprobe [Hself [Hclock Hmode]]]].
  exists s'. split; [| split; [exact Hself | split; [exact Hclock | exact Hmode]]].
  unfold build_health_status.
  unfold bind at 1. unfold datetime_now, gets at 1.
  unfold bind at 1. rewrite Hprobe.
  unfold bind, gets, ret. rewrite Hself. reflexivity.
Qed.

Lemma derive_overall_status_spec (redis_ok tasks_ok : bool) :
  (derive_overall_status redis_ok tasks_ok = Healthy
   <-> redis_ok = true /\ tasks_ok = true)
  /\ (derive_overall_status redis_ok tasks_ok = Unhealthy
      <-> redis_ok = false /\ tasks_ok = false)
  /\ (derive_overall_status redis_ok tasks_ok = Degraded
      <-> (redis_ok = true /\ tasks_ok = false)
          \/ (redis_ok = false /\ tasks_ok = true)).
Proof.
  destruct redis_ok, tasks_ok; cbn; intuition congruence.
Qed.

Lemma health_check_persists (s s' : Sys) (hs : HealthStatus) :
  build_health_status s = (Val hs, s') ->
  store_mode (env s') = StoreOk ->
  store (env (snd (_system_health_check s))) !! "system_health"
  = Some {| entry_value := VHealth hs;
            expires_at := Some (clock (env s') + 3600 * US_PER_SECOND) |}.
Proof.
  intros Hbuild Hmode.
  unfold _system_health_check, try_except. unfold bind at 1. rewrite Hbuild.
  unfold bind at 1. unfold data_store_set at 1. rewrite Hmode.
  destruct (overall_status hs); cbn -[insert]; try apply lookup_insert_eq.
  unfold discord_send_system_alert. cbn -[insert].
  destruct (discord_up (env s')); cbn -[insert]; apply lookup_insert_eq.
Qed.

(** C5: the health check derives [overall_status] from the store probe
    and the liveness of the tracked runners: healthy exactly when the
    store is reachable and every tracked runner is running, unhealthy
    exactly when neither holds, degraded exactly when one of the two
    holds.  The check itself always returns, and with a reachable store
    the snapshot so derived is what it persists. *)
Theorem health_derivation (s : Sys) :
  let reachable := store_mode (env s) = StoreOk in
  let all_running := all_pending (running_tasks (self s)) in
  exists (hs : HealthStatus) (s' : Sys),
    build_health_status s = (Val hs, s')
    /\ (redis_connection hs = true <-> reachable)
    /\ (overall_status hs = Healthy <-> reachable /\ all_running)
    /\ (overall_status hs = Unhealthy <-> ~ reachable /\ ~ all_running)
    /\ (overall_status hs = Degraded
        <-> (reachable /\ ~ all_running) \/ (~ reachable /\ all_running))
    /\ fst (_system_health_check s) = Val tt
    /\ (reachable ->
        store (env (snd (_system_health_check s))) !! "system_health"
        = Some {| entry_value := VHealth hs;
                  expires_at := Some (clock (env s) + 3600 * US_PER_SECOND) |}).
Proof.
  intros reachable all_running.
  destruct (build_health_status_eval s) as [s' [Hbuild [Hself [Hclock Hmode]]]].
  eexists. exists s'. split; [exact Hbuild |].
  simpl redis_connection. simpl overall_status.
  set (redis := match store_mode (env s) with StoreOk => true | _ => false end).
  set (tasks_ok := forallb _ _).
  assert (Hr : redis = true <-> reachable)
    by (unfold redis, reachable; destruct (store_mode (env s)); intuition congruence).
  assert (Ht : tasks_ok = true <-> all_running) by apply tasks_ok_spec.
  destruct (derive_overall_status_spec redis tasks_ok) as [H1 [H2 H3]].
  rewrite H1, H2, H3.
  split; [exact Hr |].
  split; [destruct redis, tasks_ok; intuition congruence |].
  split; [destruct redis, tasks_ok; intuition congruence |].
  split; [destruct redis, tasks_ok; intuition congruence |].
  split.
  - apply (own_jobs_return SystemHealthCheck); discriminate.
  - intros Hreach.
    assert (Hmode' : store_mode (env s') = StoreOk) by congruence.
    pose proof (health_check_persists s s' _ Hbuild Hmode') as Hp.
    rewrite Hclock in Hp. exact Hp.
Qed.

Example health_store_down_runners_alive :
  let s := {| self := started [("a", ConfigDict (job 1 None always_returns None))];
              env := {| clock := friday_0930; store_mode := StoreRaises; store := ∅;
                        discord_up := true; report_feed := fun _ => NoReport;
                        effects := [] |} |} in
  overall_status <$> (match fst (build_health_status s) with
                      | Val hs => Some hs | Raise _ => None end) = Some Degraded.
Proof. reflexivity. Qed.

(** ** The isolation theorem *)

(** C1: an error raised by a job's operation on a due tick stops at the
    runner: the iteration ends normally and the loop goes on (it exits
    only if a cancellation reaches the sleep), the scheduler object, and
    with it every other job's config and task, is untouched, the failure
    record goes in front of the job's own history and no other key of the
    store is written.  Hence, in a scheduler whose jobs are well behaved,
    after any schedule of uninterrupted due ticks the scheduler is still
    running and every runner is as alive as before, and each job has one
    record per tick of its own (up to the cap of 100): only failure
    records for a job whose operation always raises, only success records
    for a job whose operation always returns. *)
Theorem failure_isolation :
  (forall (s s1 : Sys) (n msg : string) (c : Config) (interrupted : bool)
          (l : list ExecutionLog),
      is_running (self s) = true ->
      dict_get n (task_configs (self s)) = Some (ConfigDict c) ->
      should_run_at c (run_at_hour c) (clock (env s)) = true ->
      call_function (function c) s = (Raise (Error msg), s1) ->
      exists s',
        runner_iteration n (function c) (run_at_hour c) interrupted s
        = (Val (if interrupted then LoopExit else KeepLooping), s')
        /\ self s' = self s
        /\ (forall k, k <> history_key n ->
              store (env s') !! k = store (env s1) !! k)
        /\ (holds_history n l (env s1) ->
            holds_history n
              (take 100 (record_at n (clock (env s1)) false (Some msg) :: l))
              (env s')))
  /\ (forall (s : Sys) (evs : list Event) (n : string) (c : Config),
        is_running (self s) = true ->
        store_mode (env s) = StoreOk ->
        (forall k, store (env s) !! history_key k = None) ->
        tame_jobs s ->
        forallb (schedulable s) evs = true ->
        all_due evs s = true ->
        dict_get n (task_configs (self s)) = Some (ConfigDict c) ->
        alive n s = true ->
        let s' := run evs s in
        is_running (self s') = true
        /\ running_tasks (self s') = running_tasks (self s)
        /\ alive n s' = true
        /\ length (stored_history n (env s')) = Nat.min (ticks_of n evs) 100
        /\ (fails_always (function c) -> Forall failed (stored_history n (env s')))
        /\ (returns_always (function c) ->
            Forall succeeded (stored_history n (env s')))).
Proof.
  split.
  - intros s s1 n msg c interrupted l Hrun Hcfg Hdue Hcall.
    pose proof (call_function_self (function c) s) as Hself.
    rewrite Hcall in Hself. simpl in Hself.
    eexists. split; [exact (failed_tick s s1 n msg c interrupted Hrun Hcfg Hdue Hcall) |].
    cbv zeta. cbn [self env].
    destruct (log_total n false (Some msg) s1) as [m [Hlog Hoff]].
    split; [| split].
    + rewrite Hlog. exact Hself.
    + intros k Hk. rewrite store_alerted, Hlog. simpl. exact (Hoff k Hk).
    + intros Hhist. apply holds_history_alerted.
      rewrite (log_step s1 n false (Some msg) l Hhist). cbv zeta. simpl snd.
      apply holds_history_logged_same. apply Hhist.
  - intros s evs n c Hrun Hstore Hfresh Hjobs Hsched Hdue Hcfg Halive s'.
    assert (Hinv : isolation_inv s s).
    { split; [exact Hrun |]. split; [reflexivity |]. split; [exact Hstore |].
      split; [| exact Hjobs].
      intros k. exists []. split; [exact Hstore |]. right.
      split; [apply Hfresh | reflexivity]. }
    assert (Hhist : holds_history n [] (env s)).
    { split; [exact Hstore |]. right. split; [apply Hfresh | reflexivity]. }
    destruct (run_isolated s n (function c) evs s [] c Hinv Hsched Hdue Hcfg
                eq_refl Hhist)
      as [l' [[Hrun' [Htasks' _]] [Hl' [Hlen' [Hfail Hsucc]]]]]; [simpl; lia |].
    fold s' in Hrun', Htasks', Hl'.
    rewrite (holds_history_read n l' (env s') Hl').
    split; [exact Hrun' |]. split; [exact Htasks' |]. split; [| split; [| split]].
    + unfold alive in *. rewrite Htasks'. exact Halive.
    + rewrite Hlen'. reflexivity.
    + intros H. apply Hfail; [exact H | constructor].
    + intros H. apply Hsucc; [exact H | constructor].
Qed.

Lemma one_bad_job_tame : tame_jobs one_bad_job.
Proof.
  intros k c H. simpl in H.
  destruct (String.eqb k "content_posting").
  - inversion H; subst. intros s. same_store.
  - destruct (String.eqb k "sales_tasks").
    + inversion H; subst. intros s. same_store.
    + destruct (String.eqb k "system_health_check"); [| discriminate].
      inversion H; subst. apply own_jobs_well_behaved. discriminate.
Qed.

Lemma failure_isolation_witness :
  let s' := run three_rounds one_bad_job in
  (exists s1,
     runner_iteration "content_posting" (always_raises "boom") None false flaky
     = (Val KeepLooping, s1)
     /\ self s1 = self flaky)
  /\ (is_running (self s') = true
      /\ running_tasks (self s') = running_tasks (self one_bad_job)
      /\ alive "content_posting" s' = true
      /\ length (stored_history "content_posting" (env s')) = 3%nat
      /\ Forall failed (stored_history "content_posting" (env s')))
  /\ (alive "sales_tasks" s' = true
      /\ length (stored_history "sales_tasks" (env s')) = 3%nat
      /\ Forall succeeded (stored_history "sales_tasks" (env s'))).
Proof.
  intros s'. split; [| split].
  - destruct (proj1 failure_isolation flaky flaky "content_posting" "boom"
                (job 60 None (always_raises "boom") None) false []
                eq_refl eq_refl eq_refl eq_refl)
      as [s1 [H1 [H2 _]]].
    exists s1. split; [exact H1 | exact H2].
  - destruct (proj2 failure_isolation one_bad_job three_rounds "content_posting"
                (job 1 None (always_raises "boom") None)
                eq_refl eq_refl (fun k => lookup_empty _) one_bad_job_tame
                eq_refl eq_refl eq_refl eq_refl)
      as [H1 [H2 [H3 [H4 [H5 _]]]]].
    split; [exact H1 |]. split; [exact H2 |]. split; [exact H3 |].
    split; [exact H4 |].
    apply H5. intros w. exists "boom"%string. reflexivity.
  - destruct (proj2 failure_isolation one_bad_job three_rounds "sales_tasks"
                (job 1 None always_returns None)
                eq_refl eq_refl (fun k => lookup_empty _) one_bad_job_tame
                eq_refl eq_refl eq_refl eq_refl)
      as [_ [_ [H3 [H4 [_ H6]]]]].
    split; [exact H3 |]. split; [exact H4 |].
    apply H6. intros w. reflexivity.
Defined.

Example one_bad_job_history :
  stored_history "content_posting" (env (run three_rounds one_bad_job))
  = [record_at "content_posting" (friday_0930 + 2 * US_PER_MINUTE) false (Some "boom");
     record_at "content_posting" (friday_0930 + US_PER_MINUTE) false (Some "boom");
     record_at "content_posting" friday_0930 false (Some "boom")]
  /\ length (effects (env (run three_rounds one_bad_job))) = 3%nat.
Proof. vm_compute. split; reflexivity. Qed.

(** * Further properties of the scheduler *)

(** ** Start-up *)

Lemma start_eval (settings : Settings) (ext : Collaborators) (s : Sys) :
  is_running (self s) = false ->
  running_tasks (self s) = [] ->
  start settings ext s
  = (Val tt, {| self := started (registry settings ext); env := env s |}).
Proof.
  destruct s as [[spawned cfgs running] w]. simpl. intros -> ->. reflexivity.
Qed.

Lemma stop_eval (s : Sys) :
  is_running (self s) = true ->
  forallb (fun nt => clean_cancel (snd nt)) (running_tasks (self s)) = true ->
  stop s = (Val tt, stopped s).
Proof.
  intros Hon Hclean.
  destruct (cancel_each_clean _ s Hclean) as [s' [Hrun [Hcfg [_ Henv]]]].
  unfold stop, bind, gets. rewrite Hon. cbn -[cancel_each].
  rewrite Hrun. unfold modify_self, stopped, with_tasks, with_running.
  simpl. rewrite Hcfg, Henv. reflexivity.
Qed.

(** X1: started from a stopped scheduler that tracks no task, [start]
    returns normally with the running flag set, the eight jobs
    registered with no [last_run], and one pending runner per job.  On
    the first tick the three analytics jobs are due exactly when the
    current hour is the report hour; the five other jobs are due at
    once. *)
Theorem start_from_scratch (settings : Settings) (ext : Collaborators) (s : Sys)
    (Hoff : is_running (self s) = false)
    (Hnone : running_tasks (self s) = []) :
  let s' := {| self := started (registry settings ext); env := env s |} in
  start settings ext s = (Val tt, s')
  /\ map fst (task_configs (self s')) = job_names
  /\ (forall n c, dict_get n (task_configs (self s')) = Some (ConfigDict c) ->
        last_run c = None /\ enabled c = true)
  /\ (forall n, In n job_names ->
        alive n s' = true
        /\ due_now n s'
           = if hour_bound n
             then dt_hour (clock (env s)) =? analytics_report_hour settings
             else true).
Proof.
  intros s'. split; [exact (start_eval settings ext s Hoff Hnone) |].
  split; [reflexivity |]. split.
  - intros n c H. simpl in H.
    repeat match type of H with
           | (if ?b then _ else _) = _ =>
               destruct b; [inversion H; subst; split; reflexivity |]
           end.
    discriminate.
  - intros n Hin. simpl in Hin.
    repeat destruct Hin as [<- | Hin]; try contradiction; split; reflexivity.
Qed.

Lemma start_from_scratch_witness :
  start sample_settings quiet_collaborators
    {| self := fresh_scheduler; env := world_at friday_0930 |}
  = (Val tt, {| self := started (registry sample_settings quiet_collaborators);
                env := world_at friday_0930 |}).
Proof.
  exact (proj1 (start_from_scratch sample_settings quiet_collaborators
                  {| self := fresh_scheduler; env := world_at friday_0930 |}
                  eq_refl eq_refl)).
Defined.

(** ** The schedule keeps the runners

    Ticks, manual runs and the passing of time change neither the set
    of tracked tasks nor the running flag nor the names of the
    registry, and a task only ever goes from pending to done. *)




















(** X3: a restart forgets every [last_run].  When a running scheduler is
    stopped (each await returning or raising [CancelledError]) and
    started again, the registry is rebuilt: whatever the jobs' stamps
    were, the five jobs without report hour are due on the first tick
    after the restart. *)
Theorem restart_forgets_cadence (settings : Settings) (ext : Collaborators)
    (s : Sys)
    (Hon : is_running (self s) = true)
    (Hclean : forallb (fun nt => clean_cancel (snd nt)) (running_tasks (self s))
              = true) :
  let s' := {| self := started (registry settings ext); env := env (stopped s) |} in
  (let* _ := stop in start settings ext) s = (Val tt, s')
  /\ (forall n c, dict_get n (task_configs (self s')) = Some (ConfigDict c) ->
        last_run c = None)
  /\ (forall n, In n job_names -> hour_bound n = false -> due_now n s' = true).
Proof.
  intros s'. split; [| split].
  - unfold bind at 1. rewrite (stop_eval s Hon Hclean).
    apply start_eval; reflexivity.
  - intros n c H. simpl in H.
    repeat match type of H with
           | (if ?b then _ else _) = _ =>
               destruct b; [inversion H; subst; reflexivity |]
           end.
    discriminate.
  - intros n Hin Hfree. simpl in Hin.
    repeat destruct Hin as [<- | Hin]; try contradiction;
      try reflexivity; discriminate Hfree.
Qed.

Lemma restart_forgets_cadence_witness :
  due_now "sales_tasks" sales_half_hour_ago = false
  /\ due_now "sales_tasks"
       {| self := started (registry sample_settings quiet_collaborators);
          env := env (stopped sales_half_hour_ago) |} = true.
Proof.
  split; [reflexivity |].
  destruct (restart_forgets_cadence sample_settings quiet_collaborators
              sales_half_hour_ago eq_refl eq_refl) as [_ [_ H]].
  apply H; [simpl; tauto | reflexivity].
Defined.

Lemma dict_get_fresh {V : Type} (k : string) (d : list (string * V)) :
  k ∉ map fst d -> dict_get k d = None.
Proof.
  rewrite list_elem_of_In.
  induction d as [| [k' v] rest IH]; simpl; intros Hnot; [reflexivity |].
  destruct (String.eqb_spec k k') as [-> | Hne]; [tauto |].
  apply IH. tauto.
Qed.

Lemma start_each_spec (cfgs : list (string * ConfigObj)) :
  forall s,
    NoDup (map fst cfgs) ->
    Forall (fun no => snd no <> NotADict) cfgs ->
    exists s',
      start_each cfgs s = (Val tt, s')
      /\ env s' = env s
      /\ task_configs (self s') = task_configs (self s)
      /\ is_running (self s') = is_running (self s)
      /\ (forall n,
            dict_get n (running_tasks (self s'))
            = match dict_get n cfgs with
              | Some (ConfigDict c) =>
                  if enabled c then Some spawned_runner
                  else dict_get n (running_tasks (self s))
              | _ => dict_get n (running_tasks (self s))
              end).
Proof.
  induction cfgs as [| [k o] rest IH]; intros s Hnd Hall.
  - exists s. repeat split; reflexivity.
  - inversion Hnd as [| ? ? Hk Hrest]; subst.
    inversion Hall as [| ? ? Ho Hall']; subst. simpl in Ho.
    destruct o as [c |]; [| congruence].
    simpl start_each. unfold bind at 1.
    set (s1 := snd ((if enabled c
                     then modify_self (fun t =>
                            with_tasks (dict_set k spawned_runner (running_tasks t)) t)
                     else ret tt) s)).
    assert (H1 : (if enabled c
                  then modify_self (fun t =>
                         with_tasks (dict_set k spawned_runner (running_tasks t)) t)
                  else ret tt) s = (Val tt, s1))
      by (subst s1; destruct (enabled c); reflexivity).
    rewrite H1.
    destruct (IH s1 Hrest Hall') as [s' [Hrun [Henv [Hcfg [Hflag Hget]]]]].
    exists s'. split; [exact Hrun |].
    assert (Hs1 : env s1 = env s /\ task_configs (self s1) = task_configs (self s)
                  /\ is_running (self s1) = is_running (self s))
      by (subst s1; destruct (enabled c); repeat split; reflexivity).
    destruct Hs1 as [He1 [Hc1 Hf1]].
    split; [congruence |]. split; [congruence |]. split; [congruence |].
    intros n. rewrite Hget. simpl dict_get.
    destruct (String.eqb_spec n k) as [-> | Hne].
    + rewrite (dict_get_fresh k rest Hk).
      subst s1. destruct (enabled c); simpl; [apply dict_get_set_eq | reflexivity].
    + assert (Hsame : dict_get n (running_tasks (self s1))
                      = dict_get n (running_tasks (self s))).
      { subst s1. destruct (enabled c); simpl; [| reflexivity].
        apply dict_get_set_ne. congruence. }
      rewrite Hsame. reflexivity.
Qed.

(** X4: on a registry of dicts, [_start_scheduled_tasks] returns
    normally, changes neither the registry nor the world, and, starting
    from an empty task set, leaves a pending runner for exactly the jobs
    that are enabled: a disabled job gets no runner. *)
Theorem runners_for_enabled_jobs (s : Sys)
    (Hnone : running_tasks (self s) = [])
    (Hkeys : NoDup (map fst (task_configs (self s))))
    (Hdicts : Forall (fun no => snd no <> NotADict) (task_configs (self s))) :
  exists s',
    _start_scheduled_tasks s = (Val tt, s')
    /\ env s' = env s
    /\ task_configs (self s') = task_configs (self s)
    /\ (forall n,
          alive n s'
          = match dict_get n (task_configs (self s)) with
            | Some (ConfigDict c) => enabled c
            | _ => false
            end).
Proof.
  destruct (start_each_spec (task_configs (self s)) s Hkeys Hdicts)
    as [s' [Hrun [Henv [Hcfg [_ Hget]]]]].
  exists s'. split; [| split; [exact Henv | split; [exact Hcfg |]]].
  - unfold _start_scheduled_tasks, bind, gets. exact Hrun.
  - intros n. unfold alive. rewrite Hget, Hnone. simpl.
    destruct (dict_get n (task_configs (self s))) as [[c |] |]; try reflexivity.
    destruct (enabled c); reflexivity.
Qed.

Lemma runners_for_enabled_jobs_witness :
  exists s',
    _start_scheduled_tasks one_disabled = (Val tt, s')
    /\ alive "content_posting" s' = true
    /\ alive "sales_tasks" s' = false.
Proof.
  destruct (runners_for_enabled_jobs one_disabled eq_refl) as [s' [H1 [_ [_ H4]]]].
  - simpl. repeat (apply NoDup_cons_2 || apply NoDup_nil_2);
      rewrite ?elem_of_cons, ?elem_of_nil; intuition discriminate.
  - repeat constructor; simpl; discriminate.
  - exists s'. split; [exact H1 |]. split; rewrite H4; reflexivity.
Defined.

(** ** Status query and next-run estimate *)

(** X5: for a job that has run and whose interval is at most 2^34
    seconds, the [next_run] that the status query reports is [last_run]
    plus the interval, and it is the first instant at which the job
    passes the interval test: a job without report hour is due exactly
    from [next_run] on, and a job with a report hour is never due before
    it. *)
Theorem next_run_is_earliest_due (c : Config) (last t now : datetime)
    (Hlast : last_run c = Some last)
    (Hplain : plain_interval c)
    (Hnext : _calculate_next_run c = NextAt t) :
  t = last + interval_minutes c * US_PER_MINUTE
  /\ (should_run_at c None now = true <-> t <= now)
  /\ (forall h, should_run_at c (Some h) now = true -> t <= now).
Proof.
  unfold _calculate_next_run, add_minutes in Hnext. rewrite Hlast in Hnext.
  destruct (Z.abs (interval_minutes c * US_PER_MINUTE / US_PER_DAY) >? MAX_DELTA_DAYS);
    [discriminate |].
  destruct ((last + interval_minutes c * US_PER_MINUTE <? 0)
            || (MAX_DAYS * US_PER_DAY <=? last + interval_minutes c * US_PER_MINUTE));
    [discriminate |].
  injection Hnext as <-.
  split; [reflexivity |].
  unfold should_run_at. rewrite Hlast.
  unfold US_PER_MINUTE.
  destruct (Z.lt_ge_cases (now - last) (interval_minutes c * 60 * US_PER_SECOND))
    as [Hearly | Hlate].
  - rewrite (interval_test_early _ _ Hplain Hearly).
    split; [split; [discriminate | lia] |]. intros h H'. discriminate.
  - rewrite (interval_test_elapsed _ _ Hlate).
    split; [split; [lia | reflexivity] |]. intros h _. lia.
Qed.

Lemma next_run_is_earliest_due_witness :
  should_run_at (job 60 (Some (mk_datetime 2024 3 15 9 0)) always_returns None)
    None (mk_datetime 2024 3 15 10 0) = true.
Proof.
  apply (proj1 (proj2 (next_run_is_earliest_due
                         (job 60 (Some (mk_datetime 2024 3 15 9 0)) always_returns None)
                         (mk_datetime 2024 3 15 9 0) (mk_datetime 2024 3 15 10 0)
                         (mk_datetime 2024 3 15 10 0) eq_refl
                         ltac:(unfold plain_interval; simpl; lia) eq_refl))).
  vm_compute. discriminate.
Defined.

Lemma dict_set_fresh {V : Type} (k : string) (v : V) (d : list (string * V)) :
  k ∉ map fst d -> dict_set k v d = d ++ [(k, v)].
Proof.
  rewrite list_elem_of_In.
  induction d as [| [k' v'] rest IH]; simpl; intros Hnot; [reflexivity |].
  destruct (String.eqb_spec k k') as [-> | Hne]; [tauto |].
  rewrite IH by tauto. reflexivity.
Qed.

Lemma status_entries_rows (s : Sys) (cfgs : list (string * ConfigObj)) :
  forall acc,
    NoDup (map fst acc ++ map fst cfgs) ->
    Forall (fun no => snd no <> NotADict) cfgs ->
    status_entries (running_tasks (self s)) cfgs acc
    = Val (acc ++ omap (row_of s) cfgs).
Proof.
  induction cfgs as [| [k o] rest IH]; intros acc Hnd Hall.
  - simpl. now rewrite app_nil_r.
  - inversion Hall as [| ? ? Ho Hall']; subst. simpl in Ho.
    destruct o as [c |]; [| congruence]. simpl status_entries.
    simpl in Hnd.
    apply NoDup_app in Hnd as [Hacc [Hdisj Hrest]].
    apply NoDup_cons in Hrest as [Hk Hrest].
    assert (Hfresh : k ∉ map fst acc).
    { intros Hin. apply (Hdisj k Hin). left. }
    rewrite (dict_set_fresh k _ acc Hfresh).
    change (omap (row_of s) ((k, ConfigDict c) :: rest))
      with ((k, status_row s k c) :: omap (row_of s) rest).
    rewrite IH.
    + rewrite <- app_assoc. reflexivity.
    + rewrite map_app. simpl. rewrite <- app_assoc. simpl.
      apply NoDup_app. split; [exact Hacc |]. split.
      * intros x Hx Hx'. apply elem_of_cons in Hx' as [-> | Hx'];
          [exact (Hfresh Hx) |].
        apply (Hdisj x Hx). right. exact Hx'.
      * apply NoDup_cons. split; assumption.
    + exact Hall'.
Qed.

Lemma rows_of_dicts (s : Sys) (cfgs : list (string * ConfigObj)) :
  Forall (fun no => snd no <> NotADict) cfgs ->
  map fst (omap (row_of s) cfgs) = map fst cfgs
  /\ (forall n,
        dict_get n (omap (row_of s) cfgs)
        = match dict_get n cfgs with
          | Some (ConfigDict c) => Some (status_row s n c)
          | _ => None
          end).
Proof.
  induction cfgs as [| [k o] rest IH]; intros Hall; [split; reflexivity |].
  inversion Hall as [| ? ? Ho Hall']; subst. simpl in Ho.
  destruct o as [c |]; [| congruence].
  destruct (IH Hall') as [Hkeys Hget].
  change (omap (row_of s) ((k, ConfigDict c) :: rest))
    with ((k, status_row s k c) :: omap (row_of s) rest).
  simpl. split; [now rewrite Hkeys |].
  intros n. destruct (String.eqb_spec n k) as [-> | Hne]; [reflexivity | apply Hget].
Qed.

(** X6: when every entry of the registry is a dict, the status query
    returns the full dict: the running flag, the time of the query, and
    one row per registered job, in registration order, that mirrors the
    job's config; a job counts as running exactly when its runner is
    tracked and not done. *)
Theorem status_mirrors_registry (s : Sys)
    (Hkeys : NoDup (map fst (task_configs (self s))))
    (Hdicts : Forall (fun no => snd no <> NotADict) (task_configs (self s))) :
  exists rows,
    get_task_status s
    = (Val {| scheduler_running := Some (is_running (self s));
              tasks := Some rows;
              last_updated := Some (clock (env s)) |}, s)
    /\ map fst rows = map fst (task_configs (self s))
    /\ (forall n c,
          dict_get n (task_configs (self s)) = Some (ConfigDict c) ->
          dict_get n rows = Some (status_row s n c)).
Proof.
  exists (omap (row_of s) (task_configs (self s))).
  destruct (rows_of_dicts s _ Hdicts) as [Hmap Hget].
  split; [| split; [exact Hmap |]].
  - unfold get_task_status, try_except. rewrite build_status_eval.
    rewrite (status_entries_rows s _ [] Hkeys Hdicts). reflexivity.
  - intros n c Hc. rewrite Hget, Hc. reflexivity.
Qed.

Lemma status_mirrors_registry_witness :
  exists rows,
    fst (get_task_status (stopped three_runners))
    = Val {| scheduler_running := Some false; tasks := Some rows;
             last_updated := Some friday_0930 |}
    /\ map fst rows = ["content_posting"; "sales_tasks"; "auto_learning"]
    /\ dict_get "sales_tasks" rows
       = Some {| st_enabled := true; st_interval_minutes := 60;
                 st_last_run := None; st_running := false;
                 st_next_run := Immediately |}.
Proof.
  destruct (status_mirrors_registry (stopped three_runners)) as [rows [H1 [H2 H3]]].
  - simpl. repeat (apply NoDup_cons_2 || apply NoDup_nil_2);
      rewrite ?elem_of_cons, ?elem_of_nil; intuition discriminate.
  - repeat constructor; simpl; discriminate.
  - exists rows. rewrite H1. split; [reflexivity |]. split; [exact H2 |].
    exact (H3 "sales_tasks" _ eq_refl).
Defined.

(** ** Logging *)

(** X7: [_log_task_execution] never raises and touches nothing but the
    store: scheduler object, clock and effects are as before, and so is
    every key other than the job's history key.  When the store is not
    reachable, nothing at all changes: the record is lost silently. *)
Theorem logging_is_contained (s : Sys) (task_name : string) (success : bool)
    (error : option string) :
  exists m,
    _log_task_execution task_name success error s
    = (Val tt, {| self := self s; env := with_store m (env s) |})
    /\ (forall k, k <> history_key task_name -> m !! k = store (env s) !! k)
    /\ (store_mode (env s) <> StoreOk ->
        _log_task_execution task_name success error s = (Val tt, s)).
Proof.
  destruct (log_total task_name success error s) as [m [Hlog Hoff]].
  exists m. split; [exact Hlog |]. split; [exact Hoff |].
  intros Hdown.
  unfold _log_task_execution, try_except, bind, datetime_now, gets,
    data_store_get, data_store_set.
  destruct (store_mode (env s)) eqn:Hm; [congruence | reflexivity |].
  cbn. rewrite Hm. reflexivity.
Qed.

Lemma logging_is_contained_witness :
  _log_task_execution "content_posting" false (Some "boom")
    (all_dead StoreRaises)
  = (Val tt, all_dead StoreRaises).
Proof.
  destruct (logging_is_contained (all_dead StoreRaises) "content_posting" false
              (Some "boom")) as [m [_ [_ H]]].
  apply H. discriminate.
Defined.

Lemma log_blocked (s : Sys) (task_name : string) (success : bool)
    (error : option string) (v : Value) :
  store_mode (env s) = StoreOk ->
  store (env s) !! history_key task_name
  = Some {| entry_value := v; expires_at := None |} ->
  (forall l, v <> VHistory l) ->
  _log_task_execution task_name success error s = (Val tt, s).
Proof.
  intros Hm Hv Hno.
  unfold _log_task_execution, try_except, bind, datetime_now, gets,
    data_store_get, data_store_set.
  rewrite Hm, Hv. cbn.
  destruct v as [l | t | h]; [exfalso; exact (Hno l eq_refl) | |]; reflexivity.
Qed.

(** X8: a history key under which one of the scheduler's other values
    has landed, the ISO text of a time or a health snapshot, blocks the
    log for good: such a value is not empty, so it is not replaced by a
    fresh list, and it has no [insert]; every later attempt returns
    normally and persists nothing, so the stored value stays and the
    job's history reads as empty. *)
Theorem corrupt_history_blocks_log (task_name : string) (v : Value)
    (attempts : list (Z * bool * option string)) (s : Sys)
    (Hok : store_mode (env s) = StoreOk)
    (Hv : store (env s) !! history_key task_name
          = Some {| entry_value := v; expires_at := None |})
    (Hno : (exists t, v = VStamp t) \/ (exists h, v = VHealth h)) :
  fst (log_attempts task_name attempts s) = Val tt
  /\ store (env (snd (log_attempts task_name attempts s))) = store (env s)
  /\ stored_history task_name (env (snd (log_attempts task_name attempts s))) = [].
Proof.
  assert (Hno' : forall l, v <> VHistory l)
    by (intros l ->; destruct Hno as [[t Ht] | [h Hh]]; discriminate).
  clear Hno. rename Hno' into Hno.
  revert s Hok Hv.
  induction attempts as [| [[dt success] error] rest IH]; intros s Hok Hv.
  - simpl. split; [reflexivity |]. split; [reflexivity |].
    unfold stored_history. rewrite Hv. simpl.
    destruct v as [l | |]; [exfalso; exact (Hno l eq_refl) | |]; reflexivity.
  - set (s1 := {| self := self s; env := with_clock (clock (env s) + dt) (env s) |}).
    assert (Hrun : log_attempts task_name ((dt, success, error) :: rest) s
                   = log_attempts task_name rest s1).
    { simpl log_attempts. unfold bind at 1. unfold modify_env at 1. fold s1.
      unfold bind at 1.
      rewrite (log_blocked s1 task_name success error v Hok Hv Hno).
      reflexivity. }
    rewrite Hrun. exact (IH s1 Hok Hv).
Qed.

Lemma corrupt_history_blocks_log_witness :
  stored_history "sales_tasks"
    (env (snd (log_attempts "sales_tasks"
                 [(0, true, None); (60000000, false, Some "boom")]
                 corrupted_history))) = [].
Proof.
  apply (corrupt_history_blocks_log "sales_tasks" (VStamp friday_0930)).
  - reflexivity.
  - apply lookup_singleton_eq.
  - left. now exists friday_0930.
Defined.

(** ** Health check *)

Lemma health_check_raising_store (s : Sys) :
  store_mode (env s) = StoreRaises -> _system_health_check s = (Val tt, s).
Proof.
  intros Hm.
  unfold _system_health_check, build_health_status, try_except, bind,
    datetime_now, gets, data_store_set, data_store_get, ret.
  rewrite Hm. cbn. rewrite Hm. reflexivity.
Qed.

Lemma health_check_reachable_store (s : Sys) :
  store_mode (env s) = StoreOk ->
  effects (env (snd (_system_health_check s))) = effects (env s).
Proof.
  intros Hm.
  unfold _system_health_check, build_health_status, try_except, bind,
    datetime_now, gets, data_store_set, data_store_get, ret.
  rewrite Hm. cbn -[insert lookup]. rewrite Hm. cbn -[insert lookup].
  rewrite lookup_insert_eq. cbn -[insert lookup].
  destruct (Z.leb_spec (clock (env s) + 300 * US_PER_SECOND) (clock (env s)))
    as [Hle | _]; [unfold US_PER_SECOND in Hle; lia |].
  cbn -[insert lookup]; rewrite ?Hm; cbn -[insert lookup].
  destruct (forallb _ _); reflexivity.
Qed.

Lemma health_check_silent_store (s : Sys) :
  store_mode (env s) = StoreSilent ->
  _system_health_check s
  = (Val tt,
     {| self := self s;
        env := if forallb (fun nt => running (snd nt))
                    (map (fun nt => (fst nt, liveness_of (snd nt)))
                       (running_tasks (self s)))
                  || negb (discord_up (env s))
               then env s
               else with_effect health_alert (env s) |}).
Proof.
  intros Hm.
  unfold _system_health_check, build_health_status, try_except, bind,
    datetime_now, gets, data_store_set, data_store_get, ret.
  rewrite Hm. cbn. rewrite Hm. cbn.
  destruct (forallb _ _); cbn; rewrite ?Hm; cbn.
  - now rewrite sys_eta.
  - unfold discord_send_system_alert. cbn.
    destruct (discord_up (env s)); cbn; [reflexivity | now rewrite sys_eta].
Qed.

(** X9: the health check sends at most its one alert, and never with a
    reachable store.  When the store client raises, the failed write of
    the snapshot ends the check before the alert: nothing is persisted
    and nothing is sent, even if every runner is dead.  The alert goes
    out when the store fails silently while some tracked runner is not
    running. *)
Theorem unhealthy_alert_reach (s : Sys) :
  let s' := snd (_system_health_check s) in
  (effects (env s') = effects (env s)
   \/ effects (env s') = health_alert :: effects (env s))
  /\ (store_mode (env s) = StoreOk -> effects (env s') = effects (env s))
  /\ (store_mode (env s) = StoreRaises -> s' = s)
  /\ (store_mode (env s) = StoreSilent ->
      ~ all_pending (running_tasks (self s)) ->
      discord_up (env s) = true ->
      effects (env s') = health_alert :: effects (env s)).
Proof.
  intros s'. subst s'.
  assert (Hsilent : store_mode (env s) = StoreSilent ->
            effects (env (snd (_system_health_check s)))
            = if forallb (fun nt => running (snd nt))
                   (map (fun nt => (fst nt, liveness_of (snd nt)))
                      (running_tasks (self s)))
                 || negb (discord_up (env s))
              then effects (env s)
              else health_alert :: effects (env s)).
  { intros Hm. rewrite (health_check_silent_store s Hm). simpl.
    destruct (forallb _ _ || negb _); reflexivity. }
  split; [| split; [| split]].
  - destruct (store_mode (env s)) eqn:Hm.
    + left. exact (health_check_reachable_store s Hm).
    + left. now rewrite (health_check_raising_store s Hm).
    + rewrite (Hsilent eq_refl).
      destruct (forallb _ _ || negb _); [left | right]; reflexivity.
  - exact (health_check_reachable_store s).
  - intros Hm. now rewrite (health_check_raising_store s Hm).
  - intros Hm Hdead Hup. rewrite (Hsilent Hm), Hup.
    destruct (forallb _ _) eqn:Hall; [| reflexivity].
    exfalso. apply Hdead. apply tasks_ok_spec. exact Hall.
Qed.

Lemma unhealthy_alert_reach_witness :
  snd (_system_health_check (all_dead StoreRaises)) = all_dead StoreRaises
  /\ effects (env (snd (_system_health_check (all_dead StoreSilent))))
     = [health_alert].
Proof.
  split.
  - apply (proj1 (proj2 (proj2 (unhealthy_alert_reach (all_dead StoreRaises))))).
    reflexivity.
  - apply (proj2 (proj2 (proj2 (unhealthy_alert_reach (all_dead StoreSilent)))));
      [reflexivity | | reflexivity].
    intros H. inversion H as [| ? ? Hp _]. discriminate Hp.
Defined.

(** ** Runner *)

(** X10: for a job whose interval is at most 2^34 seconds, a tick that
    comes before the interval has elapsed does nothing: the operation is
    not invoked, nothing is logged, the state is untouched and the loop
    goes on. *)
Theorem early_tick_is_noop (s : Sys) (task_name : string) (c : Config)
    (last : datetime)
    (Hrun : is_running (self s) = true)
    (Hcfg : dict_get task_name (task_configs (self s)) = Some (ConfigDict c))
    (Hlast : last_run c = Some last)
    (Hplain : plain_interval c)
    (Hearly : clock (env s) - last < interval_minutes c * 60 * US_PER_SECOND) :
  runner_iteration task_name (function c) (run_at_hour c) false s
  = (Val KeepLooping, s)
  /\ step (Tick task_name false) s = s.
Proof.
  assert (Hit : runner_iteration task_name (function c) (run_at_hour c) false s
                = (Val KeepLooping, s)).
  { apply (runner_iteration_not_due task_name (function c) c (run_at_hour c)
             false s Hrun Hcfg).
    exact (should_run_at_early c last Hlast _ _ Hplain Hearly). }
  split; [exact Hit |].
  unfold step. rewrite Hcfg.
  destruct (dict_get task_name (running_tasks (self s))) as [task |];
    [| reflexivity].
  destruct (task_state task); [| reflexivity].
  rewrite Hit. reflexivity.
Qed.

Lemma early_tick_is_noop_witness :
  step (Tick "sales_tasks" false) sales_half_hour_ago = sales_half_hour_ago.
Proof.
  apply (proj2 (early_tick_is_noop sales_half_hour_ago "sales_tasks"
                  (job 60 (Some (mk_datetime 2024 3 15 9 0)) always_returns None)
                  (mk_datetime 2024 3 15 9 0) eq_refl eq_refl eq_refl
                  ltac:(unfold plain_interval; simpl; lia) eq_refl)).
Defined.

(** X11: when a cancellation reaches the runner inside the job's
    operation, the runner leaves its loop at once: [last_run] is not
    stamped, no execution record is written and no alert is sent; the
    state is the one the operation left, and the runner's task ends
    normally. *)
Theorem cancelled_operation_leaves_no_trace (s s1 : Sys) (task_name : string)
    (c : Config) (interrupted : bool)
    (Hrun : is_running (self s) = true)
    (Hcfg : dict_get task_name (task_configs (self s)) = Some (ConfigDict c))
    (Hdue : should_run_at c (run_at_hour c) (clock (env s)) = true)
    (Hcall : call_function (function c) s = (Raise CancelledError, s1)) :
  runner_iteration task_name (function c) (run_at_hour c) interrupted s
  = (Val LoopExit, s1)
  /\ self s1 = self s
  /\ (alive task_name s = true ->
      step (Tick task_name interrupted) s = finish_task task_name Returned s1
      /\ alive task_name (step (Tick task_name interrupted) s) = false).
Proof.
  assert (Hit : runner_iteration task_name (function c) (run_at_hour c)
                  interrupted s = (Val LoopExit, s1)).
  { rewrite (runner_iteration_due task_name (function c) c (run_at_hour c)
               interrupted s Hrun Hcfg Hdue).
    rewrite (execute_due_eval task_name (function c) c s Hcfg), Hcall.
    reflexivity. }
  pose proof (call_function_self (function c) s) as Hself.
  rewrite Hcall in Hself. simpl in Hself.
  split; [exact Hit |]. split; [exact Hself |].
  intros Halive. destruct (alive_pending task_name s Halive) as [task [Ht Hp]].
  assert (Hstep : step (Tick task_name interrupted) s
                  = finish_task task_name Returned s1).
  { unfold step. rewrite Ht, Hcfg, Hp, Hit. reflexivity. }
  split; [exact Hstep |].
  rewrite Hstep. unfold finish_task, alive. rewrite Hself, Ht. simpl.
  rewrite dict_get_set_eq. reflexivity.
Qed.

Lemma cancelled_operation_leaves_no_trace_witness :
  runner_iteration "content_posting"
    (Opaque (fun w => (Raise CancelledError, w))) None false cancelled_midway
  = (Val LoopExit, cancelled_midway).
Proof.
  exact (proj1 (cancelled_operation_leaves_no_trace cancelled_midway
                  cancelled_midway "content_posting"
                  (job 60 None (Opaque (fun w => (Raise CancelledError, w))) None)
                  false eq_refl eq_refl eq_refl eq_refl)).
Defined.

(** ** Manual trigger and cadence *)

(** X12: a manual run asks neither the schedule evaluator nor the
    running flag nor the job's [enabled] flag.  When the operation
    returns, the job's [last_run] is stamped with the time of its
    return, so for an interval of at most 2^34 seconds the automatic
    runner does not find the job due before a full interval has passed
    since the manual run. *)
Theorem manual_run_resets_cadence (s s1 : Sys) (task_name : string) (c : Config)
    (Hcfg : dict_get task_name (task_configs (self s)) = Some (ConfigDict c))
    (Hplain : plain_interval c)
    (Hcall : call_function (function c) s = (Val tt, s1)) :
  let s' := snd (run_task_manually task_name s) in
  fst (run_task_manually task_name s) = Val true
  /\ (exists c',
        dict_get task_name (task_configs (self s')) = Some (ConfigDict c')
        /\ restamped c c' (clock (env s1)))
  /\ is_running (self s') = is_running (self s)
  /\ (forall dt, dt < interval_minutes c * 60 * US_PER_SECOND ->
        due_now task_name (step (Elapse dt) s') = false).
Proof.
  intros s'. subst s'.
  pose proof (call_function_self (function c) s) as Hself.
  rewrite Hcall in Hself. simpl in Hself.
  rewrite (run_task_manually_eval task_name c s Hcfg), Hcall.
  destruct (log_total task_name true None
              {| self := stamped task_name c (clock (env s1)) (self s1);
                 env := env s1 |}) as [m [Hlog _]].
  rewrite Hlog. simpl fst. simpl snd. cbn [self env].
  assert (Hget : exists c',
             dict_get task_name
               (task_configs (stamped task_name c (clock (env s1)) (self s1)))
             = Some (ConfigDict c')
             /\ restamped c c' (clock (env s1))).
  { simpl. rewrite dict_get_set_eq. eexists. split; [reflexivity |].
    repeat split. }
  split; [reflexivity |]. split; [exact Hget |].
  split; [simpl; now rewrite Hself |].
  destruct Hget as (c' & Hget & Hstamp).
  intros dt Hdt. unfold due_now, step. cbn [self env]. rewrite Hget.
  exact (restamped_not_due c c' (clock (env s1)) (run_at_hour c') dt
           Hstamp Hplain Hdt).
Qed.

Lemma manual_run_resets_cadence_witness :
  fst (run_task_manually "sales_tasks" (stopped sales_half_hour_ago)) = Val true
  /\ due_now "sales_tasks"
       (step (Elapse (59 * US_PER_MINUTE))
          (snd (run_task_manually "sales_tasks" (stopped sales_half_hour_ago))))
     = false.
Proof.
  destruct (manual_run_resets_cadence (stopped sales_half_hour_ago)
              (stopped sales_half_hour_ago) "sales_tasks"
              (job 60 (Some (mk_datetime 2024 3 15 9 0)) always_returns None)
              eq_refl ltac:(unfold plain_interval; simpl; lia) eq_refl)
    as [H1 [_ [_ H4]]].
  split; [exact H1 |]. apply H4. vm_compute. reflexivity.
Defined.

Lemma successful_tick (s s1 : Sys) (task_name : string) (c : Config) :
  is_running (self s) = true ->
  dict_get task_name (task_configs (self s)) = Some (ConfigDict c) ->
  should_run_at c (run_at_hour c) (clock (env s)) = true ->
  call_function (function c) s = (Val tt, s1) ->
  exists m,
    runner_iteration task_name (function c) (run_at_hour c) false s
    = (Val KeepLooping,
       {| self := stamped task_name c (clock (env s1)) (self s);
          env := with_store m (env s1) |})
    /\ (forall k, k <> history_key task_name -> m !! k = store (env s1) !! k)
    /\ (forall l, holds_history task_name l (env s1) ->
          holds_history task_name
            (take 100 (record_at task_name (clock (env s1)) true None :: l))
            (with_store m (env s1))).
Proof.
  intros Hrun Hcfg Hdue Hcall.
  pose proof (call_function_self (function c) s) as Hself.
  rewrite Hcall in Hself. simpl in Hself.
  rewrite (runner_iteration_due task_name (function c) c (run_at_hour c) false s
             Hrun Hcfg Hdue).
  rewrite (execute_due_eval task_name (function c) c s Hcfg), Hcall.
  rewrite Hself.
  destruct (log_total task_name true None
              {| self := stamped task_name c (clock (env s1)) (self s);
                 env := env s1 |}) as [m [Hlog Hoff]].
  exists m. rewrite Hlog. split; [reflexivity |]. split; [exact Hoff |].
  intros l Hl.
  pose proof (log_step_holds
                {| self := stamped task_name c (clock (env s1)) (self s);
                   env := env s1 |} task_name true None l Hl) as Hstep.
  rewrite Hlog in Hstep. exact Hstep.
Qed.

(** X13: the weekly report job that comes due on a day other than
    Monday builds and sends nothing, yet its [last_run] is stamped:
    during the seven days that follow the job is never due, so the
    Monday of that week passes without a weekly report. *)
Theorem weekly_job_skips_the_week (s : Sys) (task_name : string) (c : Config)
    (Hrun : is_running (self s) = true)
    (Hcfg : dict_get task_name (task_configs (self s)) = Some (ConfigDict c))
    (Hfun : function c = GenerateWeeklyAnalytics)
    (Hweek : interval_minutes c = 10080)
    (Hdue : should_run_at c (run_at_hour c) (clock (env s)) = true)
    (Hday : dt_weekday (clock (env s)) <> 0) :
  let s' := snd (runner_iteration task_name (function c) (run_at_hour c) false s) in
  effects (env s') = effects (env s)
  /\ (forall dt, dt < 7 * US_PER_DAY ->
        due_now task_name (step (Elapse dt) s') = false).
Proof.
  intros s'. subst s'.
  assert (Hcall : call_function (function c) s = (Val tt, s))
    by (apply off_day_returns; left; split; assumption).
  destruct (successful_tick s s task_name c Hrun Hcfg Hdue Hcall) as [m [Hit _]].
  rewrite Hit. cbn [snd self env]. split; [reflexivity |].
  intros dt Hdt. unfold due_now, step. cbn [self env].
  simpl task_configs. rewrite dict_get_set_eq.
  apply (should_run_at_early (ran_at (clock (env s)) c) (clock (env s)) eq_refl).
  - unfold plain_interval. simpl. rewrite Hweek. lia.
  - simpl. rewrite Hweek. unfold US_PER_DAY, US_PER_HOUR, US_PER_MINUTE in Hdt.
    lia.
Qed.

Lemma weekly_job_skips_the_week_witness :
  let s' := snd (runner_iteration "weekly_analytics" GenerateWeeklyAnalytics
                   (Some 9) false weekly_on_friday) in
  effects (env s') = []
  /\ dt_weekday (clock (env (step (Elapse (3 * US_PER_DAY)) s'))) = 0
  /\ due_now "weekly_analytics" (step (Elapse (3 * US_PER_DAY)) s') = false.
Proof.
  intros s'.
  destruct (weekly_job_skips_the_week weekly_on_friday "weekly_analytics"
              (job 10080 None GenerateWeeklyAnalytics (Some 9))
              eq_refl eq_refl eq_refl eq_refl eq_refl) as [H1 H2].
  - vm_compute. discriminate.
  - split; [exact H1 |]. split; [reflexivity |].
    apply H2. vm_compute. reflexivity.
Defined.

(** ** Jobs that hide their failures *)

(** X14: the analytics jobs and the health check catch every error in
    their own body, so the runner never sees them fail: on a due tick
    the loop goes on, [last_run] is stamped and a success record goes in
    front of the job's history, also when the report builder raised and
    no report was sent. *)
Theorem own_job_is_logged_as_success (s : Sys) (task_name : string) (c : Config)
    (l : list ExecutionLog)
    (Hrun : is_running (self s) = true)
    (Hcfg : dict_get task_name (task_configs (self s)) = Some (ConfigDict c))
    (Hdue : should_run_at c (run_at_hour c) (clock (env s)) = true)
    (Hown : forall operation, function c <> Opaque operation)
    (Hhist : holds_history task_name l (env s)) :
  let s1 := snd (call_function (function c) s) in
  exists s',
    runner_iteration task_name (function c) (run_at_hour c) false s
    = (Val KeepLooping, s')
    /\ (exists c',
          dict_get task_name (task_configs (self s')) = Some (ConfigDict c')
          /\ restamped c c' (clock (env s1)))
    /\ effects (env s') = effects (env s1)
    /\ stored_history task_name (env s')
       = take 100 (record_at task_name (clock (env s1)) true None :: l).
Proof.
  intros s1.
  pose proof (own_jobs_return (function c) Hown s) as Hret.
  destruct (own_jobs_well_behaved (function c) Hown s) as [_ [Hmode Hkeys]].
  assert (Hcall : call_function (function c) s = (Val tt, s1)).
  { subst s1. destruct (call_function (function c) s) as [r s2].
    simpl in Hret. now rewrite Hret. }
  fold s1 in Hmode, Hkeys.
  assert (Hhist1 : holds_history task_name l (env s1))
    by (eapply holds_history_frame; [apply Hkeys | exact Hmode | exact Hhist]).
  destruct (successful_tick s s1 task_name c Hrun Hcfg Hdue Hcall)
    as [m [Hit [_ Hlog]]].
  eexists. split; [exact Hit |]. cbn [self env].
  split; [exact (proj1 (stamped_config task_name c (clock (env s1)) (self s))) |].
  split; [reflexivity |].
  apply holds_history_read. exact (Hlog l Hhist1).
Qed.

Lemma own_job_is_logged_as_success_witness :
  exists s',
    runner_iteration "daily_analytics" GenerateDailyAnalytics (Some 9) false
      failing_daily_report = (Val KeepLooping, s')
    /\ (exists c',
          dict_get "daily_analytics" (task_configs (self s')) = Some (ConfigDict c')
          /\ last_run c' = Some friday_0930)
    /\ effects (env s') = [ReportBuilt Daily]
    /\ stored_history "daily_analytics" (env s')
       = [record_at "daily_analytics" friday_0930 true None].
Proof.
  destruct (own_job_is_logged_as_success failing_daily_report "daily_analytics"
              (job 1440 None GenerateDailyAnalytics (Some 9)) []
              eq_refl eq_refl eq_refl)
    as [s' [H1 [(c' & Hget & Hlast & _) [H3 H4]]]].
  - discriminate.
  - split; [reflexivity | right; split; [apply lookup_empty | reflexivity]].
  - exists s'. split; [exact H1 |].
    split; [exists c'; split; [exact Hget | exact Hlast] |].
    split; [exact H3 | exact H4].
Defined.

(** X15: the sales and the social-engagement jobs swallow every error of
    their collaborators: the sales job returns normally when
    [process_sales_tasks] raises, and the social job still processes the
    Mastodon mentions after the Twitter processing raised and returns
    normally whatever error either raises.  Only a cancellation leaves
    them as an exception. *)
Theorem wrapper_jobs_swallow_errors
    (sales twitter mastodon : World -> Res unit * World) (s : Sys) :
  (forall msg w1,
      sales (env s) = (Raise (Error msg), w1) ->
      call_function (_process_sales_tasks sales) s
      = (Val tt, {| self := self s; env := w1 |}))
  /\ (forall msg w1,
        twitter (env s) = (Raise (Error msg), w1) ->
        snd (call_function (_process_social_engagement twitter mastodon) s)
        = {| self := self s; env := snd (mastodon w1) |}
        /\ (fst (mastodon w1) <> Raise CancelledError ->
            fst (call_function (_process_social_engagement twitter mastodon) s)
            = Val tt))
  /\ (forall msg,
        fst (call_function (_process_sales_tasks sales) s) <> Raise (Error msg)
        /\ fst (call_function (_process_social_engagement twitter mastodon) s)
           <> Raise (Error msg)).
Proof.
  split; [| split].
  - intros msg w1 H. simpl. unfold swallow. rewrite H. reflexivity.
  - intros msg w1 H. simpl. unfold swallow. rewrite H.
    destruct (mastodon w1) as [[[] | [msg' |]] w2]; simpl;
      (split; [reflexivity | intros Hnc; congruence]).
  - intros msg. simpl. unfold swallow. split.
    + destruct (sales (env s)) as [[[] | [msg' |]] w1]; simpl; discriminate.
    + destruct (twitter (env s)) as [[[] | [msg' |]] w1]; simpl;
        try discriminate;
        destruct (mastodon w1) as [[[] | [msg'' |]] w2]; simpl; discriminate.
Qed.

Lemma wrapper_jobs_swallow_errors_witness :
  call_function (_process_sales_tasks (fun w => (Raise (Error "paypal down"), w)))
    flaky
  = (Val tt, flaky).
Proof.
  exact (proj1 (wrapper_jobs_swallow_errors
                  (fun w => (Raise (Error "paypal down"), w))
                  (fun w => (Val tt, w)) (fun w => (Val tt, w)) flaky)
           "paypal down"%string (env flaky) eq_refl).
Defined.

(** * Properties of the learning engine's analyses *)

(** ** Engagement score *)

Lemma interaction_points_bounds (i : Interaction) :
  0 <= interaction_points i <= 18
  /\ (i_success i = true -> 10 <= interaction_points i).
Proof.
  unfold interaction_points.
  destruct (i_success i), (in_strings (i_type i) ["reply"; "mention"]),
    (in_strings (i_type i) ["like"; "favourite"]),
    (in_strings (i_type i) ["share"; "boost"]); split; (lia || intros; lia).
Qed.

Lemma sum_points_bounds (interactions : list Interaction) :
  0 <= sum_Z (map interaction_points interactions)
       <= 18 * Z.of_nat (length interactions)
  /\ (Forall (fun i => i_success i = true) interactions ->
      10 * Z.of_nat (length interactions)
      <= sum_Z (map interaction_points interactions)).
Proof.
  induction interactions as [| i rest [IH1 IH2]].
  - simpl. split; [lia | intros; lia].
  - destruct (interaction_points_bounds i) as [Hb Hs].
    change (sum_Z (map interaction_points (i :: rest)))
      with (interaction_points i + sum_Z (map interaction_points rest)).
    change (length (i :: rest)) with (S (length rest)).
    split; [lia |]. intros Hall. inversion Hall; subst.
    specialize (Hs ltac:(assumption)). specialize (IH2 ltac:(assumption)). lia.
Qed.

(** X16: the engagement score of a list of interactions lies between 0
    and 18 (10 for a success plus at most 8 for the interaction type);
    it is 0 for the empty list and at least 10 when every interaction
    is a success, as for the groups that [analyze_content_performance]
    scores. *)
Theorem engagement_score_bounds (interactions : list Interaction) :
  (0 <= _calculate_engagement_score interactions <= 18)%Q
  /\ (interactions = [] -> _calculate_engagement_score interactions = 0%Q)
  /\ (interactions <> [] ->
      Forall (fun i => i_success i = true) interactions ->
      (10 <= _calculate_engagement_score interactions)%Q).
Proof.
  destruct (sum_points_bounds interactions) as [[Hlo Hhi] Hsucc].
  destruct interactions as [| i rest].
  - split; [split; discriminate |]. split; [reflexivity | congruence].
  - unfold _calculate_engagement_score.
    set (total := sum_Z (map interaction_points (i :: rest))) in *.
    set (n := Z.of_nat (length (i :: rest))) in *.
    assert (Hn : (0 < inject_Z n)%Q).
    { change 0%Q with (inject_Z 0). rewrite <- Zlt_Qlt. subst n. simpl. lia. }
    split; [split |]; [| | split; [discriminate |]].
    + apply Qle_shift_div_l; [exact Hn |].
      rewrite Qmult_0_l. change 0%Q with (inject_Z 0). now rewrite <- Zle_Qle.
    + apply Qle_shift_div_r; [exact Hn |].
      change 18%Q with (inject_Z 18). rewrite <- inject_Z_mult, <- Zle_Qle. exact Hhi.
    + intros _ Hall. apply Qle_shift_div_l; [exact Hn |].
      change 10%Q with (inject_Z 10). rewrite <- inject_Z_mult, <- Zle_Qle.
      exact (Hsucc Hall).
Qed.

Lemma engagement_score_bounds_witness :
  (10 <= _calculate_engagement_score
           [ {| i_success := true; i_type := "reply";
                i_timestamp := NoTimestamp |};
             {| i_success := true; i_type := "view";
                i_timestamp := NoTimestamp |} ])%Q.
Proof.
  apply (proj2 (proj2 (engagement_score_bounds _))).
  - discriminate.
  - repeat constructor.
Defined.

(** ** High and low performers *)

(** X17: of a non-empty list of scored contents, sorted best first, the
    high performers are the first quarter (at least one item) and the
    low performers the last quarter, and the two never overlap.  With
    fewer than four contents the low performers are not the last item
    but every item after the first: none for a single content. *)
Theorem performers_do_not_overlap {A : Type} (p : list A) (Hp : p <> []) :
  let high := fst (pick_performers p) in
  let low := snd (pick_performers p) in
  (exists middle, p = high ++ middle ++ low)
  /\ high <> []
  /\ ((length p < 4)%nat -> high = take 1 p /\ low = drop 1 p)
  /\ ((4 <= length p)%nat ->
      length high = (length p / 4)%nat /\ length low = (length p / 4)%nat).
Proof.
  destruct p as [| x rest]; [congruence |].
  unfold pick_performers.
  set (p := x :: rest). set (q := (length p / 4)%nat).
  assert (Hq : (4 * q <= length p)%nat)
    by (subst q; apply Nat.Div0.mul_div_le).
  assert (Hq' : (length p < 4 -> q = 0)%nat)
    by (intros H; subst q; now apply Nat.div_small).
  assert (Hq'' : (4 <= length p -> 1 <= q)%nat).
  { intros H. subst q.
    change 1%nat with (4 / 4)%nat. now apply Nat.Div0.div_le_mono. }
  destruct (Nat.eqb_spec q 0) as [H0 | H0]; simpl fst; simpl snd.
  - split; [exists []; exact (eq_sym (take_drop 1 p)) |].
    split; [discriminate |]. split; [intros _; split; reflexivity |].
    intros H4. specialize (Hq'' H4). lia.
  - split.
    + exists (drop q (take (length p - q) p)).
      rewrite app_assoc.
      replace (take q p) with (take q (take (length p - q) p))
        by (rewrite take_take; f_equal; lia).
      now rewrite !take_drop.
    + split.
      * intros Hnil. apply (f_equal length) in Hnil.
        rewrite length_take in Hnil. simpl in Hnil. lia.
      * split; [intros H; specialize (Hq' H); lia |].
        intros H4. specialize (Hq'' H4).
        rewrite length_take, length_drop.
        assert (Hl : length p = S (length rest)) by reflexivity.
        clearbody q p. split; lia.
Qed.

Lemma performers_do_not_overlap_witness :
  pick_performers ["a"; "b"; "c"]%string = (["a"], ["b"; "c"])%string.
Proof.
  destruct (performers_do_not_overlap ["a"; "b"; "c"]%string) as [_ [_ [H _]]];
    [discriminate |].
  destruct (H ltac:(simpl; lia)) as [H1 H2].
  destruct (pick_performers ["a"; "b"; "c"]%string) as [high low].
  simpl in H1, H2. now rewrite H1, H2.
Defined.

(** ** Posting times *)

Section Groups.
Context {K : Type} (eqb : K -> K -> bool).

Lemma group_append_ones (k : K) (d : list (K * list Z)) :
  Forall (fun kv => snd kv <> [] /\ Forall (eq 1) (snd kv)) d ->
  Forall (fun kv => snd kv <> [] /\ Forall (eq 1) (snd kv))
    (group_append eqb k 1 d).
Proof.
  induction d as [| [k' vs] rest IH]; intros Hd; simpl.
  - repeat constructor. discriminate.
  - inversion Hd as [| ? ? [Hne Hall] Hrest]; subst. simpl in *.
    destruct (eqb k k'); constructor; simpl; auto.
    split; [destruct vs; discriminate |].
    apply Forall_app; split; [assumption | repeat constructor].
Qed.

Lemma group_append_head {V : Type} (k : K) (v : V) (d : list (K * list V)) :
  head (map fst (group_append eqb k v d))
  = match d with [] => Some k | kv :: _ => Some (fst kv) end.
Proof.
  destruct d as [| [k' vs] rest]; simpl; [reflexivity |].
  now destruct (eqb k k').
Qed.

End Groups.

Lemma posting_groups_ones (interactions : list Interaction) :
  forall hourly daily,
    Forall (fun kv => snd kv <> [] /\ Forall (eq 1) (snd kv)) hourly ->
    Forall (fun kv => snd kv <> [] /\ Forall (eq 1) (snd kv)) daily ->
    Forall (fun kv => snd kv <> [] /\ Forall (eq 1) (snd kv))
      (fst (posting_groups interactions hourly daily))
    /\ Forall (fun kv => snd kv <> [] /\ Forall (eq 1) (snd kv))
         (snd (posting_groups interactions hourly daily)).
Proof.
  induction interactions as [| i rest IH]; intros hourly daily Hh Hd; simpl.
  - now split.
  - destruct (i_success i); [| now apply IH].
    destruct (i_timestamp i); try now apply IH.
    apply IH; now apply group_append_ones.
Qed.

Lemma posting_groups_head (interactions : list Interaction) :
  forall hourly daily,
    hourly <> [] -> daily <> [] ->
    head (map fst (fst (posting_groups interactions hourly daily)))
    = head (map fst hourly)
    /\ head (map fst (snd (posting_groups interactions hourly daily)))
       = head (map fst daily).
Proof.
  induction interactions as [| i rest IH]; intros hourly daily Hh Hd; simpl.
  - now split.
  - destruct (i_success i); [| now apply IH].
    destruct (i_timestamp i); try now apply IH.
    destruct hourly as [| h hourly]; [congruence |].
    destruct daily as [| d daily]; [congruence |].
    destruct (IH (group_append Z.eqb (dt_hour t) 1 (h :: hourly))
                (group_append String.eqb (day_name (dt_weekday t)) 1
                   (d :: daily))) as [H1 H2].
    + destruct h as [k vs]. simpl. now destruct (dt_hour t =? k).
    + destruct d as [k vs]. simpl.
      now destruct (String.eqb (day_name (dt_weekday t)) k).
    + rewrite H1, H2, !group_append_head. now split.
Qed.

Lemma posting_groups_first (interactions : list Interaction) :
  match first_timed interactions with
  | None => posting_groups interactions [] [] = ([], [])
  | Some t =>
      head (map fst (fst (posting_groups interactions [] [])))
      = Some (dt_hour t)
      /\ head (map fst (snd (posting_groups interactions [] [])))
         = Some (day_name (dt_weekday t))
  end.
Proof.
  induction interactions as [| i rest IH]; simpl; [reflexivity |].
  destruct (i_success i); [| exact IH].
  destruct (i_timestamp i); try exact IH.
  apply posting_groups_head; discriminate.
Qed.

Lemma sum_Z_ones (scores : list Z) :
  Forall (eq 1) scores -> sum_Z scores = Z.of_nat (length scores).
Proof.
  induction 1 as [| x l Hx _ IH]; [reflexivity |].
  change (sum_Z (x :: l)) with (x + sum_Z l).
  change (length (x :: l)) with (S (length l)). lia.
Qed.

Lemma mean_of_ones (scores : list Z) :
  scores <> [] -> Forall (eq 1) scores -> (mean_or_zero scores == 1)%Q.
Proof.
  intros Hne Hall. destruct scores as [| x l]; [congruence |].
  unfold mean_or_zero. rewrite (sum_Z_ones _ Hall).
  apply Qmult_inv_r. intros H.
  unfold Qeq in H. cbn [Qnum Qden inject_Z] in H.
  change (length (x :: l)) with (S (length l)) in H. lia.
Qed.

Lemma means_of_ones {K : Type} (d : list (K * list Z)) :
  Forall (fun kv => snd kv <> [] /\ Forall (eq 1) (snd kv)) d ->
  Forall (fun kv => (snd kv == 1)%Q)
    (map (fun kv => (fst kv, mean_or_zero (snd kv))) d).
Proof.
  induction 1 as [| kv l [Hne Hall] _ IH]; simpl; constructor; auto.
  simpl. now apply mean_of_ones.
Qed.

Lemma max_by_value_tie {K : Type} (items : list (K * Q)) (best : K * Q) :
  (snd best == 1)%Q ->
  Forall (fun kv => (snd kv == 1)%Q) items ->
  max_by_value best items = fst best.
Proof.
  intros Hb. induction 1 as [| item rest Hi _ IH]; simpl; [reflexivity |].
  assert (Hle : Qle_bool (snd item) (snd best) = true).
  { apply Qle_bool_iff. rewrite Hi, Hb. apply Qle_refl. }
  now rewrite Hle.
Qed.

Lemma best_of_ones {K : Type} (dflt : K) (d : list (K * list Z)) :
  Forall (fun kv => snd kv <> [] /\ Forall (eq 1) (snd kv)) d ->
  match map (fun kv => (fst kv, mean_or_zero (snd kv))) d with
  | [] => dflt
  | first :: rest => max_by_value first rest
  end
  = default dflt (head (map fst d)).
Proof.
  intros Hd. apply means_of_ones in Hd.
  destruct d as [| kv rest]; [reflexivity |].
  simpl in *. inversion Hd; subst. now rewrite max_by_value_tie.
Qed.

(** X18: since [_analyze_posting_times] only counts successful
    interactions and scores each of them 1, every hourly and daily
    average it reports is 1, and the best hour and the best day are
    those of the first successful interaction whose timestamp parses
    (12 and Monday, with empty tables, when there is none), whatever
    the other interactions are. *)
Theorem posting_times_follow_first_interaction (interactions : list Interaction) :
  let r := _analyze_posting_times interactions in
  Forall (fun kv => (snd kv == 1)%Q) (hourly_performance r)
  /\ Forall (fun kv => (snd kv == 1)%Q) (daily_performance r)
  /\ match first_timed interactions with
     | Some t =>
         best_hour r = dt_hour t /\ best_day r = day_name (dt_weekday t)
     | None =>
         best_hour r = 12 /\ best_day r = "Monday"
         /\ hourly_performance r = [] /\ daily_performance r = []
     end.
Proof.
  unfold _analyze_posting_times.
  pose proof (posting_groups_first interactions) as Hfirst.
  destruct (posting_groups_ones interactions [] []) as [Hh Hd];
    [constructor | constructor |].
  destruct (posting_groups interactions [] []) as [hourly daily].
  simpl in Hh, Hd. cbn [best_hour best_day hourly_performance daily_performance].
  split; [now apply means_of_ones |]. split; [now apply means_of_ones |].
  rewrite (best_of_ones 12 hourly Hh), (best_of_ones "Monday"%string daily Hd).
  destruct (first_timed interactions) as [t |].
  - destruct Hfirst as [H1 H2]. simpl in H1, H2. now rewrite H1, H2.
  - injection Hfirst as -> ->. now repeat split.
Qed.

(** * Properties of the sales analyses *)

Lemma count_lead_keys (k : string) (b : bool) (d : list (string * Counts)) :
  forall k', k' ∈ map fst (count_lead k b d) -> k' = k \/ k' ∈ map fst d.
Proof.
  induction d as [| [k0 c] rest IH]; intros k'; simpl.
  - rewrite list_elem_of_singleton. now left.
  - destruct (String.eqb k k0); simpl; rewrite !elem_of_cons.
    + now right.
    + intros [-> | Hin]; [right; now left |].
      destruct (IH _ Hin); [now left | right; now right].
Qed.

Lemma count_lead_keys_in (P : string -> Prop) (k : string) (b : bool)
    (d : list (string * Counts)) :
  P k -> Forall P (map fst d) -> Forall P (map fst (count_lead k b d)).
Proof.
  intros Hk Hd. apply list.Forall_forall. intros k' Hin.
  apply count_lead_keys in Hin. destruct Hin as [-> | Hin]; [exact Hk |].
  rewrite list.Forall_forall in Hd. now apply Hd.
Qed.

Lemma count_lead_ok (k : string) (b : bool) (n c : Z)
    (d : list (string * Counts)) :
  counts_ok n c d ->
  counts_ok (n + 1) (c + if b then 1 else 0) (count_lead k b d).
Proof.
  revert n c. induction d as [| [k0 v] rest IH]; intros n c (Ht & Hc & Hrows & Hnd).
  - simpl in Ht, Hc. subst. repeat split; simpl; try (destruct b; lia).
    + repeat constructor; simpl; destruct b; lia.
    + apply NoDup_singleton.
  - change (sum_Z (map (fun kv => total (snd kv)) ((k0, v) :: rest)))
      with (total v + sum_Z (map (fun kv => total (snd kv)) rest)) in Ht.
    change (sum_Z (map (fun kv => converted (snd kv)) ((k0, v) :: rest)))
      with (converted v + sum_Z (map (fun kv => converted (snd kv)) rest)) in Hc.
    inversion Hrows as [| ? ? Hv Hrest]; subst.
    change (map fst ((k0, v) :: rest)) with (k0 :: map fst rest) in Hnd.
    apply NoDup_cons in Hnd as [Hk0 Hnd].
    destruct Hv as (Hv1 & Hv2). simpl in Hv1, Hv2.
    simpl. destruct (String.eqb_spec k k0) as [-> | Hne].
    + repeat split; simpl; try (destruct b; lia).
      * constructor; [| assumption]. unfold row_ok. simpl. destruct b; lia.
      * apply NoDup_cons. now split.
    + destruct (IH _ _ (conj eq_refl (conj eq_refl (conj Hrest Hnd))))
        as (Ht' & Hc' & Hrows' & Hnd').
      repeat split; simpl.
      * unfold sum_Z in *. simpl. fold sum_Z. unfold sum_Z in Ht'. lia.
      * unfold sum_Z in *. simpl. unfold sum_Z in Hc'. destruct b; lia.
      * constructor; [split; simpl; lia | assumption].
      * apply NoDup_cons. split; [| assumption].
        intros Hin. apply count_lead_keys in Hin as [-> | Hin]; congruence || auto.
Qed.

Lemma converted_count_cons (lead : Lead) (leads : list Lead) :
  converted_count (lead :: leads)
  = (if String.eqb (l_status lead) "converted" then 1 else 0)
    + converted_count leads.
Proof.
  unfold converted_count. simpl.
  destruct (String.eqb (l_status lead) "converted"); [| lia].
  change (length (lead :: ?l)) with (S (length l)). simpl length. lia.
Qed.

Lemma conversion_data_ok (leads : list Lead) :
  forall data n c,
    counts_ok n c (data_by_platform data) ->
    counts_ok n c (data_by_qualification data) ->
    counts_ok n c (data_by_lead_score data) ->
    Forall (fun k => k ∈ score_ranges) (map fst (data_by_lead_score data)) ->
    let data' := fold_left (fun data lead => count_conversion lead data)
                   leads data in
    counts_ok (n + Z.of_nat (length leads)) (c + converted_count leads)
      (data_by_platform data')
    /\ counts_ok (n + Z.of_nat (length leads)) (c + converted_count leads)
         (data_by_qualification data')
    /\ counts_ok (n + Z.of_nat (length leads)) (c + converted_count leads)
         (data_by_lead_score data')
    /\ Forall (fun k => k ∈ score_ranges) (map fst (data_by_lead_score data')).
Proof.
  induction leads as [| lead rest IH]; intros data n c Hp Hq Hs Hk.
  - cbn [fold_left length]. change (converted_count []) with 0.
    change (Z.of_nat 0) with 0. rewrite !Z.add_0_r. auto.
  - cbn [fold_left]. rewrite converted_count_cons.
    change (length (lead :: rest)) with (S (length rest)).
    replace (n + Z.of_nat (S (length rest)))
      with (n + 1 + Z.of_nat (length rest)) by lia.
    rewrite Z.add_assoc.
    apply IH; cbn [count_conversion data_by_platform data_by_qualification
                   data_by_lead_score]; try now apply count_lead_ok.
    apply count_lead_keys_in; [| assumption].
    unfold _categorize_lead_score, score_ranges.
    repeat match goal with
           | |- context [if ?b then _ else _] => destruct b
           end; apply list_elem_of_In; simpl; tauto.
Qed.

Lemma rate_table_totals (d : list (string * Counts)) :
  map (fun kv => total_leads (snd kv)) (rate_table d)
  = map (fun kv => total (snd kv)) d
  /\ map (fun kv => converted_leads (snd kv)) (rate_table d)
     = map (fun kv => converted (snd kv)) d
  /\ map fst (rate_table d) = map fst d.
Proof.
  unfold rate_table. rewrite !map_map. repeat split.
Qed.

(** X19: each of the three tables of [_analyze_conversion_patterns]
    (by platform, by qualification, by score range) partitions the
    leads: its keys are distinct, its totals add up to the number of
    leads and its converted counts to the number of leads whose status
    is converted. *)
Theorem conversion_tables_partition_leads (leads : list Lead) :
  let r := _analyze_conversion_patterns leads in
  Forall
    (fun table =>
       NoDup (map fst table)
       /\ sum_Z (map (fun kv => total_leads (snd kv)) table)
          = Z.of_nat (length leads)
       /\ sum_Z (map (fun kv => converted_leads (snd kv)) table)
          = converted_count leads)
    [by_platform r; by_qualification r; by_lead_score r].
Proof.
  assert (H0 : counts_ok 0 0 []) by (repeat split; constructor).
  destruct (conversion_data_ok leads
              {| data_by_platform := []; data_by_qualification := [];
                 data_by_lead_score := []; data_time_to_conversion := [] |}
              0 0 H0 H0 H0 ltac:(constructor))
    as (Hp & Hq & Hs & _).
  fold (conversion_data leads) in Hp, Hq, Hs.
  unfold _analyze_conversion_patterns.
  cbn [by_platform by_qualification by_lead_score].
  assert (Htab : forall d,
             counts_ok (0 + Z.of_nat (length leads))
               (0 + converted_count leads) d ->
             NoDup (map fst (rate_table d))
             /\ sum_Z (map (fun kv => total_leads (snd kv)) (rate_table d))
                = Z.of_nat (length leads)
             /\ sum_Z (map (fun kv => converted_leads (snd kv)) (rate_table d))
                = converted_count leads).
  { intros d (Ht & Hc & _ & Hnd).
    destruct (rate_table_totals d) as (-> & -> & ->).
    repeat split; (assumption || lia). }
  repeat first [apply Forall_nil_2 | apply Forall_cons_2; [now apply Htab |]].
Qed.

Lemma float_mul_bounds (x : Q) (k : Z) :
  (0 <= x <= 1)%Q -> 0 <= k ->
  (0 <= float_mul x k <= inject_Z k)%Q.
Proof.
  intros [H0 H1] Hk. unfold Qle in H0, H1. cbn [Qnum Qden] in H0, H1.
  unfold float_mul. split.
  - apply (binary64_ge _ _ 0); [reflexivity | nia].
  - apply binary64_le; [reflexivity | nia].
Qed.

Lemma float_mul_one (x : Q) (k : Z) :
  (x == 1)%Q -> (float_mul x k == inject_Z k)%Q.
Proof.
  intros H. unfold Qeq in H. cbn [Qnum Qden] in H.
  unfold float_mul. apply Qle_antisym.
  - apply binary64_le; [reflexivity | nia].
  - apply binary64_ge; [reflexivity | nia].
Qed.

Lemma binary64_unit (n d : Z) :
  0 < d -> 0 <= n <= d -> (0 <= binary64 n d <= 1)%Q.
Proof.
  intros Hd Hn. split.
  - apply (binary64_ge _ _ 0); lia.
  - apply (binary64_le _ _ 1); lia.
Qed.

(** In binary64, 29 leads out of 100 are a rate just below 29. *)
Example rate_of_29_in_100 :
  (conversion_rate (rate_row {| total := 100; converted := 29 |}) < 29)%Q
  /\ (28 < conversion_rate (rate_row {| total := 100; converted := 29 |}))%Q.
Proof. split; reflexivity. Qed.

(** X20: every row of the conversion tables counts at least one lead
    and no more converted leads than leads, so the guard against a zero
    total never applies: the conversion rate is always the rounded
    quotient times 100, rounded, and lies between 0 and 100; it is 0
    when no lead of the row converted and 100 when all of them did.
    The score table has no key outside the five ranges. *)
Theorem conversion_rates_are_percentages (leads : list Lead) :
  let r := _analyze_conversion_patterns leads in
  Forall
    (fun table =>
       Forall
         (fun kv : string * ConversionRate =>
            1 <= total_leads (snd kv)
            /\ 0 <= converted_leads (snd kv) <= total_leads (snd kv)
            /\ conversion_rate (snd kv)
               = float_mul
                   (binary64 (converted_leads (snd kv)) (total_leads (snd kv)))
                   100
            /\ (0 <= conversion_rate (snd kv) <= 100)%Q
            /\ (converted_leads (snd kv) = 0 ->
                (conversion_rate (snd kv) == 0)%Q)
            /\ (converted_leads (snd kv) = total_leads (snd kv) ->
                (conversion_rate (snd kv) == 100)%Q))
         table)
    [by_platform r; by_qualification r; by_lead_score r]
  /\ Forall (fun k => k ∈ score_ranges) (map fst (by_lead_score r)).
Proof.
  assert (H0 : counts_ok 0 0 []) by (repeat split; constructor).
  destruct (conversion_data_ok leads
              {| data_by_platform := []; data_by_qualification := [];
                 data_by_lead_score := []; data_time_to_conversion := [] |}
              0 0 H0 H0 H0 ltac:(constructor))
    as (Hp & Hq & Hs & Hk).
  fold (conversion_data leads) in Hp, Hq, Hs, Hk.
  unfold _analyze_conversion_patterns.
  cbn [by_platform by_qualification by_lead_score].
  assert (Hrow : forall d,
             Forall (fun kv : string * Counts => row_ok (snd kv)) d ->
             Forall
               (fun kv : string * ConversionRate =>
                  1 <= total_leads (snd kv)
                  /\ 0 <= converted_leads (snd kv) <= total_leads (snd kv)
                  /\ conversion_rate (snd kv)
                     = float_mul
                         (binary64 (converted_leads (snd kv))
                            (total_leads (snd kv)))
                         100
                  /\ (0 <= conversion_rate (snd kv) <= 100)%Q
                  /\ (converted_leads (snd kv) = 0 ->
                      (conversion_rate (snd kv) == 0)%Q)
                  /\ (converted_leads (snd kv) = total_leads (snd kv) ->
                      (conversion_rate (snd kv) == 100)%Q))
               (rate_table d)).
  { intros d Hd. unfold rate_table. apply Forall_map.
    eapply Forall_impl; [exact Hd |].
    intros [k v] (Hv1 & Hv2 & Hv3). simpl in *.
    destruct (Z.ltb_spec 0 (total v)) as [Hpos | Hneg]; [| lia].
    pose proof (binary64_unit (converted v) (total v) Hpos ltac:(lia)) as Hunit.
    split; [lia |]. split; [lia |]. split; [reflexivity |].
    split; [exact (float_mul_bounds _ 100 Hunit ltac:(lia)) |].
    split.
    - intros ->. reflexivity.
    - intros ->. apply (float_mul_one _ 100).
      apply Qle_antisym; [apply (binary64_le _ _ 1) | apply (binary64_ge _ _ 1)];
        lia. }
  split.
  - destruct Hp as (_ & _ & Hp & _), Hq as (_ & _ & Hq & _),
      Hs as (_ & _ & Hs & _).
    repeat first [apply Forall_nil_2 | apply Forall_cons_2; [now apply Hrow |]].
  - destruct (rate_table_totals (data_by_lead_score (conversion_data leads)))
      as (_ & _ & ->). exact Hk.
Qed.

(** ** Response time advice *)

Lemma sum_bits (l : list Z) :
  Forall (fun z => z = 0 \/ z = 1) l ->
  0 <= sum_Z l /\ (1 ∈ l -> 0 < sum_Z l) /\ (1 ∉ l -> sum_Z l = 0).
Proof.
  induction 1 as [| z l Hz _ (IH1 & IH2 & IH3)].
  - repeat split; [reflexivity | intros H; inversion H].
  - change (sum_Z (z :: l)) with (z + sum_Z l).
    rewrite elem_of_cons. repeat split.
    + lia.
    + intros [<- | Hin]; [lia | specialize (IH2 Hin); lia].
    + intros Hno. rewrite IH3 by tauto. destruct Hz; [lia | subst; tauto].
Qed.

Lemma mean_bits (l : list Z) :
  Forall (fun z => z = 0 \/ z = 1) l ->
  (0 <= mean_or_of_zero l)%Q
  /\ (1 ∈ l -> (0 < mean_or_of_zero l)%Q)
  /\ (1 ∉ l -> (mean_or_of_zero l == 0)%Q).
Proof.
  intros Hl. destruct (sum_bits l Hl) as (H1 & H2 & H3).
  destruct l as [| z l].
  - repeat split; [discriminate | intros H; inversion H].
  - unfold mean_or_of_zero, mean_or_zero.
    set (total := sum_Z (z :: l)) in *.
    assert (Hn : (0 < inject_Z (Z.of_nat (length (z :: l))))%Q).
    { change 0%Q with (inject_Z 0). rewrite <- Zlt_Qlt.
      change (length (z :: l)) with (S (length l)). lia. }
    repeat split.
    + apply Qle_shift_div_l; [exact Hn |]. rewrite Qmult_0_l.
      change 0%Q with (inject_Z 0). now rewrite <- Zle_Qle.
    + intros Hin. apply Qlt_shift_div_l; [exact Hn |]. rewrite Qmult_0_l.
      change 0%Q with (inject_Z 0). rewrite <- Zlt_Qlt. now apply H2.
    + intros Hno. rewrite (H3 Hno). unfold Qdiv. apply Qmult_0_l.
Qed.

Lemma responders_bits (leads : list Lead) :
  let pairs := conversions_by_response_time leads in
  Forall (fun z => z = 0 \/ z = 1) (fast_responders pairs)
  /\ Forall (fun z => z = 0 \/ z = 1) (slow_responders pairs)
  /\ (1 ∈ fast_responders pairs <-> Exists converted_fast leads)
  /\ (1 ∈ slow_responders pairs <-> Exists converted_slow leads).
Proof.
  induction leads as [| lead rest (IHf & IHs & IHef & IHes)].
  - repeat split; try constructor; intros H; inversion H.
  - assert (Hfast : converted_fast lead
                    <-> l_status lead = "converted"
                        /\ Qle_bool (default 24%Q (l_avg_response_time_hours lead)) 2
                           = true).
    { unfold converted_fast. rewrite Qle_bool_iff.
      destruct (l_avg_response_time_hours lead) as [rt |]; simpl.
      - split; [intros (Hc & rt' & [= <-] & Hle); now split
               | intros (Hc & Hle); split; [exact Hc | now exists rt]].
      - split; [intros (_ & rt' & [=] & _) | intros (_ & Hle)].
        unfold Qle in Hle. simpl in Hle. lia. }
    assert (Hslow : converted_slow lead
                    <-> l_status lead = "converted"
                        /\ negb (Qle_bool (default 24%Q (l_avg_response_time_hours lead)) 12)
                           = true).
    { unfold converted_slow. rewrite negb_true_iff.
      rewrite <- not_true_iff_false, Qle_bool_iff.
      split; intros (Hc & Hlt); (split; [exact Hc |]).
      - now apply Qlt_not_le.
      - now apply Qnot_le_lt. }
    cbv zeta in *. unfold fast_responders, slow_responders in *.
    cbn [conversions_by_response_time map List.filter fst snd].
    fold (conversions_by_response_time rest).
    rewrite !Exists_cons, Hfast, Hslow, <- IHef, <- IHes.
    destruct (String.eqb_spec (l_status lead) "converted") as [Hc | Hc];
      destruct (Qle_bool (default 24%Q (l_avg_response_time_hours lead)) 2);
      destruct (Qle_bool (default 24%Q (l_avg_response_time_hours lead)) 12);
      cbn [negb map snd]; rewrite ?elem_of_cons;
      repeat split; try (constructor; [auto | assumption]); try assumption;
      intuition (discriminate || congruence).
Qed.

(** X21: [_analyze_customer_behavior] fills in nothing when there is no
    lead; otherwise its advice on the response time is one of two
    texts, and it is "< 2 hours" only if some lead that was answered
    within two hours converted: a lead without a recorded response time
    counts as answered after 24 hours, and a tie, also the one with no
    conversion at all, gives "> 12 hours".  A converted fast lead is
    enough when no lead answered after more than twelve hours
    converted. *)
Theorem response_time_advice (leads : list Lead) :
  match _analyze_customer_behavior leads with
  | None => leads = []
  | Some r =>
      leads <> []
      /\ (optimal_response_time r = "< 2 hours"
          \/ optimal_response_time r = "> 12 hours")
      /\ (optimal_response_time r = "< 2 hours" ->
          Exists converted_fast leads)
      /\ (Exists converted_fast leads -> ~ Exists converted_slow leads ->
          optimal_response_time r = "< 2 hours")
  end.
Proof.
  destruct (responders_bits leads) as (Hf & Hs & Hef & Hes). cbv zeta in *.
  unfold _analyze_customer_behavior.
  destruct leads as [| lead rest]; [reflexivity |].
  set (pairs := conversions_by_response_time (lead :: rest)) in *.
  assert (Hpairs : pairs <> []) by discriminate.
  destruct pairs as [| p pairs'] eqn:Hp; [congruence |]. rewrite <- Hp in *.
  cbn [optimal_response_time].
  destruct (mean_bits _ Hf) as (Hf0 & Hf1 & Hf2).
  destruct (mean_bits _ Hs) as (Hs0 & Hs1 & Hs2).
  split; [discriminate |].
  destruct (Qle_bool (mean_or_of_zero (fast_responders pairs))
              (mean_or_of_zero (slow_responders pairs))) eqn:Hle; cbn [negb].
  - split; [now right |]. split; [discriminate |].
    intros Hfast Hslow. apply Hef in Hfast. rewrite <- Hes in Hslow.
    apply Qle_bool_iff in Hle. rewrite (Hs2 Hslow) in Hle.
    specialize (Hf1 Hfast). exfalso. now apply (Qlt_not_le _ _ Hf1).
  - split; [now left |]. split; [| reflexivity].
    intros _. apply Hef.
    destruct (decide (1 ∈ fast_responders pairs)) as [Hin | Hno]; [exact Hin |].
    exfalso. apply not_true_iff_false in Hle. apply Hle.
    apply Qle_bool_iff. now rewrite (Hf2 Hno).
Qed.

Lemma response_time_advice_witness :
  optimal_response_time
    (default {| fast_response_conversion := 0; slow_response_conversion := 0;
                optimal_response_time := "" |}
       (_analyze_customer_behavior
          [sample_lead "twitter" "converted" 70 (Some 1%Q);
           sample_lead "mastodon" "new" 30 None]))
  = "< 2 hours".
Proof.
  pose proof (response_time_advice
                [sample_lead "twitter" "converted" 70 (Some 1%Q);
                 sample_lead "mastodon" "new" 30 None]) as H.
  destruct (_analyze_customer_behavior _) as [r |]; [| discriminate H].
  destruct H as (_ & _ & _ & H). apply H.
  - left. split; [reflexivity |]. exists 1%Q.
    split; [reflexivity | unfold Qle; simpl; lia].
  - intros Hex. rewrite !Exists_cons, Exists_nil in Hex.
    destruct Hex as [[_ Hlt] | [[Hc _] | []]]; [| discriminate Hc].
    unfold Qlt in Hlt. simpl in Hlt. lia.
Defined.

(** * Properties of the system controller *)

(** X22: [AureliusSystem.stop] does nothing at all on a system that is
    not running, not even setting the shutdown event.  On a running
    system it never raises an error, whatever the announcement, the
    scheduler or the data store do, and it always sets the shutdown
    event; it clears the running flag exactly when the announcement
    (failed or not), the scheduler's stop and the closing of the data
    store all came through. *)
Theorem system_stop_never_fails (ext : Main.Services) (a : Main.App) :
  (Main.running (Main.system a) = false -> Main.stop ext a = (Val tt, a))
  /\ (Main.running (Main.system a) = true ->
      (forall msg, fst (Main.stop ext a) <> Raise (Error msg))
      /\ Main.shutdown_event (Main.system (snd (Main.stop ext a))) = true
      /\ Main.sys (snd (Main.stop ext a))
         = snd (Main.shutdown_steps ext (Main.sys a))
      /\ (Main.running (Main.system (snd (Main.stop ext a))) = false
          <-> fst (Main.shutdown_steps ext (Main.sys a)) = Val tt)).
Proof.
  unfold Main.stop. split; intros Hrun; rewrite Hrun; [reflexivity |].
  cbn [negb].
  destruct (Main.shutdown_steps ext (Main.sys a)) as [[[] | [msg |]] s'];
    cbn [fst snd Main.system Main.sys Main.shutdown_event Main.running];
    rewrite ?Hrun; repeat split; try discriminate; try reflexivity;
    intros; discriminate.
Qed.

Lemma system_stop_never_fails_witness :
  Main.shutdown_event
    (Main.system (snd (Main.stop Main.discord_down (Main.up three_runners))))
  = true
  /\ Main.running
       (Main.system (snd (Main.stop Main.discord_down (Main.up three_runners))))
     = false.
Proof.
  destruct (system_stop_never_fails Main.discord_down (Main.up three_runners))
    as [_ H].
  destruct (H eq_refl) as (_ & Hevent & _ & Hflag).
  split; [exact Hevent | apply Hflag; reflexivity].
Defined.

(** X23: when the scheduler's stop raises an error, as it does when a
    cancelled runner ends with an exception of its own, the controller's
    stop still returns normally and sets the shutdown event, but the
    data store is never closed and the controller stays marked as
    running, over a scheduler that is itself still marked as running
    with the state its interrupted stop left. *)
Theorem failed_drain_leaves_system_running (ext : Main.Services) (a : Main.App)
    (s1 s2 : Sys) (msg : string)
    (Hrun : Main.running (Main.system a) = true)
    (Hannounce :
       try_except
         (Main.post_announcement ext "System Shutdown"
            "🛑 AURELIUS system is shutting down gracefully...")
         (fun _ => ret tt) (Main.sys a)
       = (Val tt, s1))
    (Hdrain : stop s1 = (Raise (Error msg), s2)) :
  Main.stop ext a
  = (Val tt,
     {| Main.system := {| Main.running := true; Main.shutdown_event := true |};
        Main.sys := s2 |})
  /\ is_running (self s2) = true.
Proof.
  split.
  - unfold Main.stop, Main.shutdown_steps, Main.stop_scheduler, bind.
    now rewrite Hrun, Hannounce, Hdrain.
  - revert Hdrain. unfold stop, bind, gets, modify_self.
    destruct (is_running (self s1)) eqn:Hon; cbn [negb]; [| discriminate].
    destruct (cancel_each (running_tasks (self s1)) s1) as [[[] | e] s'] eqn:Hc;
      [discriminate |].
    intros [= -> ->].
    enough (Hkeep : forall items s r s',
               cancel_each items s = (r, s') ->
               is_running (self s') = is_running (self s)).
    { rewrite (Hkeep _ _ _ _ Hc). exact Hon. }
    clear. induction items as [| [n t] rest IH]; intros s r s' H.
    + injection H as _ <-. reflexivity.
    + cbn [cancel_each] in H. unfold bind in H.
      destruct (task_done t); cbn [negb] in H.
      * cbn in H. now apply IH in H.
      * unfold task_cancel, try_cancelled, await_task, bind, modify_env,
          modify_self, ret, raise in H.
        destruct (on_cancel t); cbn in H;
          first [apply IH in H; exact H | injection H as _ <-; reflexivity].
Qed.

Lemma failed_drain_leaves_system_running_witness :
  Main.stop Main.discord_down (Main.up crashing_on_cancel)
  = (Val tt,
     {| Main.system := {| Main.running := true; Main.shutdown_event := true |};
        Main.sys := snd (stop crashing_on_cancel) |})
  /\ is_running (self (snd (stop crashing_on_cancel))) = true.
Proof.
  apply (failed_drain_leaves_system_running Main.discord_down
           (Main.up crashing_on_cancel) crashing_on_cancel _ "boom");
    reflexivity.
Defined.
